(** * Havona ROFL commodity price oracle (rofl-oracle/oracle.py)

    A shallow embedding of the oracle's polling cycle
    (fetch -> normalize -> batch -> submit -> sleep) together with the
    library semantics the cycle depends on:

    - [decimal.Decimal] arithmetic in the interpreter's default context
      (the source never changes the context);
    - [Web3.keccak], i.e. Keccak-256 with the original 0x01 padding;
    - the try/except structure of the adapter, the submitter and the
      main loop, as a writer/error monad over an event trace.
*)

From Stdlib Require Import ZArith NArith QArith Qround Qpower List String Ascii Bool Lia.
From Stdlib.Strings Require Import Byte.
Import ListNotations.
Local Open Scope Z_scope.

(* ===================================================================== *)
(** * Exceptions and results *)
(* ===================================================================== *)

(** The Python exceptions that can occur in the modelled code. *)
Inductive exn : Type :=
| InvalidOperation                 (* decimal.InvalidOperation (trapped) *)
| Overflow                         (* decimal.Overflow (trapped) *)
| OverflowError                    (* int(Decimal('Infinity')); time.sleep *)
| ValueError                       (* int(Decimal('NaN')) *)
| KeyError (key : string)
| IndexError
| TypeError
| RequestException (kind : string) (* requests: ConnectionError, Timeout, ... *)
| HTTPError (status : Z)           (* resp.raise_for_status() *)
| JSONDecodeError                  (* resp.json() *)
| Web3Exception (what : string)    (* any error raised by web3 / the RPC node *)
| OSError (what : string)          (* time.sleep: the system call failed *)
| SystemExit (code : Z).           (* sys.exit (line 185): a BaseException,
                                      which [except Exception] lets through *)

(** [isinstance(e, Exception)]: what an [except Exception] clause catches. *)
Definition is_Exception (e : exn) : bool :=
  match e with
  | SystemExit _ => false
  | _ => true
  end.

Inductive result (A : Type) : Type :=
| Returns (a : A)
| Raises (e : exn).
Arguments Returns {A} a.
Arguments Raises {A} e.

Definition rbind {A B} (r : result A) (k : A -> result B) : result B :=
  match r with
  | Returns a => k a
  | Raises e => Raises e
  end.

Declare Scope result_scope.
Delimit Scope result_scope with result.
Notation "'let?' x ':=' r 'in' k" := (rbind r (fun x => k))
  (at level 10, x name, r at level 100, k at level 200) : result_scope.

(* ===================================================================== *)
(** * decimal.Decimal *)
(* ===================================================================== *)

(** A [Decimal] is a sign, a coefficient (the digit string [_int]) and an
    exponent, or one of the special values.  Quiet and signalling NaNs
    and their payloads are not told apart: the one operation the program
    applies to a NaN, the comparison with 0, raises InvalidOperation for
    all of them. *)
Inductive Decimal : Type :=
| Finite (sign : bool) (coeff : N) (exp : Z)
| Infinity (sign : bool)
| NaN.

(** The arithmetic context; rounding is ROUND_HALF_EVEN, clamp is 0 and
    the trapped signals are InvalidOperation, DivisionByZero and Overflow,
    as in [decimal.DefaultContext]. *)
Record Context : Type := { prec : Z; Emax : Z; Emin : Z }.

Definition Etiny (ctx : Context) : Z := Emin ctx - prec ctx + 1.
Definition Etop (ctx : Context) : Z := Emax ctx - prec ctx + 1.

Definition DefaultContext : Context :=
  {| prec := 28; Emax := 999999; Emin := -999999 |}.

(** [len(self._int)]: the number of decimal digits of a coefficient
    (1 for the coefficient 0). *)
Fixpoint ndigits_aux (fuel : nat) (c : Z) : Z :=
  match fuel with
  | O => 1
  | S fuel' => if c <? 10 then 1 else 1 + ndigits_aux fuel' (c / 10)
  end.

Definition ndigits (c : Z) : Z := ndigits_aux (Z.to_nat (Z.log2 c)) c.

(** [_round_half_even(self, digits) > 0]: does dropping the [k] low digits
    of [c] round the kept part up?  More than half, or exactly half with
    an odd kept part. *)
Definition round_half_even_up (c k : Z) : bool :=
  let q := c / 10 ^ k in
  let r := c mod 10 ^ k in
  (10 ^ k <? 2 * r) || ((2 * r =? 10 ^ k) && Z.odd q).

(** [Decimal._fix(context)]: round to the context's precision, raising
    decimal.Overflow above [Emax] and rounding subnormals at [Etiny]. *)
Definition Decimal_fix (ctx : Context) (d : Decimal) : result Decimal :=
  match d with
  | Finite s c e =>
      if (c =? 0)%N then
        Returns (Finite s 0 (Z.min (Z.max e (Etiny ctx)) (Emax ctx)))
      else
        let exp_min := ndigits (Z.of_N c) + e - prec ctx in
        if Etop ctx <? exp_min then Raises Overflow
        else
          let exp_min := Z.max exp_min (Etiny ctx) in
          if e <? exp_min then
            let changed := round_half_even_up (Z.of_N c) (exp_min - e) in
            let coeff := Z.of_N c / 10 ^ (exp_min - e) in
            let '(coeff, exp_min) :=
              if changed then
                if prec ctx <? ndigits (coeff + 1)
                then ((coeff + 1) / 10, exp_min + 1)
                else (coeff + 1, exp_min)
              else (coeff, exp_min) in
            if Etop ctx <? exp_min then Raises Overflow
            else Returns (Finite s (Z.to_N coeff) exp_min)
          else Returns d
  | _ => Returns d
  end.

(** [Decimal(n)] for a Python int. *)
Definition Decimal_of_int (n : Z) : Decimal :=
  Finite (n <? 0) (Z.abs_N n) 0.

(** [Decimal.__mul__]. *)
Definition Decimal_mul (ctx : Context) (a b : Decimal) : result Decimal :=
  match a, b with
  | NaN, _ | _, NaN => Returns NaN
  | Infinity s1, Infinity s2 => Returns (Infinity (xorb s1 s2))
  | Infinity s1, Finite s2 c2 _ =>
      if (c2 =? 0)%N then Raises InvalidOperation
      else Returns (Infinity (xorb s1 s2))
  | Finite s1 c1 _, Infinity s2 =>
      if (c1 =? 0)%N then Raises InvalidOperation
      else Returns (Infinity (xorb s1 s2))
  | Finite s1 c1 e1, Finite s2 c2 e2 =>
      Decimal_fix ctx (Finite (xorb s1 s2) (c1 * c2) (e1 + e2))
  end.

(** [price > 0]: [Decimal.__gt__] against [Decimal(0)].  An ordering
    comparison involving a NaN signals InvalidOperation. *)
Definition Decimal_gt_0 (d : Decimal) : result bool :=
  match d with
  | NaN => Raises InvalidOperation
  | Infinity s => Returns (negb s)
  | Finite s c _ => Returns (negb s && negb (c =? 0)%N)
  end.

(** The integer part of [c * 10^e] for a coefficient [c >= 0]: append
    [e] zeros, or drop the last [-e] digits. *)
Definition scale10 (c e : Z) : Z :=
  if 0 <=? e then c * 10 ^ e else c / 10 ^ (- e).

(** [Decimal.__int__]: truncation toward zero. *)
Definition Decimal_int (d : Decimal) : result Z :=
  match d with
  | NaN => Raises ValueError
  | Infinity _ => Raises OverflowError
  | Finite s c e =>
      let m := scale10 (Z.of_N c) e in
      Returns (if s then - m else m)
  end.

(** The mathematical value of a finite decimal. *)
Definition Decimal_value (s : bool) (c : N) (e : Z) : Q :=
  ((if s then -1 else 1) * inject_Z (Z.of_N c) * Qpower 10 e)%Q.

(* ===================================================================== *)
(** * The price normalizer (oracle.py, lines 120-122) *)
(* ===================================================================== *)

(** [if price > 0: int(price * 1_000_000)]; [None] stands for a price the
    positivity test rejects.  The product is computed in the current
    decimal context, which the program leaves at its default: 28
    significant digits, ROUND_HALF_EVEN, exponents up to 999999. *)
Definition normalize_price (price : Decimal) : result (option Z) :=
  (let? positive := Decimal_gt_0 price in
   if positive then
     let? scaled := Decimal_mul DefaultContext price (Decimal_of_int 1000000) in
     let? raw := Decimal_int scaled in
     Returns (Some raw)
   else Returns None)%result.


(** ** Notions used to state and prove the normalizer's properties *)

(** [X / G] rounded to the nearest integer, ties to the even one. *)
Definition rne (X G : Z) : Z :=
  let q := X / G in
  let r := X mod G in
  if (G <? 2 * r) || ((2 * r =? G) && Z.odd q) then q + 1 else q.

(** The exponent [Decimal_fix] rounds a non-zero coefficient [C] with
    exponent [e] to: [prec] digits below the leading one, but not below
    [Etiny]. *)
Definition grid (ctx : Context) (C e : Z) : Z :=
  Z.max (ndigits C + e - prec ctx) (Etiny ctx).

(** The value [C * 10^e] as a multiple of [10^g], rounded half-even. *)
Definition on_grid (C e g : Z) : Z :=
  if e <? g then rne C (10 ^ (g - e)) else C * 10 ^ (e - g).

(** Order of the values [C1 * 10^e1] and [C2 * 10^e2], on integers. *)
Definition value_le (C1 e1 C2 e2 : Z) : Prop :=
  C1 * 10 ^ (e1 - Z.min e1 e2) <= C2 * 10 ^ (e2 - Z.min e1 e2).

(* ===================================================================== *)
(** * Web3.keccak: Keccak-256 *)
(* ===================================================================== *)

Module Keccak.
Local Open Scope N_scope.

(** 64-bit lanes as [N]; the state is 25 lanes, lane (x, y) at index
    [x + 5 * y]. *)
Definition lane_mod : N := 2 ^ 64.

Definition rotl64 (x n : N) : N :=
  N.lor (N.shiftl x n mod lane_mod) (N.shiftr x (64 - n)).

Definition not64 (x : N) : N := N.lxor x (lane_mod - 1).

Definition lane (st : list N) (x y : nat) : N :=
  nth (x mod 5 + 5 * (y mod 5))%nat st 0.

Definition round_constants : list N :=
  [ 0x0000000000000001; 0x0000000000008082; 0x800000000000808A;
    0x8000000080008000; 0x000000000000808B; 0x0000000080000001;
    0x8000000080008081; 0x8000000000008009; 0x000000000000008A;
    0x0000000000000088; 0x0000000080008009; 0x000000008000000A;
    0x000000008000808B; 0x800000000000008B; 0x8000000000008089;
    0x8000000000008003; 0x8000000000008002; 0x8000000000000080;
    0x000000000000800A; 0x800000008000000A; 0x8000000080008081;
    0x8000000000008080; 0x0000000080000001; 0x8000000080008008 ].

Definition rotation_offsets : list N :=
  [  0;  1; 62; 28; 27;
    36; 44;  6; 55; 20;
     3; 10; 43; 25; 39;
    41; 45; 15; 21;  8;
    18;  2; 61; 56; 14 ].

Definition positions : list nat := seq 0 25.

Definition theta (a : list N) : list N :=
  let c x := N.lxor (lane a x 0) (N.lxor (lane a x 1) (N.lxor (lane a x 2)
               (N.lxor (lane a x 3) (lane a x 4)))) in
  let d x := N.lxor (c (x + 4)%nat) (rotl64 (c (x + 1)%nat) 1) in
  map (fun i => N.lxor (nth i a 0) (d (i mod 5)%nat)) positions.

(** rho and pi together: [B[y, 2x + 3y] = rotl (A[x, y], r[x, y])]; the
    source lane of target (X, Y) is (x, y) = (X + 3Y, X). *)
Definition rho_pi (a : list N) : list N :=
  map (fun i =>
         let X := (i mod 5)%nat in
         let Y := (i / 5)%nat in
         let x := ((X + 3 * Y) mod 5)%nat in
         let y := X in
         rotl64 (lane a x y) (nth (x + 5 * y)%nat rotation_offsets 0))
      positions.

Definition chi (b : list N) : list N :=
  map (fun i =>
         let x := (i mod 5)%nat in
         let y := (i / 5)%nat in
         N.lxor (lane b x y)
                (N.land (not64 (lane b (x + 1) y)) (lane b (x + 2) y)))
      positions.

Definition iota (rc : N) (a : list N) : list N :=
  match a with
  | [] => []
  | a0 :: rest => N.lxor a0 rc :: rest
  end.

Definition keccak_round (a : list N) (rc : N) : list N :=
  iota rc (chi (rho_pi (theta a))).

Definition keccak_f1600 (a : list N) : list N :=
  fold_left keccak_round round_constants a.

(** Rate of Keccak-256 in bytes. *)
Definition rate : nat := 136.

(** Multi-rate padding with the original Keccak domain byte 0x01. *)
Definition pad (msg : list N) : list N :=
  let q := (rate - (List.length msg mod rate))%nat in
  match q with
  | 1%nat => msg ++ [0x81]
  | _ => msg ++ [0x01] ++ repeat 0 (q - 2) ++ [0x80]
  end.

(** Little-endian lanes. *)
Fixpoint lane_of_bytes (bs : list N) : N :=
  match bs with
  | [] => 0
  | b :: rest => b + 256 * lane_of_bytes rest
  end.

Fixpoint bytes_of_lane (n : nat) (l : N) : list N :=
  match n with
  | O => []
  | S n' => (l mod 256) :: bytes_of_lane n' (l / 256)
  end.

Fixpoint lanes_of_block (n : nat) (block : list N) : list N :=
  match n with
  | O => []
  | S n' => lane_of_bytes (firstn 8 block) :: lanes_of_block n' (skipn 8 block)
  end.

Fixpoint xor_lanes (st blk : list N) : list N :=
  match st, blk with
  | s :: st', b :: blk' => N.lxor s b :: xor_lanes st' blk'
  | _, [] => st
  | [], _ => []
  end.

Fixpoint absorb (nblocks : nat) (st : list N) (msg : list N) : list N :=
  match nblocks with
  | O => st
  | S n' =>
      let st' := keccak_f1600 (xor_lanes st (lanes_of_block 17 (firstn rate msg))) in
      absorb n' st' (skipn rate msg)
  end.

Definition sponge256 (msg : list N) : list N :=
  let padded := pad msg in
  let st := absorb (List.length padded / rate) (repeat 0 25) padded in
  flat_map (bytes_of_lane 8) (firstn 4 st).

Definition byte_of_N (n : N) : byte :=
  match Byte.of_N n with
  | Some b => b
  | None => x00
  end.

Definition keccak256 (msg : list byte) : list byte :=
  map byte_of_N (sponge256 (map Byte.to_N msg)).

End Keccak.

(** [Web3.keccak(text=s)]: Keccak-256 of the UTF-8 encoding of [s]
    (a Rocq string is its byte sequence). *)
Definition Web3_keccak_text (s : string) : list byte :=
  Keccak.keccak256 (list_byte_of_string s).
Arguments Web3_keccak_text : simpl never.

(* ===================================================================== *)
(** * Effects: an event trace and exceptions *)
(* ===================================================================== *)

Inductive level : Type := INFO | WARNING | ERROR.

(** The log records the program writes, one constructor per call site. *)
Inductive message : Type :=
| Log_fetch_failed (ticker : string) (exc : exn)         (* line 111 *)
| Log_price (name : string) (price : Decimal) (raw : Z)  (* line 123 *)
| Log_no_prices                                          (* line 133 *)
| Log_batch_submitted (tx_hash : Z) (count : nat)        (* line 152 *)
| Log_transaction_failed (tx_hash : Z)                   (* line 154 *)
| Log_submission_error (exc : exn)                       (* line 157 *)
| Log_fetching                                           (* line 196 *)
| Log_all_fetches_failed (interval : Z).                 (* line 201 *)

(** Everything the process does to the outside world. *)
Inductive event : Type :=
| Log (lvl : level) (msg : message)
| HttpGet (url : string)
| GetTransactionCount
| SubmitBatch (commodities : list (list byte)) (price_list : list Z)
| GasPrice
| BuildTransaction (nonce gas gasPrice : Z)
| SignTransaction
| SendRawTransaction
| WaitForTransactionReceipt (tx_hash timeout : Z)
| Sleep (seconds : Z).

(** A call that reaches the chain through the web3 client. *)
Definition is_chain_call (ev : event) : bool :=
  match ev with
  | GetTransactionCount | SubmitBatch _ _ | GasPrice | BuildTransaction _ _ _
  | SignTransaction | SendRawTransaction | WaitForTransactionReceipt _ _ => true
  | Log _ _ | HttpGet _ | Sleep _ => false
  end.

Definition is_sleep (ev : event) : bool :=
  match ev with
  | Sleep _ => true
  | _ => false
  end.

(** A computation: the events it performed, then its value or the
    exception it raised. *)
Definition M (A : Type) : Type := (list event * result A)%type.

Definition ret {A} (a : A) : M A := ([], Returns a).

Definition raise {A} (e : exn) : M A := ([], Raises e).

Definition bind {A B} (m : M A) (k : A -> M B) : M B :=
  match m with
  | (t, Returns a) => let (t', r) := k a in (t ++ t', r)
  | (t, Raises e) => (t, Raises e)
  end.

Definition emit (ev : event) : M unit := ([ev], Returns tt).

Definition lift {A} (r : result A) : M A := ([], r).

(** [try: body except Exception as exc: handler exc]. *)
Definition try_except_Exception {A} (body : M A) (handler : exn -> M A) : M A :=
  match body with
  | (t, Raises e) =>
      if is_Exception e then let (t', r) := handler e in (t ++ t', r)
      else (t, Raises e)
  | (t, Returns a) => (t, Returns a)
  end.

(** A result that raises nothing but [Exception]s. *)
Definition only_Exceptions {A} (r : result A) : Prop :=
  forall e, r = Raises e -> is_Exception e = true.

Declare Scope M_scope.
Delimit Scope M_scope with M.
Notation "x <- m ;; k" := (bind m (fun x => k))
  (at level 61, m at next level, right associativity) : M_scope.
Notation "m ;; k" := (bind m (fun _ => k))
  (at level 61, right associativity) : M_scope.

Definition trace {A} (m : M A) : list event := fst m.
Definition outcome {A} (m : M A) : result A := snd m.

(** What the outside world answers to a call: a value, or a failure that
    the client library reports as an exception. *)
Inductive answer (A : Type) : Type :=
| Ok (a : A)
| Fails (what : string).
Arguments Ok {A} a.
Arguments Fails {A} what.

(** Perform an external call: record it, then return the world's answer
    or raise the library's exception for the failure. *)
Definition call {A} (ev : event) (mk : string -> exn) (a : answer A) : M A :=
  ([ev], match a with
         | Ok v => Returns v
         | Fails what => Raises (mk what)
         end).

(* ===================================================================== *)
(** * Python dicts (insertion-ordered) *)
(* ===================================================================== *)

Definition dict (V : Type) : Type := list (string * V).

(** [d[k] = v]: overwrite in place, or append a new key at the end. *)
Fixpoint dict_set {V} (d : dict V) (k : string) (v : V) : dict V :=
  match d with
  | [] => [(k, v)]
  | (k', v') :: rest =>
      if String.eqb k' k then (k', v) :: rest
      else (k', v') :: dict_set rest k v
  end.

Fixpoint dict_get {V} (d : dict V) (k : string) : option V :=
  match d with
  | [] => None
  | (k', v') :: rest => if String.eqb k' k then Some v' else dict_get rest k
  end.

(** [d[k]], raising KeyError. *)
Definition dict_getitem {V} (d : dict V) (k : string) : result V :=
  match dict_get d k with
  | Some v => Returns v
  | None => Raises (KeyError k)
  end.

(** Iterating a dict yields its keys in insertion order. *)
Definition keys {V} (d : dict V) : list string := map fst d.

(** A list comprehension whose element expression may raise. *)
Fixpoint comprehension {A B} (f : A -> result B) (l : list A) : result (list B) :=
  match l with
  | [] => Returns []
  | a :: rest =>
      (let? b := f a in
       let? bs := comprehension f rest in
       Returns (b :: bs))%result
  end.

(* ===================================================================== *)
(** * JSON values and the HTTP world *)
(* ===================================================================== *)

(** The value [resp.json()] returns.  A number carries the [Decimal] that
    [Decimal(str(x))] builds from the parsed int or float [x] (always
    defined: [str] of an int or float is a valid decimal literal, and
    Python's parser also accepts the NaN and Infinity literals). *)
#[warnings="-register-all"] Inductive json : Type :=
| JNull
| JBool (b : bool)
| JNumber (d : Decimal)
| JString (s : string)
| JArray (items : list json)
| JObject (members : dict json).

Record response : Type := {
  status_code : Z;
  body : option json   (* [None]: the body is not valid JSON *)
}.

(** [requests.get(url, ...)] for each URL, within one cycle. *)
Definition http_world : Type := string -> answer response.

(** [v[k]] for a string key. *)
Definition getitem_key (v : json) (k : string) : result json :=
  match v with
  | JObject members => dict_getitem members k
  | _ => Raises TypeError
  end.

(** [v[0]].  Indexing a str gives a str of one character, which has no
    string keys. *)
Definition getitem_0 (v : json) : result json :=
  match v with
  | JArray (x :: _) => Returns x
  | JArray [] => Raises IndexError
  | JString (String c _) => Returns (JString (String c EmptyString))
  | JString EmptyString => Raises IndexError
  | JObject _ => Raises (KeyError "0")   (* JSON object keys are strings *)
  | _ => Raises TypeError
  end.

(** [resp.raise_for_status()]. *)
Definition raise_for_status (resp : response) : result unit :=
  if (400 <=? status_code resp) && (status_code resp <? 600)
  then Raises (HTTPError (status_code resp))
  else Returns tt.

(** [resp.json()]. *)
Definition response_json (resp : response) : result json :=
  match body resp with
  | Some v => Returns v
  | None => Raises JSONDecodeError
  end.

(** What the web3 client answers during one submission. *)
Record chain_world : Type := {
  get_transaction_count : answer Z;
  submitBatch : list (list byte) -> list Z -> answer unit;
  gas_price : answer Z;
  build_transaction : answer unit;
  sign_transaction : answer unit;
  send_raw_transaction : answer Z;            (* the transaction hash *)
  wait_for_transaction_receipt : answer Z     (* [receipt.status] *)
}.

Record cycle_world : Type := {
  http : http_world;
  chain : chain_world;
  os_sleep : Z -> answer unit     (* the system's sleep, for a length in seconds *)
}.

(* ===================================================================== *)
(** * The interaction examples ([scripts/interact.py]) *)
(* ===================================================================== *)

Module Interact.

(** An element of the answer of [getMyOrders()]: the fields of the
    tuple of the ABI, in its order ([o[0]] to [o[7]]). *)
Record order : Type := {
  order_id : Z;
  trader : string;
  commodity : list byte;
  quantity : Z;
  priceLimit : Z;
  side : Z;
  status : Z;
  createdAt : Z
}.

(** The lines the script prints, one constructor per call site, with the
    values the line is formatted from. *)
Inductive output : Type :=
| Print_signed_view_header                                   (* line 85 *)
| Print_unsigned_count (n : nat)                             (* line 94 *)
| Print_signed_count (n : nat)                               (* line 103 *)
| Print_order (id : Z) (side : string) (quantity priceLimit : Z)
              (status : string)                              (* line 107 *)
| Print_place_order_header                                   (* line 112 *)
| Print_tx (tx_hash : Z)                                     (* line 136 *)
| Print_status (status : string)                             (* line 137 *)
| Print_read_price_header                                    (* line 142 *)
| Print_price (price updated_at : Z)                         (* line 152 *)
| Print_not_available (exc : exn)                            (* line 154 *)
| Print_account (address : string)                           (* line 159 *)
| Print_rpc (url : string).                                  (* line 160 *)

(** Everything the script does to the outside world. *)
Inductive action : Type :=
| Print (line : output)
| FromKey                                   (* Account.from_key *)
| SapphireWrap                              (* sapphire.wrap *)
| ContractAt (address : string)             (* w3.eth.contract *)
| CallGetMyOrders (sender : option string) (* getMyOrders().call(...) *)
| GetTransactionCount (address : string)
| PlaceOrder (commodity : list byte) (quantity priceLimit side : Z)
| GasPrice
| BuildTransaction (sender : string) (nonce gas gasPrice : Z)
| SignTransaction
| SendRawTransaction
| WaitForTransactionReceipt (tx_hash : Z)
| CallGetPrice (commodity : list byte).     (* getPrice(...).call() *)

(** A computation of the script: its actions, then its value or the
    exception it raised. *)
Definition D (A : Type) : Type := (list action * result A)%type.

Definition ret {A} (a : A) : D A := ([], Returns a).

Definition bind {A B} (m : D A) (k : A -> D B) : D B :=
  match m with
  | (t, Returns a) => let (t', r) := k a in (t ++ t', r)
  | (t, Raises e) => (t, Raises e)
  end.

Definition print (line : output) : D unit := ([Print line], Returns tt).

Definition lift {A} (r : result A) : D A := ([], r).

(** A call to a client library: recorded, then answered or failed with
    an exception of the library. *)
Definition invoke {A} (a : action) (ans : answer A) : D A :=
  ([a], match ans with
        | Ok v => Returns v
        | Fails what => Raises (Web3Exception what)
        end).

(** [try: body except Exception as e: handler e]. *)
Definition try_except_Exception {A} (body : D A) (handler : exn -> D A) : D A :=
  match body with
  | (t, Raises e) =>
      if is_Exception e then let (t', r) := handler e in (t ++ t', r)
      else (t, Raises e)
  | (t, Returns a) => (t, Returns a)
  end.

Declare Scope D_scope.
Delimit Scope D_scope with D.
Notation "x <- m ;; k" := (bind m (fun x => k))
  (at level 61, m at next level, right associativity) : D_scope.
Notation "m ;; k" := (bind m (fun _ => k))
  (at level 61, right associativity) : D_scope.
Local Open Scope D_scope.

(** The configuration read at import time, and what the client
    libraries and the node answer to each call of the script. *)
Record demo_world : Type := {
  RPC_URL : string;
  ORDER_BOOK_ADDR : string;
  ATTESTATION_ADDR : string;
  from_key : answer string;                  (* [account.address] *)
  (* demo_place_order *)
  place_wrap : answer unit;
  place_contract : answer unit;
  place_nonce : answer Z;
  place_order : answer unit;
  place_gas_price : answer Z;
  place_build : answer unit;
  place_sign : answer unit;
  place_send : answer Z;                     (* the transaction hash *)
  place_receipt : answer Z;                  (* [receipt.status] *)
  (* demo_signed_view_call *)
  unsigned_contract : answer unit;
  unsigned_orders : answer (list order);
  signed_wrap : answer unit;
  signed_contract : answer unit;
  signed_orders : answer (list order);
  (* demo_read_price *)
  price_contract : answer unit;
  get_price : answer (Z * Z)                 (* [(price, updatedAt)] *)
}.

Definition SIDE_BUY : Z := 0.
Definition SIDE_SELL : Z := 1.

Definition CRUDE_OIL : list byte := Web3_keccak_text "CRUDE_OIL_WTI".
Arguments CRUDE_OIL : simpl never.

(** The least positive int that a float cannot hold: it rounds to
    2^1024. *)
Definition float_overflow : Z := 2 ^ 1024 - 2 ^ 970.
Arguments float_overflow : simpl never.

(** [n / 1e18] and [n / 1e6] convert the int [n] to a float first, which
    raises OverflowError when [n] rounds to 2^1024 or beyond. *)
Definition float_of_int (n : Z) : result unit :=
  if Z.abs n <? float_overflow then Returns tt else Raises OverflowError.

(** [l[i]] on a list: negative indices count from the end, and an index
    out of range raises IndexError. *)
Definition list_getitem {A} (l : list A) (i : Z) : result A :=
  let n := Z.of_nat (List.length l) in
  let j := if i <? 0 then i + n else i in
  if (0 <=? j) && (j <? n)
  then match nth_error l (Z.to_nat j) with
       | Some a => Returns a
       | None => Raises IndexError
       end
  else Raises IndexError.

Definition STATUS_NAMES : list string :=
  ["Open"%string; "Matched"%string; "Cancelled"%string].

(** The [for] loop of [demo_signed_view_call] (lines 104-107). *)
Fixpoint print_orders (orders : list order) : D unit :=
  match orders with
  | [] => ret tt
  | o :: rest =>
      let side_name := if side o =? 0 then "BUY"%string else "SELL"%string in
      status_name <- lift (list_getitem STATUS_NAMES (status o)) ;;
      _ <- lift (float_of_int (quantity o)) ;;
      _ <- lift (float_of_int (priceLimit o)) ;;
      print (Print_order (order_id o) side_name (quantity o) (priceLimit o)
                         status_name) ;;
      print_orders rest
  end.

Definition demo_signed_view_call (w : demo_world) (address : string) : D unit :=
  print Print_signed_view_header ;;
  _ <- invoke (ContractAt (ORDER_BOOK_ADDR w)) (unsigned_contract w) ;;
  orders_unsigned <- invoke (CallGetMyOrders None) (unsigned_orders w) ;;
  print (Print_unsigned_count (List.length orders_unsigned)) ;;
  _ <- invoke SapphireWrap (signed_wrap w) ;;
  _ <- invoke (ContractAt (ORDER_BOOK_ADDR w)) (signed_contract w) ;;
  orders_signed <- invoke (CallGetMyOrders (Some address)) (signed_orders w) ;;
  print (Print_signed_count (List.length orders_signed)) ;;
  print_orders orders_signed.

Definition demo_place_order (w : demo_world) (address : string) : D unit :=
  print Print_place_order_header ;;
  _ <- invoke SapphireWrap (place_wrap w) ;;
  _ <- invoke (ContractAt (ORDER_BOOK_ADDR w)) (place_contract w) ;;
  nonce <- invoke (GetTransactionCount address) (place_nonce w) ;;
  _ <- invoke (PlaceOrder CRUDE_OIL (50000 * 10 ^ 18) 85000000 SIDE_BUY)
              (place_order w) ;;
  gasPrice <- invoke GasPrice (place_gas_price w) ;;
  _ <- invoke (BuildTransaction address nonce 700000 gasPrice) (place_build w) ;;
  _ <- invoke SignTransaction (place_sign w) ;;
  tx_hash <- invoke SendRawTransaction (place_send w) ;;
  receipt_status <- invoke (WaitForTransactionReceipt tx_hash) (place_receipt w) ;;
  print (Print_tx tx_hash) ;;
  print (Print_status (if receipt_status =? 1 then "ok"%string
                       else "FAILED"%string)).

Definition demo_read_price (w : demo_world) : D unit :=
  print Print_read_price_header ;;
  _ <- invoke (ContractAt (ATTESTATION_ADDR w)) (price_contract w) ;;
  try_except_Exception
    (quoted <- invoke (CallGetPrice CRUDE_OIL) (get_price w) ;;
     let (price, updated_at) := quoted : Z * Z in
     _ <- lift (float_of_int price) ;;
     print (Print_price price updated_at))
    (fun e => print (Print_not_available e)).

Definition main (w : demo_world) : D unit :=
  address <- invoke FromKey (from_key w) ;;
  print (Print_account address) ;;
  print (Print_rpc (RPC_URL w)) ;;
  demo_place_order w address ;;
  demo_signed_view_call w address ;;
  demo_read_price w.

(** ** Notions used to state the properties of the script *)

(** The order is printed by the loop: its status names a state and its
    amounts are within the range of a float. *)
Definition printable (o : order) : bool :=
  (-3 <=? status o) && (status o <? 3) &&
  (Z.abs (quantity o) <? float_overflow) &&
  (Z.abs (priceLimit o) <? float_overflow).

Definition is_print_order (a : action) : bool :=
  match a with
  | Print (Print_order _ _ _ _ _) => true
  | _ => false
  end.

Definition is_get_price (a : action) : bool :=
  match a with
  | CallGetPrice _ => true
  | _ => false
  end.

(** ** Example worlds *)

Definition example_order (id status : Z) : order :=
  {| order_id := id;
     trader := "0x0000000000000000000000000000000000000002";
     commodity := CRUDE_OIL;
     quantity := 50000 * 10 ^ 18;
     priceLimit := 85000000;
     side := 0;
     status := status;
     createdAt := 1700000000 |}.

(** Every call succeeds: the order is mined but reverted, the caller has
    two orders, and no price has been attested yet. *)
Definition demo_example : demo_world :=
  {| RPC_URL := "https://testnet.sapphire.oasis.io";
     ORDER_BOOK_ADDR := "0x0000000000000000000000000000000000000003";
     ATTESTATION_ADDR := "0x0000000000000000000000000000000000000001";
     from_key := Ok "0x0000000000000000000000000000000000000002"%string;
     place_wrap := Ok tt;
     place_contract := Ok tt;
     place_nonce := Ok 7;
     place_order := Ok tt;
     place_gas_price := Ok 100000000000;
     place_build := Ok tt;
     place_sign := Ok tt;
     place_send := Ok 48879;
     place_receipt := Ok 0;
     unsigned_contract := Ok tt;
     unsigned_orders := Ok [];
     signed_wrap := Ok tt;
     signed_contract := Ok tt;
     signed_orders := Ok [example_order 1 0; example_order 2 1];
     price_contract := Ok tt;
     get_price := Fails "execution reverted" |}.

(** The second of the caller's three orders has a status beyond
    Cancelled. *)
Definition demo_unknown_status : demo_world :=
  {| RPC_URL := "https://testnet.sapphire.oasis.io";
     ORDER_BOOK_ADDR := "0x0000000000000000000000000000000000000003";
     ATTESTATION_ADDR := "0x0000000000000000000000000000000000000001";
     from_key := Ok "0x0000000000000000000000000000000000000002"%string;
     place_wrap := Ok tt;
     place_contract := Ok tt;
     place_nonce := Ok 7;
     place_order := Ok tt;
     place_gas_price := Ok 100000000000;
     place_build := Ok tt;
     place_sign := Ok tt;
     place_send := Ok 48879;
     place_receipt := Ok 1;
     unsigned_contract := Ok tt;
     unsigned_orders := Ok [];
     signed_wrap := Ok tt;
     signed_contract := Ok tt;
     signed_orders := Ok [example_order 1 0; example_order 2 3;
                          example_order 3 1];
     price_contract := Ok tt;
     get_price := Ok (82355001, 1700000000) |}.

End Interact.

(* ===================================================================== *)
(** * The oracle *)
(* ===================================================================== *)

Section Oracle.

(** [Decimal(s)] for a string [s]: the decimal module's literal parser. *)
Variable Decimal_of_string : string -> option Decimal.

(** [POLL_INTERVAL], read from the environment at start-up. *)
Variable POLL_INTERVAL : Z.

Local Open Scope M_scope.
Local Open Scope string_scope.

(** [Decimal(str(price))]. *)
Definition Decimal_of_str (price : json) : result Decimal :=
  match price with
  | JNumber d => Returns d
  | JString s =>
      match Decimal_of_string s with
      | Some d => Returns d
      | None => Raises InvalidOperation
      end
  | _ => Raises InvalidOperation
  end.

(** [data["chart"]["result"][0]["meta"]["regularMarketPrice"]]. *)
Definition price_field (data : json) : result json :=
  (let? chart := getitem_key data "chart" in
   let? results := getitem_key chart "result" in
   let? result0 := getitem_0 results in
   let? meta := getitem_key result0 "meta" in
   getitem_key meta "regularMarketPrice")%result.

Definition chart_url (ticker : string) : string :=
  "https://query1.finance.yahoo.com/v8/finance/chart/" ++ ticker.

Definition _fetch_commodity (w : http_world) (ticker : string) : M (option Decimal) :=
  try_except_Exception
    (let url := chart_url ticker in
     resp <- call (HttpGet url) RequestException (w url) ;;
     _ <- lift (raise_for_status resp) ;;
     data <- lift (response_json resp) ;;
     price <- lift (price_field data) ;;
     d <- lift (Decimal_of_str price) ;;
     ret (Some d))
    (fun exc =>
       emit (Log WARNING (Log_fetch_failed ticker exc)) ;;
       ret None).

Definition fetch_fn : Type := http_world -> M (option Decimal).

Definition COMMODITY_SOURCES : dict fetch_fn :=
  [ ("CRUDE_OIL_WTI",   fun w => _fetch_commodity w "CL=F");
    ("CRUDE_OIL_BRENT", fun w => _fetch_commodity w "BZ=F");
    ("NATURAL_GAS",     fun w => _fetch_commodity w "NG=F");
    ("XAU_USD",         fun w => _fetch_commodity w "GC=F");
    ("WHEAT_USD",       fun w => _fetch_commodity w "ZW=F") ].

Definition COMMODITY_IDS : dict (list byte) :=
  map (fun name => (name, Web3_keccak_text name)) (keys COMMODITY_SOURCES).

(** The body of the [for] loop of [fetch_all_prices], over the remaining
    sources. *)
Fixpoint fetch_loop (w : http_world) (sources : dict fetch_fn)
         (prices : dict Z) : M (dict Z) :=
  match sources with
  | [] => ret prices
  | (name, fetch) :: rest =>
      price <- fetch w ;;
      prices' <-
        match price with
        | None => ret prices
        | Some p =>
            normalized <- lift (normalize_price p) ;;
            match normalized with
            | Some raw =>
                emit (Log INFO (Log_price name p raw)) ;;
                ret (dict_set prices name raw)
            | None => ret prices
            end
        end ;;
      fetch_loop w rest prices'
  end.

Definition fetch_all_prices (w : http_world) : M (dict Z) :=
  fetch_loop w COMMODITY_SOURCES [].

(** The body of the [try] of [submit_prices] (lines 140-154). *)
Definition send_batch (c : chain_world) (commodities : list (list byte))
           (price_list : list Z) (count : nat) : M unit :=
  nonce <- call GetTransactionCount Web3Exception (get_transaction_count c) ;;
  _ <- call (SubmitBatch commodities price_list) Web3Exception
            (submitBatch c commodities price_list) ;;
  gasPrice <- call GasPrice Web3Exception (gas_price c) ;;
  _ <- call (BuildTransaction nonce 500000 gasPrice) Web3Exception
            (build_transaction c) ;;
  _ <- call SignTransaction Web3Exception (sign_transaction c) ;;
  tx_hash <- call SendRawTransaction Web3Exception (send_raw_transaction c) ;;
  status <- call (WaitForTransactionReceipt tx_hash 60) Web3Exception
                 (wait_for_transaction_receipt c) ;;
  if (status =? 1)%Z
  then emit (Log INFO (Log_batch_submitted tx_hash count))
  else emit (Log ERROR (Log_transaction_failed tx_hash)).

Definition submit_prices (c : chain_world) (prices : dict Z) : M unit :=
  match prices with
  | [] => emit (Log WARNING Log_no_prices) ;; ret tt
  | _ =>
      commodities <- lift (comprehension (dict_getitem COMMODITY_IDS) (keys prices)) ;;
      price_list <- lift (comprehension (dict_getitem prices) (keys prices)) ;;
      try_except_Exception
        (send_batch c commodities price_list (List.length prices))
        (fun exc =>
           emit (Log ERROR (Log_submission_error exc)) ;;
           raise exc)
  end.

(** [time.sleep(secs)] for an int [secs].  CPython converts the length
    to nanoseconds in a signed 64-bit integer and raises OverflowError
    when it does not fit, whatever its sign; it then raises ValueError
    for a negative length; otherwise it asks the system to sleep, and
    raises OSError when the system refuses (a kernel may refuse a
    deadline too far away).  [Sleep] records a sleep that took place. *)
Definition sleep (os : Z -> answer unit) (secs : Z) : M unit :=
  let ns := (secs * 10 ^ 9)%Z in
  if ((ns <? - 2 ^ 63) || (2 ^ 63 - 1 <? ns))%Z then raise OverflowError
  else if (secs <? 0)%Z then raise ValueError
  else match os secs with
       | Ok _ => emit (Sleep secs)
       | Fails what => raise (OSError what)
       end.

(** One iteration of the [while True] loop of [main] (lines 196-203). *)
Definition cycle (w : cycle_world) : M unit :=
  emit (Log INFO Log_fetching) ;;
  prices <- fetch_all_prices (http w) ;;
  match prices with
  | _ :: _ => submit_prices (chain w) prices
  | [] => emit (Log WARNING (Log_all_fetches_failed POLL_INTERVAL))
  end ;;
  sleep (os_sleep w) POLL_INTERVAL.

(** The [while True] loop of [main] (lines 195-203), observed for [fuel]
    iterations: the world of iteration [n] is [world n].  The loop has no
    exit of its own, so [Returns tt] only ever means that the observation
    ended; an exception of a cycle ends the loop, as nothing catches it. *)
Fixpoint main_loop (fuel : nat) (world : nat -> cycle_world) (n : nat) : M unit :=
  match fuel with
  | O => ret tt
  | S fuel' =>
      cycle (world n) ;;
      main_loop fuel' world (S n)
  end.

(** ** Notions used to state the properties of a cycle *)

(** The batch entry a source contributes in the world [w]: its name and
    scaled price, when its fetch returned a price that the normalizer
    accepted. *)
Definition entry_of (w : http_world) (src : string * fetch_fn) : list (string * Z) :=
  match outcome (snd src w) with
  | Returns (Some p) =>
      match normalize_price p with
      | Returns (Some raw) => [(fst src, raw)]
      | _ => []
      end
  | _ => []
  end.

Definition expected_entries (w : http_world) : list (string * Z) :=
  flat_map (entry_of w) COMMODITY_SOURCES.

(** Neither a chain call nor a sleep. *)
Definition is_local (ev : event) : bool :=
  negb (is_chain_call ev) && negb (is_sleep ev).

(** ** Example worlds *)

(** The JSON document of a chart answer quoting [price]. *)
Definition quote (price : json) : json :=
  JObject [("chart",
    JObject [("result",
      JArray [JObject [("meta",
        JObject [("regularMarketPrice", price)])]])])].

Definition http_down : http_world := fun _ => Fails "ConnectionError".

(** Only the WTI request is answered, quoting [price]. *)
Definition http_wti (price : json) : http_world :=
  fun url =>
    if String.eqb url (chart_url "CL=F")
    then Ok {| status_code := 200; body := Some (quote price) |}
    else Fails "ConnectionError".

(** WTI, Brent and gold are quoted; natural gas and wheat fail. *)
Definition http_three_of_five : http_world :=
  fun url =>
    if String.eqb url (chart_url "CL=F")
    then Ok {| status_code := 200;
               body := Some (quote (JNumber (Finite false 82355001 (-6)))) |}
    else if String.eqb url (chart_url "BZ=F")
    then Ok {| status_code := 200;
               body := Some (quote (JNumber (Finite false 8612 (-2)))) |}
    else if String.eqb url (chart_url "NG=F")
    then Ok {| status_code := 503; body := None |}
    else if String.eqb url (chart_url "GC=F")
    then Ok {| status_code := 200;
               body := Some (quote (JNumber (Finite false 23415 (-1)))) |}
    else Ok {| status_code := 200; body := Some (JObject []) |}.

Definition chain_ok : chain_world :=
  {| get_transaction_count := Ok 7;
     submitBatch := fun _ _ => Ok tt;
     gas_price := Ok 100000000000;
     build_transaction := Ok tt;
     sign_transaction := Ok tt;
     send_raw_transaction := Ok 48879;
     wait_for_transaction_receipt := Ok 1 |}.

(** The node rejects the nonce query. *)
Definition chain_unreachable : chain_world :=
  {| get_transaction_count := Fails "connection refused";
     submitBatch := fun _ _ => Ok tt;
     gas_price := Ok 100000000000;
     build_transaction := Ok tt;
     sign_transaction := Ok tt;
     send_raw_transaction := Ok 48879;
     wait_for_transaction_receipt := Ok 1 |}.

(** A price is fetched in every cycle, and every submission fails. *)
Definition world_submit_fails (n : nat) : cycle_world :=
  {| http := http_wti (JNumber (Finite false 82355001 (-6)));
     chain := chain_unreachable;
     os_sleep := fun _ => Ok tt |}.

(** No price source answers. *)
Definition world_all_down (n : nat) : cycle_world :=
  {| http := http_down; chain := chain_ok; os_sleep := fun _ => Ok tt |}.

(** One cycle's world with the given HTTP answers and a healthy chain. *)
Definition world_of (w : http_world) : cycle_world :=
  {| http := w; chain := chain_ok; os_sleep := fun _ => Ok tt |}.

(** Example prices: 82.355001, 10^28 + 1, 0.99999999999999999999999999999e-6
    and 0.0000001. *)
Definition price_82_355001 : Decimal := Finite false 82355001 (-6).
Definition price_29_digits : Decimal := Finite false 10000000000000000000000000001 0.
Definition price_below_micro : Decimal :=
  Finite false 99999999999999999999999999999 (-35).
Definition price_tenth_micro : Decimal := Finite false 1 (-7).

(** A literal parser that knows the one string the examples quote. *)
Definition parse_example (s : string) : option Decimal :=
  if String.eqb s "9.9999999999999999999999999999E-7"
  then Some price_below_micro
  else None.

(** ** Notions used to state further properties of the cycle *)

(** The URLs a computation requested, in order. *)
Definition http_requests (t : list event) : list string :=
  flat_map (fun ev => match ev with
                      | HttpGet url => [url]
                      | _ => []
                      end) t.

Definition is_http (ev : event) : bool :=
  match ev with
  | HttpGet _ => true
  | _ => false
  end.


Definition is_fetching (ev : event) : bool :=
  match ev with
  | Log INFO Log_fetching => true
  | _ => false
  end.

(** The tickers of the registry, in its order. *)
Definition TICKERS : list string := ["CL=F"; "BZ=F"; "NG=F"; "GC=F"; "ZW=F"].

(** Not a request, not a sleep and not the log line that opens a cycle. *)
Definition is_submission_event (ev : event) : bool :=
  negb (is_http ev) && negb (is_sleep ev) && negb (is_fetching ev).

(** The price source is down in every cycle but the third, in which a
    price is fetched and the submission fails. *)
Definition world_third_cycle_fails (n : nat) : cycle_world :=
  if Nat.eqb n 2 then world_submit_fails n else world_all_down n.

(** ** The start-up of [main] (lines 165-193) *)

(** The log records of the start-up, one constructor per call site. *)
Inductive startup_message : Type :=
| Log_starting                                   (* line 166 *)
| Log_rpc (url : string)                         (* line 167 *)
| Log_contract (address : string)                (* line 168 *)
| Log_interval (seconds : Z)                     (* line 169 *)
| Log_address (address : string)                 (* line 172 *)
| Log_sapphire_active                            (* line 179 *)
| Log_sapphire_inactive                          (* line 181 *)
| Log_cannot_connect (url : string)              (* line 184 *)
| Log_chain_id (id : Z).                         (* line 188 *)

(** What [main] does: the steps of its start-up, then the events of its
    loop. *)
Inductive main_event : Type :=
| Startup_log (lvl : level) (msg : startup_message)
| FromKey                          (* Account.from_key(PRIVATE_KEY), line 171 *)
| SapphireWrap                     (* sapphire.wrap(w3, account), line 178 *)
| IsConnected                      (* w3.is_connected(), line 183 *)
| ChainId                          (* w3.eth.chain_id, line 187 *)
| Contract (address : string)      (* w3.eth.contract(...), lines 190-193 *)
| Loop (ev : event).

(** The configuration read at import time, and what the client libraries
    answer during the start-up. *)
Record startup_world : Type := {
  RPC_URL : string;
  CONTRACT_ADDRESS : string;
  SAPPHIRE_AVAILABLE : bool;
  from_key : answer string;          (* [account.address] *)
  sapphire_wrap : answer unit;
  is_connected : answer bool;
  chain_id : answer Z;
  contract : answer unit
}.

(** A log call followed by the rest of [main]. *)
Definition main_log {A} (lvl : level) (msg : startup_message)
           (k : list main_event * result A) : list main_event * result A :=
  let (t, r) := k in (Startup_log lvl msg :: t, r).

(** A call to a client library followed by the rest of [main]; a failure
    of the call is an exception of the library, which [main] does not
    catch. *)
Definition main_call {A B} (ev : main_event) (a : answer A)
           (k : A -> list main_event * result B) : list main_event * result B :=
  match a with
  | Ok v => let (t, r) := k v in (ev :: t, r)
  | Fails what => ([ev], Raises (Web3Exception what))
  end.

(** [main] (lines 165-203), its loop observed for [fuel] iterations.
    [Web3(Web3.HTTPProvider(RPC_URL))] (line 174) only builds the client
    object and sends nothing, so it leaves no event. *)
Definition main (s : startup_world) (fuel : nat) (world : nat -> cycle_world)
  : list main_event * result unit :=
  main_log INFO Log_starting (
  main_log INFO (Log_rpc (RPC_URL s)) (
  main_log INFO (Log_contract (CONTRACT_ADDRESS s)) (
  main_log INFO (Log_interval POLL_INTERVAL) (
  main_call FromKey (from_key s) (fun address =>
  main_log INFO (Log_address address) (
  let rest :=
    main_call IsConnected (is_connected s) (fun connected =>
    if negb connected
    then main_log ERROR (Log_cannot_connect (RPC_URL s))
                  ([], Raises (SystemExit 1))
    else
      main_call ChainId (chain_id s) (fun id =>
      main_log INFO (Log_chain_id id) (
      main_call (Contract (CONTRACT_ADDRESS s)) (contract s) (fun _ =>
      let (t, r) := main_loop fuel world 0 in (map Loop t, r))))) in
  if SAPPHIRE_AVAILABLE s
  then main_call SapphireWrap (sapphire_wrap s) (fun _ =>
       main_log INFO Log_sapphire_active rest)
  else main_log WARNING Log_sapphire_inactive rest)))))).

(** The events of the loop among those of [main]. *)
Definition loop_events (t : list main_event) : list event :=
  flat_map (fun ev => match ev with | Loop e => [e] | _ => [] end) t.

(** Every step of the start-up succeeded and the endpoint is reachable. *)
Definition startup_ok (s : startup_world) : bool :=
  match from_key s, is_connected s, chain_id s, contract s with
  | Ok _, Ok true, Ok _, Ok _ =>
      if SAPPHIRE_AVAILABLE s
      then match sapphire_wrap s with Ok _ => true | Fails _ => false end
      else true
  | _, _, _, _ => false
  end.

(** A start-up against an endpoint that does not answer. *)
Definition startup_unreachable : startup_world :=
  {| RPC_URL := "https://testnet.sapphire.oasis.io";
     CONTRACT_ADDRESS := "0x0000000000000000000000000000000000000001";
     SAPPHIRE_AVAILABLE := true;
     from_key := Ok "0x0000000000000000000000000000000000000002";
     sapphire_wrap := Ok tt;
     is_connected := Ok false;
     chain_id := Fails "ConnectionError";
     contract := Ok tt |}.

(** Every call succeeds, and the transaction is mined but reverted. *)
Definition chain_reverts : chain_world :=
  {| get_transaction_count := Ok 7;
     submitBatch := fun _ _ => Ok tt;
     gas_price := Ok 100000000000;
     build_transaction := Ok tt;
     sign_transaction := Ok tt;
     send_raw_transaction := Ok 48879;
     wait_for_transaction_receipt := Ok 0 |}.


Local Close Scope string_scope.
Local Close Scope M_scope.

(* ===================================================================== *)
(** * Digits and powers of ten *)
(* ===================================================================== *)

Lemma pow10_pos (k : Z) : 0 <= k -> 0 < 10 ^ k.
Proof. intros Hk. apply Z.pow_pos_nonneg; lia. Qed.

Lemma pow10_add (a b : Z) : 0 <= a -> 0 <= b -> 10 ^ (a + b) = 10 ^ a * 10 ^ b.
Proof. intros. apply Z.pow_add_r; assumption. Qed.

Lemma pow10_le (a b : Z) : 0 <= a <= b -> 10 ^ a <= 10 ^ b.
Proof. intros. apply Z.pow_le_mono_r; lia. Qed.

Lemma pow10_lt (a b : Z) : 0 <= a < b -> 10 ^ a < 10 ^ b.
Proof. intros. apply Z.pow_lt_mono_r; lia. Qed.

Lemma ndigits_aux_spec (fuel : nat) :
  forall c, 0 < c < 2 ^ (Z.of_nat fuel + 1) ->
    1 <= ndigits_aux fuel c /\
    10 ^ (ndigits_aux fuel c - 1) <= c < 10 ^ (ndigits_aux fuel c).
Proof.
  induction fuel as [|fuel IH]; intros c Hc.
  - change (2 ^ (Z.of_nat 0 + 1)) with 2 in Hc.
    assert (c = 1) by lia. subst c. cbn. lia.
  - cbn [ndigits_aux].
    destruct (c <? 10) eqn:E.
    + apply Z.ltb_lt in E. change (10 ^ (1 - 1)) with 1.
      change (10 ^ 1) with 10. lia.
    + apply Z.ltb_ge in E.
      assert (Hp : 2 ^ (Z.of_nat (S fuel) + 1) = 2 * 2 ^ (Z.of_nat fuel + 1)).
      { rewrite <- Z.pow_succ_r by lia. f_equal. lia. }
      assert (Hq : 0 < c / 10) by (apply Z.div_str_pos; lia).
      assert (Hr : c / 10 < 2 ^ (Z.of_nat fuel + 1)).
      { apply Z.div_lt_upper_bound; lia. }
      destruct (IH (c / 10) (conj Hq Hr)) as [H1 [Hlo Hhi]].
      set (n := ndigits_aux fuel (c / 10)) in *.
      assert (Hdm := Z.div_mod c 10 ltac:(lia)).
      assert (Hm := Z.mod_pos_bound c 10 ltac:(lia)).
      replace (1 + n - 1) with (Z.succ (n - 1)) by lia.
      replace (1 + n) with (Z.succ n) by lia.
      rewrite !Z.pow_succ_r by lia.
      lia.
Qed.

Lemma ndigits_spec (c : Z) :
  0 < c -> 1 <= ndigits c /\ 10 ^ (ndigits c - 1) <= c < 10 ^ ndigits c.
Proof.
  intros Hc. unfold ndigits. apply ndigits_aux_spec.
  destruct (Z.log2_spec c Hc) as [_ Hhi].
  rewrite Z2Nat.id by apply Z.log2_nonneg.
  rewrite <- Z.add_1_r in Hhi. lia.
Qed.

Lemma ndigits_unique (c n : Z) :
  0 < c -> 10 ^ (n - 1) <= c < 10 ^ n -> ndigits c = n.
Proof.
  intros Hc [Hlo Hhi].
  destruct (ndigits_spec c Hc) as [H1 [Hlo' Hhi']].
  assert (Hn : 1 <= n).
  { destruct (Z_lt_le_dec n 1) as [Hlt|]; [|assumption].
    exfalso. destruct (Z.eq_dec n 0) as [->|Hne].
    - change (10 ^ 0) with 1 in Hhi. lia.
    - rewrite Z.pow_neg_r in Hhi by lia. lia. }
  assert (ndigits c - 1 < n).
  { apply (Z.pow_lt_mono_r_iff 10); lia. }
  assert (n - 1 < ndigits c).
  { apply (Z.pow_lt_mono_r_iff 10); lia. }
  lia.
Qed.

Lemma ndigits_mul_pow10 (c k : Z) :
  0 < c -> 0 <= k -> ndigits (c * 10 ^ k) = ndigits c + k.
Proof.
  intros Hc Hk.
  destruct (ndigits_spec c Hc) as [H1 [Hlo Hhi]].
  assert (Hp := pow10_pos k Hk).
  apply ndigits_unique; [nia|].
  replace (ndigits c + k - 1) with ((ndigits c - 1) + k) by lia.
  rewrite !pow10_add by lia. nia.
Qed.

(* ===================================================================== *)
(** * Rounding on a decimal grid *)
(* ===================================================================== *)

Lemma scale10_shift (m j g : Z) :
  0 <= j -> scale10 (m * 10 ^ j) g = scale10 m (g + j).
Proof.
  intros Hj. unfold scale10.
  destruct (0 <=? g) eqn:Eg; destruct (0 <=? g + j) eqn:Egj;
    try apply Z.leb_le in Eg; try apply Z.leb_gt in Eg;
    try apply Z.leb_le in Egj; try apply Z.leb_gt in Egj; try lia.
  - rewrite (Z.add_comm g j), pow10_add by lia. ring.
  - replace j with ((g + j) + (- g)) at 1 by lia.
    rewrite pow10_add by lia.
    rewrite Z.mul_assoc, Z.div_mul; [reflexivity|].
    pose proof (pow10_pos (- g)); lia.
  - replace (- g) with ((- (g + j)) + j) by lia.
    rewrite pow10_add by lia.
    apply Z.div_mul_cancel_r.
    + pose proof (pow10_pos (- (g + j))); lia.
    + pose proof (pow10_pos j); lia.
Qed.

Lemma scale10_mono (m1 m2 g : Z) :
  m1 <= m2 -> scale10 m1 g <= scale10 m2 g.
Proof.
  intros H. unfold scale10. destruct (0 <=? g) eqn:Eg.
  - apply Z.leb_le in Eg. apply Z.mul_le_mono_nonneg_r; [|assumption].
    pose proof (pow10_pos g); lia.
  - apply Z.leb_gt in Eg. apply Z.div_le_mono; [|assumption].
    apply pow10_pos; lia.
Qed.

Lemma rne_bounds (X G : Z) : X / G <= rne X G <= X / G + 1.
Proof. unfold rne. destruct (_ || _); lia. Qed.

Lemma rne_exact (q G : Z) : 0 < G -> rne (q * G) G = q.
Proof.
  intros HG. unfold rne. rewrite Z.div_mul, Z.mod_mul by lia.
  replace (G <? 2 * 0) with false by (symmetry; apply Z.ltb_ge; lia).
  replace (2 * 0 =? G) with false by (symmetry; apply Z.eqb_neq; lia).
  reflexivity.
Qed.

Lemma rne_scale (X G t : Z) : 0 < G -> 0 < t -> rne (X * t) (G * t) = rne X G.
Proof.
  intros HG Ht. unfold rne.
  rewrite Z.div_mul_cancel_r by lia.
  rewrite Z.mul_mod_distr_r by lia.
  replace (G * t <? 2 * (X mod G * t)) with (G <? 2 * (X mod G)).
  2:{ destruct (G <? 2 * (X mod G)) eqn:E; symmetry.
      - apply Z.ltb_lt in E. apply Z.ltb_lt. nia.
      - apply Z.ltb_ge in E. apply Z.ltb_ge. nia. }
  replace (2 * (X mod G * t) =? G * t) with (2 * (X mod G) =? G).
  2:{ destruct (2 * (X mod G) =? G) eqn:E; symmetry.
      - apply Z.eqb_eq in E. apply Z.eqb_eq. nia.
      - apply Z.eqb_neq in E. apply Z.eqb_neq. nia. }
  reflexivity.
Qed.

Lemma rne_mono (X1 X2 G : Z) : 0 < G -> X1 <= X2 -> rne X1 G <= rne X2 G.
Proof.
  intros HG H.
  assert (Hq : X1 / G <= X2 / G) by (apply Z.div_le_mono; assumption).
  destruct (Z.eq_dec (X1 / G) (X2 / G)) as [E|E].
  - assert (Hr : X1 mod G <= X2 mod G).
    { rewrite !Z.mod_eq by lia. rewrite E. lia. }
    unfold rne. rewrite E.
    destruct (G <? 2 * (X1 mod G)) eqn:A1; destruct (G <? 2 * (X2 mod G)) eqn:A2;
      destruct (2 * (X1 mod G) =? G) eqn:B1; destruct (2 * (X2 mod G) =? G) eqn:B2;
      destruct (Z.odd (X2 / G)); cbn; try lia;
      try apply Z.ltb_lt in A1; try apply Z.ltb_ge in A1;
      try apply Z.ltb_lt in A2; try apply Z.ltb_ge in A2;
      try apply Z.eqb_eq in B1; try apply Z.eqb_neq in B1;
      try apply Z.eqb_eq in B2; try apply Z.eqb_neq in B2; lia.
  - pose proof (rne_bounds X1 G). pose proof (rne_bounds X2 G). lia.
Qed.

Lemma rne_le (X G B : Z) : 0 < G -> X <= B * G -> rne X G <= B.
Proof.
  intros HG H. rewrite <- (rne_exact B G HG). apply rne_mono; assumption.
Qed.

Lemma rne_ge (X G B : Z) : 0 < G -> B * G <= X -> B <= rne X G.
Proof.
  intros HG H. rewrite <- (rne_exact B G HG). apply rne_mono; assumption.
Qed.



Lemma rne_round_half_even_up (C k : Z) :
  rne C (10 ^ k) = if round_half_even_up C k then C / 10 ^ k + 1 else C / 10 ^ k.
Proof. reflexivity. Qed.

Lemma on_grid_nonneg (C e g : Z) : 0 <= C -> 0 <= on_grid C e g.
Proof.
  intros HC. unfold on_grid. destruct (e <? g) eqn:E.
  - apply Z.ltb_lt in E.
    pose proof (pow10_pos (g - e) ltac:(lia)).
    apply (rne_ge _ _ 0); lia.
  - apply Z.ltb_ge in E. pose proof (pow10_pos (e - g) ltac:(lia)). nia.
Qed.

(** The rounded coefficient never exceeds [10^prec]. *)
Lemma on_grid_le_pow_prec (ctx : Context) (C e : Z) :
  0 < C -> 1 <= prec ctx ->
  on_grid C e (grid ctx C e) <= 10 ^ prec ctx.
Proof.
  intros HC Hp.
  destruct (ndigits_spec C HC) as (HL1 & Hlo & Hhi).
  unfold on_grid, grid.
  set (L := ndigits C) in *.
  set (g := Z.max (L + e - prec ctx) (Etiny ctx)).
  destruct (e <? g) eqn:E.
  - apply Z.ltb_lt in E.
    apply rne_le; [apply pow10_pos; lia|].
    rewrite <- pow10_add by lia.
    assert (10 ^ L <= 10 ^ (prec ctx + (g - e))) by (apply pow10_le; lia).
    lia.
  - apply Z.ltb_ge in E.
    assert (C * 10 ^ (e - g) < 10 ^ L * 10 ^ (e - g)).
    { apply Z.mul_lt_mono_pos_r; [apply pow10_pos; lia | assumption]. }
    rewrite <- pow10_add in H by lia.
    assert (10 ^ (L + (e - g)) <= 10 ^ prec ctx) by (apply pow10_le; lia).
    lia.
Qed.

(** A subnormal result has fewer than [prec] digits. *)
Lemma on_grid_subnormal (ctx : Context) (C e : Z) :
  0 < C -> 1 <= prec ctx ->
  ndigits C + e - prec ctx < Etiny ctx ->
  on_grid C e (grid ctx C e) <= 10 ^ (prec ctx - 1).
Proof.
  intros HC Hp Hsub.
  destruct (ndigits_spec C HC) as (HL1 & Hlo & Hhi).
  unfold on_grid, grid.
  set (L := ndigits C) in *.
  replace (Z.max (L + e - prec ctx) (Etiny ctx)) with (Etiny ctx) by lia.
  destruct (e <? Etiny ctx) eqn:E.
  - apply Z.ltb_lt in E.
    apply rne_le; [apply pow10_pos; lia|].
    rewrite <- pow10_add by lia.
    assert (10 ^ L <= 10 ^ (prec ctx - 1 + (Etiny ctx - e))) by (apply pow10_le; lia).
    lia.
  - apply Z.ltb_ge in E.
    assert (C * 10 ^ (e - Etiny ctx) < 10 ^ L * 10 ^ (e - Etiny ctx)).
    { apply Z.mul_lt_mono_pos_r; [apply pow10_pos; lia | assumption]. }
    rewrite <- pow10_add in H by lia.
    assert (10 ^ (L + (e - Etiny ctx)) <= 10 ^ (prec ctx - 1)) by (apply pow10_le; lia).
    lia.
Qed.

Lemma ndigits_le (x n : Z) : 0 < x -> x < 10 ^ n -> ndigits x <= n.
Proof.
  intros Hx H.
  destruct (ndigits_spec x Hx) as (H1 & Hlo & Hhi).
  assert (0 <= n).
  { destruct (Z_lt_le_dec n 0); [|assumption]. rewrite Z.pow_neg_r in H; lia. }
  assert (ndigits x - 1 < n) by (apply (Z.pow_lt_mono_r_iff 10); lia).
  lia.
Qed.

Lemma ndigits_pow10 (n : Z) : 0 <= n -> ndigits (10 ^ n) = n + 1.
Proof.
  intros Hn. apply ndigits_unique; [apply pow10_pos; lia|].
  replace (n + 1 - 1) with n by lia. split; [lia|]. apply pow10_lt; lia.
Qed.

(** What [Decimal_fix] does to a non-zero finite decimal: it overflows, or
    it returns a decimal with the integer part of the value rounded on the
    grid of its decade. *)
Lemma Decimal_fix_pos (ctx : Context) (s : bool) (c : N) (e : Z) :
  (0 < c)%N -> 1 <= prec ctx -> Emin ctx <= Emax ctx ->
  let C := Z.of_N c in
  let g := grid ctx C e in
  let R := on_grid C e g in
  (Decimal_fix ctx (Finite s c e) = Raises Overflow /\
   (Etop ctx < ndigits C + e - prec ctx \/ (R = 10 ^ prec ctx /\ g = Etop ctx)))
  \/
  (exists m g',
      Decimal_fix ctx (Finite s c e) = Returns (Finite s (Z.to_N m) g') /\
      0 <= m /\
      scale10 m g' = scale10 R g /\
      ndigits C + e - prec ctx <= Etop ctx /\
      (R = 10 ^ prec ctx -> g < Etop ctx)).
Proof.
  intros Hc Hp Hctx C g R.
  assert (HC : 0 < C) by (unfold C; lia).
  pose proof (on_grid_le_pow_prec ctx C e HC Hp) as HR.
  fold g in HR. fold R in HR.
  destruct (ndigits_spec C HC) as (HL1 & Hlo & Hhi).
  unfold Decimal_fix.
  destruct (N.eqb_spec c 0) as [->|_]; [lia|].
  fold C. unfold R, on_grid, g, grid in *.
  set (L := ndigits C) in *.
  destruct (Etop ctx <? L + e - prec ctx) eqn:Eov.
  { apply Z.ltb_lt in Eov. left. split; [reflexivity|left; assumption]. }
  apply Z.ltb_ge in Eov.
  set (g1 := Z.max (L + e - prec ctx) (Etiny ctx)) in *.
  destruct (e <? g1) eqn:Eg.
  - apply Z.ltb_lt in Eg.
    rewrite rne_round_half_even_up in *.
    set (k := g1 - e) in *.
    set (q := C / 10 ^ k) in *.
    assert (Hq0 : 0 <= q) by (apply Z.div_pos; [lia | apply pow10_pos; lia]).
    destruct (round_half_even_up C k) eqn:Ech.
    + destruct (prec ctx <? ndigits (q + 1)) eqn:Ecarry.
      * apply Z.ltb_lt in Ecarry.
        assert (Hq1 : q + 1 = 10 ^ prec ctx).
        { destruct (Z.eq_dec (q + 1) (10 ^ prec ctx)); [assumption|].
          exfalso. pose proof (ndigits_le (q + 1) (prec ctx)). lia. }
        assert (Hdiv : (q + 1) / 10 = 10 ^ (prec ctx - 1)).
        { rewrite Hq1. replace (prec ctx) with (Z.succ (prec ctx - 1)) at 1 by lia.
          rewrite Z.pow_succ_r by lia. rewrite Z.mul_comm. apply Z.div_mul. lia. }
        destruct (Etop ctx <? g1 + 1) eqn:Eov2.
        -- apply Z.ltb_lt in Eov2. left. split; [reflexivity|].
           right. split; [assumption|]. unfold g1, Etop, Etiny in *. lia.
        -- apply Z.ltb_ge in Eov2. right.
           exists ((q + 1) / 10), (g1 + 1).
           split; [reflexivity|]. split; [rewrite Hdiv; pose proof (pow10_pos (prec ctx - 1)); lia|].
           split; [|split; [assumption|intros _; lia]].
           rewrite Hdiv, Hq1.
           replace (prec ctx) with ((prec ctx - 1) + 1) at 2 by lia.
           rewrite pow10_add by lia. change (10 ^ 1) with 10.
           change 10 with (10 ^ 1) at 3.
           rewrite scale10_shift by lia. reflexivity.
      * apply Z.ltb_ge in Ecarry.
        assert (Hq1 : q + 1 <> 10 ^ prec ctx).
        { intros E. rewrite E, ndigits_pow10 in Ecarry by lia. lia. }
        replace (Etop ctx <? g1) with false
          by (symmetry; apply Z.ltb_ge; unfold g1; unfold Etop, Etiny in *; lia).
        right. exists (q + 1), g1.
        split; [reflexivity|]. split; [lia|]. split; [reflexivity|].
        split; [assumption|]. intros E; contradiction.
    + assert (Hq1 : q <> 10 ^ prec ctx).
      { intros E.
        assert (C < 10 ^ prec ctx * 10 ^ k).
        { rewrite <- pow10_add by lia.
          assert (10 ^ L <= 10 ^ (prec ctx + k)) by (apply pow10_le; unfold k, g1; lia).
          lia. }
        assert (q < 10 ^ prec ctx).
        { apply Z.div_lt_upper_bound; [apply pow10_pos; lia|]. lia. }
        lia. }
      replace (Etop ctx <? g1) with false
        by (symmetry; apply Z.ltb_ge; unfold g1; unfold Etop, Etiny in *; lia).
      right. exists q, g1.
      split; [reflexivity|]. split; [lia|]. split; [reflexivity|].
      split; [assumption|]. intros E; contradiction.
  - apply Z.ltb_ge in Eg. right. exists C, e.
    split; [unfold C; rewrite N2Z.id; reflexivity|].
    split; [lia|]. split.
    + rewrite scale10_shift by lia. f_equal. lia.
    + split; [assumption|]. intros E.
      assert (C * 10 ^ (e - g1) < 10 ^ L * 10 ^ (e - g1)).
      { apply Z.mul_lt_mono_pos_r; [apply pow10_pos; lia | assumption]. }
      rewrite <- pow10_add in H by lia.
      assert (10 ^ (L + (e - g1)) <= 10 ^ prec ctx) by (apply pow10_le; unfold g1; lia).
      lia.
Qed.


Lemma value_le_scaled (C1 e1 C2 e2 m : Z) :
  m <= e1 -> m <= e2 -> value_le C1 e1 C2 e2 ->
  C1 * 10 ^ (e1 - m) <= C2 * 10 ^ (e2 - m).
Proof.
  intros H1 H2 H. unfold value_le in H.
  set (m0 := Z.min e1 e2) in *.
  replace (e1 - m) with ((e1 - m0) + (m0 - m)) by lia.
  replace (e2 - m) with ((e2 - m0) + (m0 - m)) by lia.
  rewrite !pow10_add by lia.
  pose proof (pow10_pos (m0 - m) ltac:(lia)).
  rewrite !Z.mul_assoc. apply Z.mul_le_mono_nonneg_r; lia.
Qed.

(** [on_grid] is rounding on a common finer scale. *)
Lemma on_grid_common (C e g m : Z) :
  m <= e -> m <= g ->
  on_grid C e g = rne (C * 10 ^ (e - m)) (10 ^ (g - m)).
Proof.
  intros He Hg. unfold on_grid. destruct (e <? g) eqn:E.
  - apply Z.ltb_lt in E.
    replace (g - m) with ((g - e) + (e - m)) by lia.
    rewrite pow10_add by lia.
    rewrite rne_scale; [reflexivity| |]; apply pow10_pos; lia.
  - apply Z.ltb_ge in E.
    replace (e - m) with ((e - g) + (g - m)) by lia.
    rewrite pow10_add by lia.
    rewrite Z.mul_assoc, rne_exact; [reflexivity|apply pow10_pos; lia].
Qed.

Lemma on_grid_mono (C1 e1 C2 e2 g : Z) :
  value_le C1 e1 C2 e2 -> on_grid C1 e1 g <= on_grid C2 e2 g.
Proof.
  intros H.
  set (m := Z.min (Z.min e1 e2) g).
  rewrite (on_grid_common C1 e1 g m), (on_grid_common C2 e2 g m) by lia.
  apply rne_mono; [apply pow10_pos; lia|].
  apply value_le_scaled; [lia|lia|assumption].
Qed.

(** A larger value has a larger or equal adjusted exponent. *)
Lemma adjusted_mono (C1 e1 C2 e2 : Z) :
  0 < C1 -> 0 < C2 -> value_le C1 e1 C2 e2 ->
  ndigits C1 + e1 <= ndigits C2 + e2.
Proof.
  intros H1 H2 H. unfold value_le in H.
  set (m := Z.min e1 e2) in *.
  destruct (ndigits_spec C1 H1) as (HL1 & Hlo1 & _).
  destruct (ndigits_spec C2 H2) as (HL2 & _ & Hhi2).
  assert (Ha : 10 ^ (ndigits C1 - 1 + (e1 - m)) <= C1 * 10 ^ (e1 - m)).
  { rewrite pow10_add by lia. apply Z.mul_le_mono_nonneg_r; [|assumption].
    pose proof (pow10_pos (e1 - m)); lia. }
  assert (Hb : C2 * 10 ^ (e2 - m) < 10 ^ (ndigits C2 + (e2 - m))).
  { rewrite pow10_add by lia. apply Z.mul_lt_mono_pos_r; [|assumption].
    apply pow10_pos; lia. }
  assert (ndigits C1 - 1 + (e1 - m) < ndigits C2 + (e2 - m)).
  { apply (Z.pow_lt_mono_r_iff 10); lia. }
  lia.
Qed.

(** Rounding to the context and truncating is monotone. *)
Lemma on_grid_scale10_mono (ctx : Context) (C1 e1 C2 e2 : Z) :
  0 < C1 -> 0 < C2 -> 1 <= prec ctx -> value_le C1 e1 C2 e2 ->
  scale10 (on_grid C1 e1 (grid ctx C1 e1)) (grid ctx C1 e1)
  <= scale10 (on_grid C2 e2 (grid ctx C2 e2)) (grid ctx C2 e2).
Proof.
  intros H1 H2 Hp H.
  pose proof (adjusted_mono C1 e1 C2 e2 H1 H2 H) as Hadj.
  destruct (ndigits_spec C1 H1) as (HL1 & Hlo1 & Hhi1).
  destruct (ndigits_spec C2 H2) as (HL2 & Hlo2 & Hhi2).
  set (g1 := grid ctx C1 e1). set (g2 := grid ctx C2 e2).
  assert (Hg : g1 <= g2) by (unfold g1, g2, grid; lia).
  destruct (Z.eq_dec g1 g2) as [E|E].
  - rewrite E. apply scale10_mono. apply on_grid_mono. assumption.
  - assert (Hg2 : g2 = ndigits C2 + e2 - prec ctx) by (unfold g1, g2, grid in *; lia).
    assert (Hlt : ndigits C1 + e1 < ndigits C2 + e2) by (unfold g1, g2, grid in *; lia).
    set (L1 := ndigits C1) in *. set (L2 := ndigits C2) in *.
    set (b2 := 10 ^ (prec ctx - 1)).
    assert (Hb1 : on_grid C1 e1 g1 <= b2 * 10 ^ (g2 - g1)).
    { unfold b2. rewrite <- pow10_add by lia.
      unfold on_grid. destruct (e1 <? g1) eqn:E1.
      - apply Z.ltb_lt in E1. apply rne_le; [apply pow10_pos; lia|].
        rewrite <- pow10_add by lia.
        assert (10 ^ L1 <= 10 ^ (prec ctx - 1 + (g2 - g1) + (g1 - e1)))
          by (apply pow10_le; lia).
        lia.
      - apply Z.ltb_ge in E1.
        assert (C1 * 10 ^ (e1 - g1) < 10 ^ L1 * 10 ^ (e1 - g1)).
        { apply Z.mul_lt_mono_pos_r; [apply pow10_pos; lia|assumption]. }
        rewrite <- pow10_add in H0 by lia.
        assert (10 ^ (L1 + (e1 - g1)) <= 10 ^ (prec ctx - 1 + (g2 - g1)))
          by (apply pow10_le; unfold g1, grid in *; lia).
        lia. }
    assert (Hb2 : b2 <= on_grid C2 e2 g2).
    { unfold b2, on_grid. destruct (e2 <? g2) eqn:E2.
      - apply Z.ltb_lt in E2. apply rne_ge; [apply pow10_pos; lia|].
        rewrite <- pow10_add by lia.
        replace (prec ctx - 1 + (g2 - e2)) with (L2 - 1) by lia. assumption.
      - apply Z.ltb_ge in E2.
        assert (10 ^ (L2 - 1) * 10 ^ (e2 - g2) <= C2 * 10 ^ (e2 - g2)).
        { apply Z.mul_le_mono_nonneg_r; [|assumption].
          pose proof (pow10_pos (e2 - g2)); lia. }
        rewrite <- pow10_add in H0 by lia.
        replace (L2 - 1 + (e2 - g2)) with (prec ctx - 1) in H0 by lia.
        assumption. }
    apply Z.le_trans with (scale10 (b2 * 10 ^ (g2 - g1)) g1).
    + apply scale10_mono. assumption.
    + rewrite scale10_shift by lia.
      replace (g1 + (g2 - g1)) with g2 by lia.
      apply scale10_mono. assumption.
Qed.

(** Multiplying by [10^j] a coefficient of at most [prec] digits and
    rounding to the context loses nothing of the integer part, and the
    rounding never carries into a new digit. *)
Lemma on_grid_exact (ctx : Context) (c0 j e : Z) :
  0 < c0 -> 0 <= j -> 1 <= prec ctx -> Etiny ctx + prec ctx <= 0 ->
  ndigits c0 <= prec ctx ->
  let C := c0 * 10 ^ j in
  scale10 (on_grid C e (grid ctx C e)) (grid ctx C e) = scale10 C e /\
  on_grid C e (grid ctx C e) < 10 ^ prec ctx.
Proof.
  intros Hc Hj Hp Htiny Hd C.
  assert (HC : 0 < C) by (unfold C; pose proof (pow10_pos j Hj); nia).
  assert (HL : ndigits C = ndigits c0 + j) by (apply ndigits_mul_pow10; assumption).
  destruct (ndigits_spec C HC) as (HL1 & Hlo & Hhi).
  destruct (Z_lt_le_dec (ndigits C + e - prec ctx) (Etiny ctx)) as [Hsub|Hnorm].
  - (* subnormal grid *)
    pose proof (on_grid_subnormal ctx C e HC Hp Hsub) as HR.
    pose proof (on_grid_nonneg C e (grid ctx C e) ltac:(lia)) as HR0.
    assert (Hlt : 10 ^ (prec ctx - 1) < 10 ^ prec ctx) by (apply pow10_lt; lia).
    split; [|lia].
    unfold grid in *.
    replace (Z.max (ndigits C + e - prec ctx) (Etiny ctx)) with (Etiny ctx) in * by lia.
    destruct (Z_lt_le_dec e (Etiny ctx)) as [He|He].
    + set (R := on_grid C e (Etiny ctx)) in *.
      unfold scale10.
      replace (0 <=? Etiny ctx) with false by (symmetry; apply Z.leb_gt; lia).
      replace (0 <=? e) with false by (symmetry; apply Z.leb_gt; lia).
      rewrite !Z.div_small; [reflexivity| |].
      * split; [lia|].
        assert (10 ^ ndigits C <= 10 ^ (- e)) by (apply pow10_le; lia). lia.
      * split; [assumption|].
        assert (10 ^ (prec ctx - 1) < 10 ^ (- Etiny ctx)) by (apply pow10_lt; lia). lia.
    + unfold on_grid.
      replace (e <? Etiny ctx) with false by (symmetry; apply Z.ltb_ge; lia).
      rewrite scale10_shift by lia. f_equal. lia.
  - unfold grid.
    replace (Z.max (ndigits C + e - prec ctx) (Etiny ctx))
      with (ndigits C + e - prec ctx) by lia.
    set (g := ndigits C + e - prec ctx).
    unfold on_grid. destruct (e <? g) eqn:E.
    + apply Z.ltb_lt in E.
      set (k := g - e).
      assert (Hk : 0 < k <= j) by (unfold k, g; lia).
      assert (HCk : C = c0 * 10 ^ (j - k) * 10 ^ k).
      { unfold C. rewrite <- Z.mul_assoc, <- pow10_add by lia. do 2 f_equal. lia. }
      assert (Hr : rne C (10 ^ k) = c0 * 10 ^ (j - k)).
      { rewrite HCk. apply rne_exact. apply pow10_pos; lia. }
      rewrite Hr.
      split.
      * rewrite HCk. rewrite (scale10_shift (c0 * 10 ^ (j - k)) k e) by lia.
        f_equal. unfold k. lia.
      * assert (Hn : ndigits (c0 * 10 ^ (j - k)) = prec ctx).
        { rewrite ndigits_mul_pow10 by lia. unfold k, g. lia. }
        assert (Hpos : 0 < c0 * 10 ^ (j - k))
          by (pose proof (pow10_pos (j - k) ltac:(lia)); nia).
        destruct (ndigits_spec _ Hpos) as (_ & _ & Hup).
        rewrite Hn in Hup. assumption.
    + apply Z.ltb_ge in E. split.
      * rewrite scale10_shift by lia. f_equal. lia.
      * assert (Hn : ndigits (C * 10 ^ (e - g)) = prec ctx).
        { rewrite ndigits_mul_pow10 by lia. unfold g. lia. }
        assert (Hpos : 0 < C * 10 ^ (e - g))
          by (pose proof (pow10_pos (e - g) ltac:(lia)); nia).
        destruct (ndigits_spec _ Hpos) as (_ & _ & Hup).
        rewrite Hn in Hup. assumption.
Qed.

(* ===================================================================== *)
(** * Rational values of decimals *)
(* ===================================================================== *)

Lemma Qpow10_inject (k : Z) : 0 <= k -> (Qpower 10 k == inject_Z (10 ^ k))%Q.
Proof. intros Hk. symmetry. apply (Zpower_Qpower 10 k Hk). Qed.

Lemma Qpow10_pos (k : Z) : (0 < Qpower 10 k)%Q.
Proof. apply Qpower_0_lt. reflexivity. Qed.

Lemma value_rescale (C e m : Z) :
  m <= e ->
  (inject_Z C * Qpower 10 e == inject_Z (C * 10 ^ (e - m)) * Qpower 10 m)%Q.
Proof.
  intros H.
  replace e with ((e - m) + m) at 1 by lia.
  rewrite Qpower_plus by discriminate.
  rewrite (Qpow10_inject (e - m)) by lia.
  rewrite inject_Z_mult. ring.
Qed.

Lemma Decimal_value_pos (c : N) (e : Z) :
  (Decimal_value false c e == inject_Z (Z.of_N c) * Qpower 10 e)%Q.
Proof. unfold Decimal_value. ring. Qed.

Lemma Decimal_value_le (c1 c2 : N) (e1 e2 : Z) :
  (Decimal_value false c1 e1 <= Decimal_value false c2 e2)%Q <->
  value_le (Z.of_N c1) e1 (Z.of_N c2) e2.
Proof.
  rewrite !Decimal_value_pos. unfold value_le.
  set (m := Z.min e1 e2).
  rewrite (value_rescale (Z.of_N c1) e1 m), (value_rescale (Z.of_N c2) e2 m) by lia.
  rewrite Qmult_le_r by apply Qpow10_pos.
  rewrite <- Zle_Qle. reflexivity.
Qed.

Lemma Qfloor_div (X D : Z) :
  0 < D -> Qfloor (inject_Z X / inject_Z D) = X / D.
Proof.
  intros HD.
  destruct D as [|p|p]; try lia.
  rewrite <- (Qfloor_comp (X # p)); [reflexivity|].
  apply Qmake_Qdiv.
Qed.

(** The integer part of a non-negative value [C * 10^e]. *)
Lemma Qfloor_scale10 (C e : Z) :
  Qfloor (inject_Z C * Qpower 10 e) = scale10 C e.
Proof.
  unfold scale10. destruct (0 <=? e) eqn:E.
  - apply Z.leb_le in E.
    rewrite <- (Qfloor_Z (C * 10 ^ e)). apply Qfloor_comp.
    rewrite Qpow10_inject by assumption. rewrite inject_Z_mult. reflexivity.
  - apply Z.leb_gt in E.
    rewrite <- Qfloor_div by (apply pow10_pos; lia).
    apply Qfloor_comp.
    replace e with (- (- e)) at 1 by lia.
    rewrite Qpower_opp, Qpow10_inject by lia. reflexivity.
Qed.

Lemma Qfloor_scaled_price (c : N) (e : Z) :
  Qfloor (Decimal_value false c e * 1000000) = scale10 (Z.of_N c * 1000000) e.
Proof.
  rewrite <- Qfloor_scale10. apply Qfloor_comp.
  rewrite Decimal_value_pos. rewrite inject_Z_mult.
  change (inject_Z 1000000) with 1000000%Q. ring.
Qed.

(* ===================================================================== *)
(** * The normalizer *)
(* ===================================================================== *)

Lemma DefaultContext_ok :
  1 <= prec DefaultContext /\ Emin DefaultContext <= Emax DefaultContext /\
  Etiny DefaultContext + prec DefaultContext <= 0.
Proof. unfold Etiny. cbn. lia. Qed.

(** The normalizer on a positive finite price: decimal.Overflow, or the
    integer part of the product rounded to the context. *)
Lemma normalize_price_pos (c : N) (e : Z) :
  (0 < c)%N ->
  let C := Z.of_N c * 1000000 in
  let g := grid DefaultContext C e in
  let R := on_grid C e g in
  (normalize_price (Finite false c e) = Raises Overflow /\
   (Etop DefaultContext < ndigits C + e - prec DefaultContext \/
    (R = 10 ^ prec DefaultContext /\ g = Etop DefaultContext)))
  \/
  (normalize_price (Finite false c e) = Returns (Some (scale10 R g)) /\
   ndigits C + e - prec DefaultContext <= Etop DefaultContext /\
   (R = 10 ^ prec DefaultContext -> g < Etop DefaultContext)).
Proof.
  intros Hc C g R.
  destruct DefaultContext_ok as (Hp & Hctx & _).
  unfold normalize_price, Decimal_gt_0.
  destruct (N.eqb_spec c 0) as [->|_]; [lia|].
  cbn [negb andb rbind].
  unfold Decimal_mul, Decimal_of_int.
  change (1000000 <? 0) with false. change (Z.abs_N 1000000) with 1000000%N.
  cbn [xorb]. rewrite Z.add_0_r.
  assert (HcN : (0 < c * 1000000)%N) by lia.
  pose proof (Decimal_fix_pos DefaultContext false (c * 1000000) e HcN Hp Hctx) as H.
  cbn zeta in H. rewrite N2Z.inj_mul in H.
  change (Z.of_N 1000000) with 1000000 in H.
  fold C in H. fold g in H. fold R in H.
  destruct H as [[Hf Hov] | (m & g' & Hf & Hm & Hs & Hno & Hcarry)].
  - left. rewrite Hf. split; [reflexivity|assumption].
  - right. rewrite Hf. cbn [rbind]. unfold Decimal_int. cbn [rbind].
    rewrite Z2N.id by assumption. rewrite Hs. auto.
Qed.

Lemma Decimal_value_nonpos (s : bool) (c : N) (e : Z) :
  (Decimal_value s c e <= 0)%Q -> s = true \/ c = 0%N.
Proof.
  intros H. destruct s; [left; reflexivity|right].
  destruct (N.eq_dec c 0) as [|Hne]; [assumption|exfalso].
  rewrite Decimal_value_pos in H.
  assert (0 < inject_Z (Z.of_N c) * Qpower 10 e)%Q.
  { apply Qmult_lt_0_compat; [|apply Qpow10_pos].
    rewrite <- (Zlt_Qlt 0). lia. }
  apply (Qlt_irrefl 0). eapply Qlt_le_trans; eassumption.
Qed.

Lemma value_le_mul (C1 e1 C2 e2 t : Z) :
  0 <= t -> value_le C1 e1 C2 e2 -> value_le (C1 * t) e1 (C2 * t) e2.
Proof. unfold value_le. intros Ht H. nia. Qed.

Lemma ndigits_scaled (c : N) :
  (0 < c)%N -> ndigits (Z.of_N c * 1000000) = ndigits (Z.of_N c) + 6.
Proof.
  intros Hc. change 1000000 with (10 ^ 6). apply ndigits_mul_pow10; lia.
Qed.

Lemma normalize_price_exact (c : N) (e : Z) :
  (0 < c)%N ->
  ndigits (Z.of_N c) <= prec DefaultContext ->
  ndigits (Z.of_N c) + e + 5 <= Emax DefaultContext ->
  normalize_price (Finite false c e)
  = Returns (Some (Qfloor (Decimal_value false c e * 1000000))).
Proof.
  intros Hc Hd He.
  destruct DefaultContext_ok as (Hp & Hctx & Htiny).
  pose proof (on_grid_exact DefaultContext (Z.of_N c) 6 e ltac:(lia) ltac:(lia)
                Hp Htiny Hd) as Hex.
  cbn zeta in Hex. change (10 ^ 6) with 1000000 in Hex.
  destruct Hex as [Hs Hlt].
  rewrite Qfloor_scaled_price.
  destruct (normalize_price_pos c e Hc) as [[_ Hov] | (Hf & _ & _)].
  - exfalso. rewrite ndigits_scaled in Hov by assumption.
    destruct Hov as [Hov | [HR _]].
    + unfold Etop in Hov. lia.
    + lia.
  - rewrite Hf, Hs. reflexivity.
Qed.

Lemma normalize_price_mono (c1 c2 : N) (e1 e2 n2 : Z) :
  (0 < c1)%N -> (0 < c2)%N ->
  (Decimal_value false c1 e1 <= Decimal_value false c2 e2)%Q ->
  normalize_price (Finite false c2 e2) = Returns (Some n2) ->
  exists n1, normalize_price (Finite false c1 e1) = Returns (Some n1) /\ n1 <= n2.
Proof.
  intros H1 H2 Hle Hn2.
  destruct DefaultContext_ok as (Hp & Hctx & Htiny).
  apply Decimal_value_le in Hle.
  apply (value_le_mul _ _ _ _ 1000000) in Hle; [|lia].
  set (C1 := Z.of_N c1 * 1000000) in *. set (C2 := Z.of_N c2 * 1000000) in *.
  assert (HC1 : 0 < C1) by (unfold C1; lia).
  assert (HC2 : 0 < C2) by (unfold C2; lia).
  pose proof (adjusted_mono C1 e1 C2 e2 HC1 HC2 Hle) as Hadj.
  pose proof (on_grid_scale10_mono DefaultContext C1 e1 C2 e2 HC1 HC2 Hp Hle) as Hmono.
  pose proof (normalize_price_pos c2 e2 H2) as P2. cbn zeta in P2. fold C2 in P2.
  pose proof (normalize_price_pos c1 e1 H1) as P1. cbn zeta in P1. fold C1 in P1.
  destruct P2 as [[Hf2 _] | (Hf2 & Hno2 & Hcarry2)]; [congruence|].
  rewrite Hf2 in Hn2. injection Hn2 as <-.
  destruct P1 as [[_ Hov] | (Hf1 & _ & _)].
  - exfalso. destruct Hov as [Hov | [HR Hg]]; [lia|].
    assert (Hg12 : grid DefaultContext C1 e1 = grid DefaultContext C2 e2).
    { unfold grid, Etop, Etiny in *. lia. }
    pose proof (on_grid_mono C1 e1 C2 e2 (grid DefaultContext C1 e1) Hle) as HR12.
    rewrite Hg12 in HR12 at 2. rewrite HR in HR12.
    pose proof (on_grid_le_pow_prec DefaultContext C2 e2 HC2 Hp) as Hup.
    assert (HR2 : on_grid C2 e2 (grid DefaultContext C2 e2) = 10 ^ prec DefaultContext) by lia.
    specialize (Hcarry2 HR2). lia.
  - exists (scale10 (on_grid C1 e1 (grid DefaultContext C1 e1)) (grid DefaultContext C1 e1)).
    split; assumption.
Qed.

Lemma normalize_price_nonpos (s : bool) (c : N) (e : Z) :
  (Decimal_value s c e <= 0)%Q -> normalize_price (Finite s c e) = Returns None.
Proof.
  intros H. apply Decimal_value_nonpos in H.
  unfold normalize_price, Decimal_gt_0.
  destruct H as [-> | ->]; [reflexivity|].
  destruct s; reflexivity.
Qed.

Lemma normalize_price_tiny (c : N) (e : Z) :
  (0 < c)%N ->
  ndigits (Z.of_N c) <= prec DefaultContext ->
  (Decimal_value false c e < 1 # 1000000)%Q ->
  normalize_price (Finite false c e) = Returns (Some 0).
Proof.
  intros Hc Hd Hlt.
  assert (Hfl : Qfloor (Decimal_value false c e * 1000000) = 0).
  { assert (Hnn : (0 <= Decimal_value false c e * 1000000)%Q).
    { rewrite Decimal_value_pos. apply Qmult_le_0_compat; [|discriminate].
      apply Qmult_le_0_compat; [|apply Qlt_le_weak, Qpow10_pos].
      rewrite <- (Zle_Qle 0). lia. }
    assert (Hl1 : (Decimal_value false c e * 1000000 < 1)%Q).
    { setoid_replace 1%Q with ((1 # 1000000) * 1000000)%Q by reflexivity.
      apply Qmult_lt_r; [reflexivity|assumption]. }
    pose proof (Qfloor_le (Decimal_value false c e * 1000000)) as Hfle.
    apply Qfloor_resp_le in Hnn. change (Qfloor 0) with 0 in Hnn.
    assert (inject_Z (Qfloor (Decimal_value false c e * 1000000)) < inject_Z 1)%Q
      by (eapply Qle_lt_trans; eassumption).
    rewrite <- Zlt_Qlt in H. lia. }
  rewrite <- Hfl. apply normalize_price_exact; try assumption.
  rewrite Qfloor_scaled_price in Hfl.
  unfold scale10 in Hfl.
  destruct (ndigits_spec (Z.of_N c * 1000000) ltac:(lia)) as (_ & Hlo & _).
  rewrite ndigits_scaled in Hlo by assumption.
  destruct (0 <=? e) eqn:E.
  - apply Z.leb_le in E. pose proof (pow10_pos e E). nia.
  - apply Z.leb_gt in E.
    assert (Hsm : Z.of_N c * 1000000 < 10 ^ (- e)).
    { apply Z.div_small_iff in Hfl; [|pose proof (pow10_pos (- e)); lia].
      pose proof (pow10_pos (- e) ltac:(lia)). lia. }
    assert (ndigits (Z.of_N c) + 6 - 1 < - e).
    { apply (Z.pow_lt_mono_r_iff 10); lia. }
    cbn. lia.
Qed.

(* ===================================================================== *)
(** * Computations: traces, outcomes and exceptions *)
(* ===================================================================== *)


Lemma bind_raises {A B} (m : M A) (k : A -> M B) (t : list event) (e : exn) :
  m = (t, Raises e) -> bind m k = (t, Raises e).
Proof. intros ->. reflexivity. Qed.

Lemma bind_returns_inv {A B} (m : M A) (k : A -> M B) (t : list event) (b : B) :
  bind m k = (t, Returns b) ->
  exists t1 a t2, m = (t1, Returns a) /\ k a = (t2, Returns b) /\ t = t1 ++ t2.
Proof.
  destruct m as [t1 [a|e]]; unfold bind; [|discriminate].
  destruct (k a) as [t2 r] eqn:Ek. intros H. injection H as <- ->.
  exists t1, a, t2. auto.
Qed.


Lemma only_Exceptions_bind {A B} (m : M A) (k : A -> M B) :
  only_Exceptions (outcome m) ->
  (forall a, only_Exceptions (outcome (k a))) ->
  only_Exceptions (outcome (bind m k)).
Proof.
  intros Hm Hk e He.
  destruct m as [t [a|e1]]; unfold bind in He.
  - specialize (Hk a). destruct (k a) as [t2 r]. apply Hk. exact He.
  - cbn in He. injection He as <-. apply Hm. reflexivity.
Qed.

Lemma only_Exceptions_call {A} (ev : event) (mk : string -> exn) (a : answer A) :
  (forall what, is_Exception (mk what) = true) ->
  only_Exceptions (outcome (call ev mk a)).
Proof.
  intros Hmk e He. destruct a; cbn in He; [discriminate|].
  injection He as <-. apply Hmk.
Qed.

Lemma only_Exceptions_returns {A} (t : list event) (a : A) :
  only_Exceptions (outcome (t, Returns a)).
Proof. intros e He. discriminate. Qed.

(** A [try ... except Exception] whose handler returns always returns,
    provided the body raises nothing but [Exception]s. *)
Lemma try_except_returns {A} (body : M A) (handler : exn -> M A) :
  only_Exceptions (outcome body) ->
  (forall e, exists t r, handler e = (t, Returns r)) ->
  exists t r, try_except_Exception body handler = (t, Returns r).
Proof.
  intros Hb Hh. destruct body as [t [a|e]]; cbn.
  - eauto.
  - rewrite (Hb e eq_refl). destruct (Hh e) as (t' & r & ->). eauto.
Qed.

(* ===================================================================== *)
(** * The price-source adapter *)
(* ===================================================================== *)

Lemma dict_getitem_only_Exceptions {V} (d : dict V) (k : string) :
  only_Exceptions (dict_getitem d k).
Proof.
  unfold dict_getitem. intros e He.
  destruct (dict_get d k); [discriminate|]. injection He as <-. reflexivity.
Qed.

Lemma getitem_key_only_Exceptions (v : json) (k : string) :
  only_Exceptions (getitem_key v k).
Proof.
  destruct v; cbn; try (intros e He; injection He as <-; reflexivity).
  apply dict_getitem_only_Exceptions.
Qed.

Lemma getitem_0_only_Exceptions (v : json) : only_Exceptions (getitem_0 v).
Proof.
  intros e He.
  destruct v as [| | |s|items|members]; cbn in He;
    try (injection He as <-; reflexivity).
  - destruct s; [injection He as <-; reflexivity|discriminate].
  - destruct items; [injection He as <-; reflexivity|discriminate].
Qed.

Lemma rbind_only_Exceptions {A B} (r : result A) (k : A -> result B) :
  only_Exceptions r -> (forall a, only_Exceptions (k a)) ->
  only_Exceptions (rbind r k).
Proof.
  intros Hr Hk. destruct r as [a|e]; cbn; [apply Hk|].
  intros e' He'. injection He' as <-. apply Hr. reflexivity.
Qed.

Lemma price_field_only_Exceptions (data : json) :
  only_Exceptions (price_field data).
Proof.
  unfold price_field.
  repeat (apply rbind_only_Exceptions; [|intros ?]);
    first [apply getitem_key_only_Exceptions | apply getitem_0_only_Exceptions].
Qed.

Lemma raise_for_status_only_Exceptions (resp : response) :
  only_Exceptions (raise_for_status resp).
Proof.
  unfold raise_for_status. intros e He.
  destruct (_ && _); [injection He as <-; reflexivity|discriminate].
Qed.

Lemma response_json_only_Exceptions (resp : response) :
  only_Exceptions (response_json resp).
Proof.
  unfold response_json. intros e He.
  destruct (body resp); [discriminate|injection He as <-; reflexivity].
Qed.

Lemma Decimal_of_str_only_Exceptions (price : json) :
  only_Exceptions (Decimal_of_str price).
Proof.
  intros e He. destruct price; cbn in He; try (injection He as <-; reflexivity);
    try discriminate.
  destruct (Decimal_of_string s); [discriminate|injection He as <-; reflexivity].
Qed.

Lemma fetch_commodity_returns (w : http_world) (ticker : string) :
  exists t r, _fetch_commodity w ticker = (t, Returns r).
Proof.
  unfold _fetch_commodity. cbv zeta.
  apply try_except_returns.
  - apply only_Exceptions_bind; [apply only_Exceptions_call; reflexivity|intros resp].
    apply only_Exceptions_bind; [apply raise_for_status_only_Exceptions|intros _].
    apply only_Exceptions_bind; [apply response_json_only_Exceptions|intros data].
    apply only_Exceptions_bind; [apply price_field_only_Exceptions|intros price].
    apply only_Exceptions_bind; [apply Decimal_of_str_only_Exceptions|intros d].
    apply only_Exceptions_returns.
  - intros e. eexists _, _. reflexivity.
Qed.

(** C6: the adapter never raises into its caller.  For every symbol and
    every answer of the HTTP world it returns a decimal price or absence;
    a network failure, an error status, a body that is not JSON and a
    missing field each give absence. *)
Theorem fetch_commodity_never_raises (w : http_world) (ticker : string) :
  (exists t r, _fetch_commodity w ticker = (t, Returns r)) /\
  (forall kind, w (chart_url ticker) = Fails kind ->
     outcome (_fetch_commodity w ticker) = Returns None) /\
  (forall resp, w (chart_url ticker) = Ok resp ->
     400 <= status_code resp < 600 ->
     outcome (_fetch_commodity w ticker) = Returns None) /\
  (forall resp, w (chart_url ticker) = Ok resp ->
     body resp = None ->
     outcome (_fetch_commodity w ticker) = Returns None) /\
  (forall resp data e, w (chart_url ticker) = Ok resp ->
     body resp = Some data -> price_field data = Raises e ->
     outcome (_fetch_commodity w ticker) = Returns None).
Proof.
  split; [apply fetch_commodity_returns|].
  unfold _fetch_commodity, call, lift, ret, emit, outcome. cbv zeta.
  repeat split.
  - intros kind Hw. rewrite Hw. reflexivity.
  - intros resp Hw Hs. rewrite Hw. cbn [bind]. unfold raise_for_status.
    assert (Hc : (400 <=? status_code resp) && (status_code resp <? 600) = true).
    { apply andb_true_iff. split; [apply Z.leb_le|apply Z.ltb_lt]; lia. }
    rewrite Hc. reflexivity.
  - intros resp Hw Hb. rewrite Hw. cbn [bind].
    destruct (raise_for_status resp) as [[]|e1] eqn:E1.
    + unfold response_json. rewrite Hb. reflexivity.
    + cbn. rewrite (raise_for_status_only_Exceptions resp e1 E1). reflexivity.
  - intros resp data e Hw Hb Hp. rewrite Hw. cbn [bind].
    destruct (raise_for_status resp) as [[]|e1] eqn:E1.
    + unfold response_json. rewrite Hb. cbn. rewrite Hp. cbn.
      rewrite (price_field_only_Exceptions data e Hp). reflexivity.
    + cbn. rewrite (raise_for_status_only_Exceptions resp e1 E1). reflexivity.
Qed.

(* ===================================================================== *)
(** * Dicts and comprehensions *)
(* ===================================================================== *)

Lemma dict_set_fresh {V} (d : dict V) (k : string) (v : V) :
  ~ In k (keys d) -> dict_set d k v = d ++ [(k, v)].
Proof.
  induction d as [|[k' v'] d IH]; intros Hk; cbn; [reflexivity|].
  destruct (String.eqb_spec k' k) as [->|Hne].
  - exfalso. apply Hk. left. reflexivity.
  - f_equal. apply IH. intros Hin. apply Hk. right. exact Hin.
Qed.

Lemma dict_get_In {V} (d : dict V) (k : string) (v : V) :
  NoDup (keys d) -> In (k, v) d -> dict_get d k = Some v.
Proof.
  induction d as [|[k' v'] d IH]; intros Hnd Hin; [contradiction|].
  cbn in Hnd. inversion Hnd as [|? ? Hnot Hnd']; subst.
  cbn. destruct Hin as [Heq|Hin].
  - injection Heq as -> ->. rewrite String.eqb_refl. reflexivity.
  - destruct (String.eqb_spec k' k) as [->|Hne].
    + exfalso. apply Hnot. apply (in_map fst) in Hin. exact Hin.
    + apply IH; assumption.
Qed.

Lemma dict_get_tabulate {V} (f : string -> V) (ks : list string) (k : string) :
  In k ks -> dict_get (map (fun x => (x, f x)) ks) k = Some (f k).
Proof.
  induction ks as [|k' ks IH]; intros Hin; [contradiction|].
  cbn. destruct (String.eqb_spec k' k) as [->|Hne]; [reflexivity|].
  destruct Hin as [Heq|Hin]; [contradiction|]. apply IH. exact Hin.
Qed.

Lemma comprehension_map {A B} (f : A -> result B) (g : A -> B) (l : list A) :
  (forall a, In a l -> f a = Returns (g a)) ->
  comprehension f l = Returns (map g l).
Proof.
  induction l as [|a l IH]; intros H; [reflexivity|].
  cbn. rewrite (H a) by (left; reflexivity). cbn.
  rewrite IH by (intros b Hb; apply H; right; exact Hb). reflexivity.
Qed.

(** [[d[k] for k in d]] lists the values of [d]. *)
Lemma comprehension_values {V} (d : dict V) :
  NoDup (keys d) ->
  comprehension (dict_getitem d) (keys d) = Returns (map snd d).
Proof.
  intros Hnd.
  assert (H : forall d', (forall kv, In kv d' -> In kv d) ->
            comprehension (dict_getitem d) (keys d') = Returns (map snd d')).
  { induction d' as [|[k v] d' IH]; intros Hsub; [reflexivity|].
    change (keys ((k, v) :: d')) with (k :: keys d').
    cbn [comprehension map snd]. unfold dict_getitem at 1.
    rewrite (dict_get_In d k v Hnd) by (apply Hsub; left; reflexivity).
    cbn [rbind]. rewrite IH by (intros kv Hkv; apply Hsub; right; exact Hkv).
    reflexivity. }
  apply H. auto.
Qed.

(* ===================================================================== *)
(** * fetch_all_prices *)
(* ===================================================================== *)

Lemma entry_of_keys (w : http_world) (src : string * fetch_fn) :
  keys (entry_of w src) = [] \/ keys (entry_of w src) = [fst src].
Proof.
  unfold entry_of.
  destruct (outcome (snd src w)) as [[p|]|e]; auto.
  destruct (normalize_price p) as [[raw|]|e]; auto.
Qed.

Lemma entries_keys_incl (w : http_world) (sources : dict fetch_fn) (k : string) :
  In k (keys (flat_map (entry_of w) sources)) -> In k (keys sources).
Proof.
  unfold keys. induction sources as [|src sources IH]; cbn; [auto|].
  rewrite map_app, in_app_iff. intros [H|H]; [|right; apply IH; exact H].
  left. destruct (entry_of_keys w src) as [E|E]; unfold keys in E;
    rewrite E in H; cbn in H; tauto.
Qed.

Lemma entries_keys_NoDup (w : http_world) (sources : dict fetch_fn) :
  NoDup (keys sources) -> NoDup (keys (flat_map (entry_of w) sources)).
Proof.
  induction sources as [|src sources IH]; cbn; intros Hnd; [constructor|].
  inversion Hnd as [|? ? Hnot Hnd']; subst.
  unfold keys. rewrite map_app. fold (keys (entry_of w src)).
  fold (keys (flat_map (entry_of w) sources)).
  destruct (entry_of_keys w src) as [E|E]; rewrite E; cbn.
  - apply IH. exact Hnd'.
  - constructor; [|apply IH; exact Hnd'].
    intros Hin. apply Hnot. apply (entries_keys_incl w). exact Hin.
Qed.

(** When the loop returns, the dict holds the entries of the sources it
    ran through, appended in the order of the sources. *)
Lemma fetch_loop_returns (w : http_world) (sources : dict fetch_fn) :
  forall (prices : dict Z) (t : list event) (d : dict Z),
    fetch_loop w sources prices = (t, Returns d) ->
    NoDup (keys sources) ->
    (forall k, In k (keys sources) -> ~ In k (keys prices)) ->
    d = prices ++ flat_map (entry_of w) sources.
Proof.
  induction sources as [|[name fetch] sources IH]; intros prices t d H Hnd Hfresh.
  - cbn in H. injection H as _ <-. cbn. rewrite app_nil_r. reflexivity.
  - cbn [fetch_loop] in H.
    apply bind_returns_inv in H. destruct H as (t1 & price & t2 & Hf & H & _).
    apply bind_returns_inv in H. destruct H as (t3 & prices' & t4 & Hp & H & _).
    inversion Hnd as [|? ? Hnot Hnd']; subst.
    cbn [flat_map]. unfold entry_of at 1. cbn [fst snd]. rewrite Hf. cbn [outcome snd].
    assert (Hstep : prices' = prices ++
              match price with
              | Some p => match normalize_price p with
                          | Returns (Some raw) => [(name, raw)]
                          | _ => []
                          end
              | None => []
              end).
    { destruct price as [p|].
      - apply bind_returns_inv in Hp. destruct Hp as (t5 & normalized & t6 & Hn & Hp & _).
        unfold lift in Hn. injection Hn as _ Hn. rewrite Hn.
        destruct normalized as [raw|].
        + cbn in Hp. injection Hp as _ <-.
          apply dict_set_fresh. apply Hfresh. left. reflexivity.
        + cbn in Hp. injection Hp as _ <-. rewrite app_nil_r. reflexivity.
      - cbn in Hp. injection Hp as _ <-. rewrite app_nil_r. reflexivity. }
    apply IH in H; [|exact Hnd'|].
    + rewrite H, Hstep, <- app_assoc. reflexivity.
    + intros k Hk Hin. rewrite Hstep in Hin. unfold keys in Hin.
      rewrite map_app, in_app_iff in Hin. destruct Hin as [Hin|Hin].
      * apply (Hfresh k); [right; exact Hk|exact Hin].
      * assert (k = name).
        { destruct price as [p|]; [|contradiction].
          destruct (normalize_price p) as [[raw|]|e]; cbn in Hin;
            try contradiction.
          destruct Hin as [Hin|[]]. symmetry. exact Hin. }
        subst k. apply Hnot. exact Hk.
Qed.

Lemma COMMODITY_SOURCES_NoDup : NoDup (keys COMMODITY_SOURCES).
Proof.
  cbn. repeat constructor; cbn; intuition discriminate.
Qed.

Lemma fetch_all_prices_returns (w : http_world) (t : list event) (prices : dict Z) :
  fetch_all_prices w = (t, Returns prices) -> prices = expected_entries w.
Proof.
  intros H. unfold fetch_all_prices in H.
  apply fetch_loop_returns in H; [exact H|apply COMMODITY_SOURCES_NoDup|].
  intros k _ Hin. exact Hin.
Qed.


Lemma normalize_price_accepted (p : Decimal) (n : option Z) :
  Decimal_gt_0 p = Returns true -> normalize_price p = Returns n ->
  exists raw, n = Some raw.
Proof.
  intros H. unfold normalize_price. rewrite H. cbn [rbind].
  destruct (Decimal_mul _ _ _) as [d|e]; cbn [rbind]; [|discriminate].
  destruct (Decimal_int d) as [raw|e]; cbn [rbind]; [|discriminate].
  intros E. injection E as <-. eauto.
Qed.

(** When the loop returns, every fetch returned and the normalizer
    returned on every fetched price. *)
Lemma fetch_loop_steps_return (w : http_world) (sources : dict fetch_fn) :
  forall (prices : dict Z) (t : list event) (d : dict Z),
    fetch_loop w sources prices = (t, Returns d) ->
    forall src, In src sources ->
      exists r, outcome (snd src w) = Returns r /\
                forall p, r = Some p -> exists n, normalize_price p = Returns n.
Proof.
  induction sources as [|[name fetch] sources IH]; intros prices t d H src Hin;
    [contradiction|].
  cbn [fetch_loop] in H.
  apply bind_returns_inv in H. destruct H as (t1 & price & t2 & Hf & H & _).
  apply bind_returns_inv in H. destruct H as (t3 & prices' & t4 & Hp & H & _).
  destruct Hin as [<-|Hin]; [|eapply IH; eassumption].
  exists price. cbn [snd]. rewrite Hf. split; [reflexivity|].
  intros p ->.
  apply bind_returns_inv in Hp. destruct Hp as (t5 & n & t6 & Hn & _ & _).
  unfold lift in Hn. injection Hn as _ Hn. eauto.
Qed.


(* ===================================================================== *)
(** * Which events a computation performs *)
(* ===================================================================== *)

Lemma trace_bind_forallb {A B} (P : event -> bool) (m : M A) (k : A -> M B) :
  forallb P (trace m) = true ->
  (forall a, forallb P (trace (k a)) = true) ->
  forallb P (trace (bind m k)) = true.
Proof.
  intros Hm Hk. destruct m as [t [a|e]]; unfold bind; [|exact Hm].
  specialize (Hk a). destruct (k a) as [t2 r]. cbn in *.
  rewrite forallb_app, Hm, Hk. reflexivity.
Qed.

Lemma trace_try_forallb {A} (P : event -> bool) (body : M A) (handler : exn -> M A) :
  forallb P (trace body) = true ->
  (forall e, forallb P (trace (handler e)) = true) ->
  forallb P (trace (try_except_Exception body handler)) = true.
Proof.
  intros Hb Hh. destruct body as [t [a|e]]; cbn; [exact Hb|].
  destruct (is_Exception e); [|exact Hb].
  specialize (Hh e). destruct (handler e) as [t2 r]. cbn in *.
  rewrite forallb_app, Hb, Hh. reflexivity.
Qed.

Lemma fetch_commodity_local (w : http_world) (ticker : string) :
  forallb is_local (trace (_fetch_commodity w ticker)) = true.
Proof.
  unfold _fetch_commodity. cbv zeta.
  apply trace_try_forallb; [|reflexivity].
  repeat (apply trace_bind_forallb; [reflexivity|intros ?]).
  reflexivity.
Qed.

Lemma COMMODITY_SOURCES_adapters (src : string * fetch_fn) :
  In src COMMODITY_SOURCES ->
  exists ticker, snd src = fun w => _fetch_commodity w ticker.
Proof.
  intros H. cbn in H.
  repeat (destruct H as [<-|H]; [eexists; reflexivity|]). contradiction.
Qed.

Lemma fetch_loop_local (w : http_world) (sources : dict fetch_fn) :
  (forall src, In src sources -> forallb is_local (trace (snd src w)) = true) ->
  forall prices, forallb is_local (trace (fetch_loop w sources prices)) = true.
Proof.
  induction sources as [|[name fetch] sources IH]; intros H prices; [reflexivity|].
  cbn [fetch_loop].
  apply trace_bind_forallb; [apply (H (name, fetch)); left; reflexivity|intros price].
  apply trace_bind_forallb.
  - destruct price as [p|]; [|reflexivity].
    apply trace_bind_forallb; [reflexivity|intros [raw|]]; reflexivity.
  - intros prices'. apply IH. intros src Hin. apply H. right. exact Hin.
Qed.

Lemma fetch_all_prices_local (w : http_world) :
  forallb is_local (trace (fetch_all_prices w)) = true.
Proof.
  apply fetch_loop_local. intros src Hin.
  destruct (COMMODITY_SOURCES_adapters src Hin) as (ticker & ->).
  apply fetch_commodity_local.
Qed.

Lemma fetch_all_prices_total (w : http_world) :
  (forall src, In src COMMODITY_SOURCES ->
     forall p, outcome (snd src w) = Returns (Some p) ->
               exists n, normalize_price p = Returns n) ->
  exists t prices, fetch_all_prices w = (t, Returns prices).
Proof.
  unfold fetch_all_prices. generalize (@nil (string * Z)).
  assert (Had : forall src, In src COMMODITY_SOURCES ->
                  exists t r, snd src w = (t, Returns r)).
  { intros src Hin. destruct (COMMODITY_SOURCES_adapters src Hin) as (ticker & ->).
    apply fetch_commodity_returns. }
  induction COMMODITY_SOURCES as [|[name fetch] sources IH]; intros prices H.
  - eexists _, _. reflexivity.
  - cbn [fetch_loop].
    destruct (Had (name, fetch) (or_introl eq_refl)) as (t0 & r & Hf).
    cbn [snd] in Hf. rewrite Hf. cbn [bind].
    assert (Hrest : forall prices',
               exists t2 d, fetch_loop w sources prices' = (t2, Returns d)).
    { intros prices'.
      apply (IH (fun src Hin => Had src (or_intror Hin)) prices'
                (fun src Hin => H src (or_intror Hin))). }
    destruct r as [p|].
    + destruct (H (name, fetch) (or_introl eq_refl) p) as (n & Hn).
      { cbn [snd]. rewrite Hf. reflexivity. }
      rewrite Hn. destruct n as [raw|]; cbn [lift bind emit ret app].
      * destruct (Hrest (dict_set prices name raw)) as (t2 & d & ->).
        eexists _, _. reflexivity.
      * destruct (Hrest prices) as (t2 & d & ->). eexists _, _. reflexivity.
    + cbn [bind ret]. destruct (Hrest prices) as (t2 & d & ->).
      eexists _, _. reflexivity.
Qed.

(* ===================================================================== *)
(** * submit_prices *)
(* ===================================================================== *)

Lemma COMMODITY_IDS_lookup (name : string) :
  In name (keys COMMODITY_SOURCES) ->
  dict_getitem COMMODITY_IDS name = Returns (Web3_keccak_text name).
Proof.
  intros H. unfold dict_getitem, COMMODITY_IDS.
  rewrite (dict_get_tabulate Web3_keccak_text _ name H). reflexivity.
Qed.

(** On a non-empty dict of registered names the two comprehensions
    succeed, and the submitter is its [try] block. *)
Lemma submit_prices_nonempty (c : chain_world) (prices : dict Z) :
  prices <> [] -> NoDup (keys prices) ->
  (forall k, In k (keys prices) -> In k (keys COMMODITY_SOURCES)) ->
  submit_prices c prices
  = try_except_Exception
      (send_batch c (map Web3_keccak_text (keys prices)) (map snd prices)
                  (List.length prices))
      (fun exc => (emit (Log ERROR (Log_submission_error exc)) ;; raise exc)%M).
Proof.
  intros Hne Hnd Hin. unfold submit_prices.
  destruct prices as [|kv rest] eqn:E; [contradiction|]. rewrite <- E in *.
  rewrite (comprehension_map _ Web3_keccak_text)
    by (intros k Hk; apply COMMODITY_IDS_lookup, Hin, Hk).
  rewrite (comprehension_values prices Hnd).
  cbn [lift bind]. destruct (try_except_Exception _ _). reflexivity.
Qed.

Ltac answers c :=
  destruct c as [a1 a2 a3 a4 a5 a6 a7]; cbn [get_transaction_count submitBatch
    gas_price build_transaction sign_transaction send_raw_transaction
    wait_for_transaction_receipt].

(** Unfold [send_batch] along the answers of the chain. *)
Ltac split_answer a :=
  lazymatch a with
  | Ok _ => fail
  | Fails _ => fail
  | _ => destruct a
  end.

Ltac run_send_batch :=
  unfold send_batch, call;
  repeat (cbn [bind emit app get_transaction_count submitBatch gas_price
               build_transaction sign_transaction send_raw_transaction
               wait_for_transaction_receipt];
          cbv beta iota;
          match goal with
          | |- context [match ?a with Ok _ => _ | Fails _ => _ end] =>
              split_answer a
          | |- context [if ?b then _ else _] => destruct b
          end);
  cbn [bind emit app trace outcome fst snd] in *.

Lemma send_batch_SubmitBatch (c : chain_world) (C : list (list byte)) (P : list Z)
      (n : nat) (cs : list (list byte)) (ps : list Z) :
  In (SubmitBatch cs ps) (trace (send_batch c C P n)) -> cs = C /\ ps = P.
Proof.
  intros H. answers c. revert H. run_send_batch; intros H;
    repeat (destruct H as [H|H]; [try discriminate; injection H as <- <-; auto|]);
    contradiction.
Qed.

Lemma send_batch_submits (c : chain_world) (C : list (list byte)) (P : list Z)
      (n : nat) (nonce : Z) :
  get_transaction_count c = Ok nonce ->
  In (SubmitBatch C P) (trace (send_batch c C P n)).
Proof.
  answers c. intros ->. run_send_batch; cbn; auto.
Qed.

Lemma send_batch_no_sleep (c : chain_world) (C : list (list byte)) (P : list Z)
      (n : nat) :
  forallb (fun ev => negb (is_sleep ev)) (trace (send_batch c C P n)) = true.
Proof. answers c. run_send_batch; reflexivity. Qed.

Lemma send_batch_only_Exceptions (c : chain_world) (C : list (list byte))
      (P : list Z) (n : nat) :
  only_Exceptions (outcome (send_batch c C P n)).
Proof.
  unfold send_batch.
  repeat (apply only_Exceptions_bind;
          [apply only_Exceptions_call; reflexivity|intros ?]).
  destruct (_ =? _); apply only_Exceptions_returns.
Qed.

Lemma trace_bind_In {A B} (m : M A) (k : A -> M B) (ev : event) :
  In ev (trace (bind m k)) <->
  In ev (trace m) \/ exists a, outcome m = Returns a /\ In ev (trace (k a)).
Proof.
  destruct m as [t [a|e]]; unfold bind; cbn [trace outcome fst snd].
  - destruct (k a) as [t2 r] eqn:Ek. cbn [trace fst]. rewrite in_app_iff. split.
    + intros [H|H]; [left; exact H|right]. exists a. rewrite Ek. auto.
    + intros [H|(a' & Ha & H)]; [left; exact H|right].
      injection Ha as <-. rewrite Ek in H. exact H.
  - split; [auto|]. intros [H|(a' & Ha & _)]; [exact H|discriminate].
Qed.

Lemma trace_try_In {A} (body : M A) (handler : exn -> M A) (ev : event) :
  In ev (trace (try_except_Exception body handler)) <->
  In ev (trace body) \/
  exists e, outcome body = Raises e /\ is_Exception e = true /\
            In ev (trace (handler e)).
Proof.
  destruct body as [t [a|e]]; cbn [try_except_Exception trace outcome fst snd].
  - split; [auto|]. intros [H|(e & He & _)]; [exact H|discriminate].
  - destruct (is_Exception e) eqn:Ex.
    + destruct (handler e) as [t2 r] eqn:Eh. cbn [trace fst]. rewrite in_app_iff. split.
      * intros [H|H]; [left; exact H|right]. exists e. rewrite Eh. auto.
      * intros [H|(e' & He & _ & H)]; [left; exact H|right].
        injection He as <-. rewrite Eh in H. exact H.
    + cbn [trace fst]. split; [auto|]. intros [H|(e' & He & Hx & _)]; [exact H|].
      injection He as <-. congruence.
Qed.

Lemma local_not_chain (t : list event) (ev : event) :
  forallb is_local t = true -> In ev t ->
  is_chain_call ev = false /\ is_sleep ev = false.
Proof.
  intros H Hin. rewrite forallb_forall in H. specialize (H ev Hin).
  unfold is_local in H. apply andb_true_iff in H. destruct H as [H1 H2].
  split; apply negb_true_iff; assumption.
Qed.

Lemma expected_entries_keys (w : http_world) :
  NoDup (keys (expected_entries w)) /\
  forall k, In k (keys (expected_entries w)) -> In k (keys COMMODITY_SOURCES).
Proof.
  split.
  - apply entries_keys_NoDup, COMMODITY_SOURCES_NoDup.
  - apply entries_keys_incl.
Qed.

(** What the submitter does with the dict that [fetch_all_prices]
    returned, when it is not empty. *)
Lemma submit_prices_fetched (c : chain_world) (w : http_world)
      (t : list event) (prices : dict Z) :
  fetch_all_prices w = (t, Returns prices) -> prices <> [] ->
  submit_prices c prices
  = try_except_Exception
      (send_batch c (map Web3_keccak_text (keys prices)) (map snd prices)
                  (List.length prices))
      (fun exc => (emit (Log ERROR (Log_submission_error exc)) ;; raise exc)%M).
Proof.
  intros Hf Hne. apply fetch_all_prices_returns in Hf. subst prices.
  destruct (expected_entries_keys w) as [Hnd Hin].
  apply submit_prices_nonempty; assumption.
Qed.

Lemma submit_prices_SubmitBatch (c : chain_world) (w : http_world)
      (t : list event) (prices : dict Z) (cs : list (list byte)) (ps : list Z) :
  fetch_all_prices w = (t, Returns prices) ->
  In (SubmitBatch cs ps) (trace (submit_prices c prices)) ->
  prices <> [] /\ cs = map Web3_keccak_text (keys prices) /\ ps = map snd prices.
Proof.
  intros Hf Hin.
  assert (Hne : prices <> []).
  { intros ->. cbn in Hin. destruct Hin as [H|[]]. discriminate. }
  split; [exact Hne|].
  rewrite (submit_prices_fetched c w t prices Hf Hne) in Hin.
  apply trace_try_In in Hin. destruct Hin as [Hin|(e & _ & _ & Hin)].
  - eapply send_batch_SubmitBatch. exact Hin.
  - cbn in Hin. destruct Hin as [H|[]]. discriminate.
Qed.

Lemma submit_prices_raises (c : chain_world) (w : http_world)
      (t : list event) (prices : dict Z) (e : exn) :
  fetch_all_prices w = (t, Returns prices) ->
  outcome (submit_prices c prices) = Raises e ->
  prices <> [] /\
  In (Log ERROR (Log_submission_error e)) (trace (submit_prices c prices)) /\
  forallb (fun ev => negb (is_sleep ev)) (trace (submit_prices c prices)) = true.
Proof.
  intros Hf He.
  assert (Hne : prices <> []) by (intros ->; discriminate He).
  split; [exact Hne|].
  rewrite (submit_prices_fetched c w t prices Hf Hne) in *.
  pose proof (send_batch_only_Exceptions c (map Web3_keccak_text (keys prices))
                (map snd prices) (List.length prices)) as Hex.
  pose proof (send_batch_no_sleep c (map Web3_keccak_text (keys prices))
                (map snd prices) (List.length prices)) as Hns.
  destruct (send_batch c _ _ _) as [tb [[]|eb]]; cbn [outcome snd] in *.
  - discriminate He.
  - cbn [try_except_Exception] in *. rewrite (Hex eb eq_refl) in *.
    cbn in He. injection He as <-. cbn [bind emit raise trace fst app].
    split.
    + apply in_or_app. right. left. reflexivity.
    + rewrite forallb_app. cbn [trace fst] in Hns. rewrite Hns. reflexivity.
Qed.

(* ===================================================================== *)
(** * The cycle and the loop *)
(* ===================================================================== *)


Lemma main_loop_stops (fuel : nat) (world : nat -> cycle_world) (n : nat)
      (t : list event) (e : exn) :
  cycle (world n) = (t, Raises e) ->
  main_loop (S fuel) world n = (t, Raises e).
Proof.
  intros H. cbn [main_loop].
  exact (bind_raises (cycle (world n)) (fun _ => main_loop fuel world (S n)) t e H).
Qed.

(** A cycle whose fetches returned [prices]. *)
Lemma cycle_fetched (w : cycle_world) (t : list event) (prices : dict Z) :
  fetch_all_prices (http w) = (t, Returns prices) ->
  cycle w
  = bind (Log INFO Log_fetching :: t, Returns prices)
         (fun prices =>
            (match prices with
             | _ :: _ => submit_prices (chain w) prices
             | [] => emit (Log WARNING (Log_all_fetches_failed POLL_INTERVAL))
             end ;; sleep (os_sleep w) POLL_INTERVAL)%M).
Proof.
  intros H. unfold cycle. rewrite H. cbn [emit bind]. 
  destruct (bind _ _). reflexivity.
Qed.

Lemma cycle_fetch_raises (w : cycle_world) (t : list event) (e : exn) :
  fetch_all_prices (http w) = (t, Raises e) ->
  cycle w = (Log INFO Log_fetching :: t, Raises e).
Proof. intros H. unfold cycle. rewrite H. reflexivity. Qed.

(** [time.sleep] by the length in seconds: the nanoseconds fit 64 bits
    exactly for lengths from -9223372036 to 9223372036. *)
Lemma sleep_cases (os : Z -> answer unit) (secs : Z) :
  sleep os secs
  = if (secs <=? -9223372037) || (9223372037 <=? secs)
    then ([], Raises OverflowError)
    else if secs <? 0 then ([], Raises ValueError)
    else match os secs with
         | Ok _ => ([Sleep secs], Returns tt)
         | Fails what => ([], Raises (OSError what))
         end.
Proof.
  unfold sleep, raise, emit. cbv zeta.
  change (10 ^ 9) with 1000000000.
  change (- 2 ^ 63) with (-9223372036854775808).
  change (2 ^ 63 - 1) with 9223372036854775807.
  destruct (Z.ltb_spec (secs * 1000000000) (-9223372036854775808));
    destruct (Z.ltb_spec 9223372036854775807 (secs * 1000000000));
    destruct (Z.leb_spec secs (-9223372037));
    destruct (Z.leb_spec 9223372037 secs);
    cbn [orb]; try reflexivity; lia.
Qed.

Lemma sleep_accepted (os : Z -> answer unit) :
  0 <= POLL_INTERVAL < 9223372037 -> os POLL_INTERVAL = Ok tt ->
  sleep os POLL_INTERVAL = ([Sleep POLL_INTERVAL], Returns tt).
Proof.
  intros H Hos. rewrite sleep_cases, Hos.
  destruct (Z.leb_spec POLL_INTERVAL (-9223372037)); [lia|].
  destruct (Z.leb_spec 9223372037 POLL_INTERVAL); [lia|].
  destruct (Z.ltb_spec POLL_INTERVAL 0); [lia|]. reflexivity.
Qed.

Lemma sleep_trace (os : Z -> answer unit) (ev : event) :
  In ev (trace (sleep os POLL_INTERVAL)) -> ev = Sleep POLL_INTERVAL.
Proof.
  rewrite sleep_cases.
  destruct (_ || _); [intros []|].
  destruct (POLL_INTERVAL <? 0); [intros []|].
  destruct (os POLL_INTERVAL); cbn; [|intros []].
  intros [H|[]]. symmetry. exact H.
Qed.

(** A sleep that took place returned, and one that raised left no
    event. *)
Lemma sleep_event_iff_returns (os : Z -> answer unit) (secs : Z) :
  (sleep os secs = ([Sleep secs], Returns tt)) \/
  (exists e, sleep os secs = ([], Raises e)).
Proof.
  rewrite sleep_cases.
  destruct (_ || _); [right; eauto|].
  destruct (secs <? 0); [right; eauto|].
  destruct (os secs) as [[]|what]; [left; reflexivity|right; eauto].
Qed.

(* ===================================================================== *)
(** * Properties of the polling cycle *)
(* ===================================================================== *)


(** The batch of a cycle: the arguments of every [submitBatch] call are
    the identifiers and the scaled prices of the expected entries. *)
Lemma cycle_SubmitBatch (w : cycle_world) (cs : list (list byte)) (ps : list Z) :
  In (SubmitBatch cs ps) (trace (cycle w)) ->
  cs = map (fun kv => Web3_keccak_text (fst kv)) (expected_entries (http w)) /\
  ps = map snd (expected_entries (http w)) /\
  expected_entries (http w) <> [].
Proof.
  intros Hin.
  pose proof (fetch_all_prices_local (http w)) as Hloc.
  destruct (fetch_all_prices (http w)) as [t [prices|e]] eqn:Hf.
  - rewrite (cycle_fetched w t prices Hf) in Hin.
    apply trace_bind_In in Hin. cbn [trace outcome fst snd] in Hin.
    destruct Hin as [Hin|(prices' & Hp & Hin)].
    { destruct Hin as [Hin|Hin]; [discriminate|].
      destruct (local_not_chain t _ Hloc Hin). discriminate. }
    injection Hp as <-.
    apply trace_bind_In in Hin. destruct Hin as [Hin|(_ & _ & Hin)].
    2:{ apply sleep_trace in Hin. discriminate. }
    assert (Hs : In (SubmitBatch cs ps) (trace (submit_prices (chain w) prices))).
    { destruct prices; [|exact Hin]. cbn in Hin. destruct Hin as [H|[]].
      discriminate. }
    destruct (submit_prices_SubmitBatch _ _ _ _ _ _ Hf Hs) as (Hne & -> & ->).
    apply fetch_all_prices_returns in Hf. subst prices.
    unfold keys. rewrite map_map. auto.
  - rewrite (cycle_fetch_raises w t e Hf) in Hin. cbn [trace fst] in Hin.
    destruct Hin as [Hin|Hin]; [discriminate|].
    destruct (local_not_chain t _ Hloc Hin). discriminate.
Qed.

Lemma dict_get_None {V} (d : dict V) (k : string) :
  ~ In k (keys d) -> dict_get d k = None.
Proof.
  induction d as [|[k' v'] d IH]; intros H; [reflexivity|].
  cbn. destruct (String.eqb_spec k' k) as [->|Hne].
  - exfalso. apply H. left. reflexivity.
  - apply IH. intros Hin. apply H. right. exact Hin.
Qed.

(** A source without an entry has no key in the expected entries. *)
Lemma no_entry_no_key (w : http_world) (sources : dict fetch_fn)
      (src : string * fetch_fn) :
  NoDup (keys sources) -> In src sources -> entry_of w src = [] ->
  ~ In (fst src) (keys (flat_map (entry_of w) sources)).
Proof.
  induction sources as [|src' sources IH]; intros Hnd Hin He; [contradiction|].
  inversion Hnd as [|? ? Hnot Hnd']; subst.
  cbn [flat_map]. unfold keys. rewrite map_app, in_app_iff.
  fold (keys (entry_of w src')). fold (keys (flat_map (entry_of w) sources)).
  destruct Hin as [->|Hin].
  - rewrite He. intros [[]|H]. apply Hnot. apply (entries_keys_incl w). exact H.
  - intros [H|H]; [|exact (IH Hnd' Hin He H)].
    destruct (entry_of_keys w src') as [E|E]; rewrite E in H; [contradiction|].
    destruct H as [H|[]]. apply Hnot. rewrite H.
    apply (in_map fst) in Hin. exact Hin.
Qed.

Lemma rejected_not_fetched (w : http_world) (src : string * fetch_fn)
      (p : Decimal) (t : list event) (prices : dict Z) :
  In src COMMODITY_SOURCES ->
  outcome (snd src w) = Returns (Some p) ->
  normalize_price p = Returns None ->
  fetch_all_prices w = (t, Returns prices) ->
  dict_get prices (fst src) = None.
Proof.
  intros Hsrc Hp Hn Hf. apply fetch_all_prices_returns in Hf. subst prices.
  apply dict_get_None. apply no_entry_no_key.
  - apply COMMODITY_SOURCES_NoDup.
  - exact Hsrc.
  - unfold entry_of. rewrite Hp, Hn. reflexivity.
Qed.

Lemma accepted_fetched (w : http_world) (src : string * fetch_fn)
      (p : Decimal) (raw : Z) (t : list event) (prices : dict Z) :
  In src COMMODITY_SOURCES ->
  outcome (snd src w) = Returns (Some p) ->
  normalize_price p = Returns (Some raw) ->
  fetch_all_prices w = (t, Returns prices) ->
  In (fst src, raw) (expected_entries w) /\ dict_get prices (fst src) = Some raw.
Proof.
  intros Hsrc Hp Hn Hf. apply fetch_all_prices_returns in Hf. subst prices.
  assert (Hin : In (fst src, raw) (expected_entries w)).
  { unfold expected_entries. apply in_flat_map. exists src.
    split; [exact Hsrc|]. unfold entry_of. rewrite Hp, Hn. left. reflexivity. }
  split; [exact Hin|].
  apply dict_get_In; [apply expected_entries_keys|exact Hin].
Qed.

(** A rejected price and an absent one leave the loop in the same state. *)
Lemma fetch_loop_rejected_as_absent (w : http_world) (name : string)
      (fetch absent : fetch_fn) (rest : dict fetch_fn) (prices : dict Z)
      (p : Decimal) :
  outcome (fetch w) = Returns (Some p) ->
  normalize_price p = Returns None ->
  outcome (absent w) = Returns None ->
  outcome (fetch_loop w ((name, fetch) :: rest) prices)
  = outcome (fetch_loop w ((name, absent) :: rest) prices).
Proof.
  intros Hf Hn Ha. cbn [fetch_loop].
  destruct (fetch w) as [t1 r1]. destruct (absent w) as [t2 r2].
  cbn [outcome snd] in Hf, Ha. subst r1 r2.
  cbn [bind]. rewrite Hn. cbn [lift bind ret app].
  destruct (fetch_loop w rest prices). reflexivity.
Qed.

(** C8, the batch: every batch a cycle hands to [submitBatch] consists of
    two sequences of equal, non-zero length, aligned index for index, and
    lists exactly the commodities whose fetch returned a price that the
    normalizer accepted, in the order of the registry; and when some
    adapter returned a positive price, the fetches returned and the nonce
    query succeeded, that batch is handed over. *)
Theorem submitted_batch_aligned (w : cycle_world) :
  (forall cs ps, In (SubmitBatch cs ps) (trace (cycle w)) ->
     let entries := expected_entries (http w) in
     cs = map (fun kv => Web3_keccak_text (fst kv)) entries /\
     ps = map snd entries /\
     List.length cs = List.length ps /\
     List.length cs <> 0%nat /\
     forall i name raw, nth_error entries i = Some (name, raw) ->
       nth_error cs i = Some (Web3_keccak_text name) /\
       nth_error ps i = Some raw) /\
  (forall t prices src p nonce,
     fetch_all_prices (http w) = (t, Returns prices) ->
     In src COMMODITY_SOURCES ->
     outcome (snd src (http w)) = Returns (Some p) ->
     Decimal_gt_0 p = Returns true ->
     get_transaction_count (chain w) = Ok nonce ->
     prices = expected_entries (http w) /\
     (exists raw, normalize_price p = Returns (Some raw) /\
                  In (fst src, raw) prices) /\
     In (SubmitBatch (map (fun kv => Web3_keccak_text (fst kv)) prices)
                     (map snd prices))
        (trace (cycle w))).
Proof.
  split.
  - intros cs ps Hin entries.
    destruct (cycle_SubmitBatch w cs ps Hin) as (-> & -> & Hne).
    fold entries in Hne |- *.
    split; [reflexivity|]. split; [reflexivity|].
    rewrite !length_map.
    split; [reflexivity|]. split.
    + destruct entries; [contradiction|discriminate].
    + intros i name raw Hi. split.
      * rewrite (map_nth_error _ _ _ Hi). reflexivity.
      * rewrite (map_nth_error _ _ _ Hi). reflexivity.
  - intros t prices src p nonce Hf Hsrc Hp Hpos Hnonce.
    pose proof (fetch_all_prices_returns _ _ _ Hf) as Hexp.
    destruct (fetch_loop_steps_return _ _ _ _ _ Hf src Hsrc) as (r & Hr & Hn).
    rewrite Hp in Hr. injection Hr as <-.
    destruct (Hn p eq_refl) as (n & Hnp).
    destruct (normalize_price_accepted p n Hpos Hnp) as (raw & ->).
    destruct (accepted_fetched (http w) src p raw t prices Hsrc Hp Hnp Hf)
      as [Hin _].
    rewrite <- Hexp in Hin.
    assert (Hne : prices <> []) by (intros ->; contradiction).
    split; [exact Hexp|]. split; [exists raw; auto|].
    rewrite (cycle_fetched w t prices Hf).
    apply trace_bind_In. right. exists prices. split; [reflexivity|].
    apply trace_bind_In. left.
    destruct prices as [|kv rest] eqn:E; [contradiction|]. rewrite <- E in *.
    rewrite (submit_prices_fetched (chain w) (http w) t prices Hf Hne).
    apply trace_try_In. left.
    replace (map (fun kv0 => Web3_keccak_text (fst kv0)) prices)
      with (map Web3_keccak_text (keys prices))
      by (unfold keys; rewrite map_map; reflexivity).
    eapply send_batch_submits. exact Hnonce.
Qed.

(** C1, as the code has it: when the batch submission of a cycle raises a
    submission-layer error, the submitter logs the error and raises it
    again, and the loop of [main] has no handler: the exception leaves the
    loop, the cycle does not sleep and no later cycle runs, whatever
    number of iterations is observed. *)
Theorem submission_error_leaves_loop (fuel : nat) (world : nat -> cycle_world)
        (n : nat) (t : list event) (prices : dict Z) (e : exn) :
  fetch_all_prices (http (world n)) = (t, Returns prices) ->
  outcome (submit_prices (chain (world n)) prices) = Raises e ->
  outcome (main_loop (S fuel) world n) = Raises e /\
  trace (main_loop (S fuel) world n)
  = Log INFO Log_fetching :: t ++ trace (submit_prices (chain (world n)) prices) /\
  In (Log ERROR (Log_submission_error e)) (trace (main_loop (S fuel) world n)) /\
  existsb is_sleep (trace (main_loop (S fuel) world n)) = false.
Proof.
  intros Hf He.
  destruct (submit_prices_raises _ _ _ _ _ Hf He) as (Hne & Hlog & Hns).
  pose proof (fetch_all_prices_local (http (world n))) as Hloc.
  rewrite Hf in Hloc. cbn [trace fst] in Hloc.
  assert (Hc : cycle (world n)
               = (Log INFO Log_fetching :: t ++
                  trace (submit_prices (chain (world n)) prices), Raises e)).
  { rewrite (cycle_fetched (world n) t prices Hf).
    destruct prices as [|kv rest]; [contradiction|].
    cbn [bind]. cbv beta iota.
    destruct (submit_prices (chain (world n)) (kv :: rest)) as [ts rs].
    cbn [outcome snd] in He. subst rs. reflexivity. }
  rewrite (main_loop_stops fuel world n _ e Hc). cbn [trace outcome fst snd].
  split; [reflexivity|]. split; [reflexivity|]. split.
  - right. apply in_or_app. right. exact Hlog.
  - cbn [existsb is_sleep orb]. rewrite existsb_app.
    apply orb_false_iff. split; apply not_true_is_false; intros Hex;
      apply existsb_exists in Hex; destruct Hex as (ev & Hin & Hev).
    + destruct (local_not_chain t ev Hloc Hin). congruence.
    + rewrite forallb_forall in Hns. specialize (Hns ev Hin).
      rewrite Hev in Hns. discriminate.
Qed.

(* ===================================================================== *)
(** * Properties of the normalizer *)
(* ===================================================================== *)

(** C2, as the code has it: for every finite decimal price p > 0 that has
    at most 28 significant digits (the precision of the default context)
    and whose product with 1,000,000 stays within the context's exponent
    range, the normalizer returns floor(p * 1,000,000). *)
Theorem normalize_price_is_floor (c : N) (e : Z) :
  (0 < c)%N ->
  ndigits (Z.of_N c) <= prec DefaultContext ->
  ndigits (Z.of_N c) + e + 5 <= Emax DefaultContext ->
  normalize_price (Finite false c e)
  = Returns (Some (Qfloor (Decimal_value false c e * 1000000))).
Proof. apply normalize_price_exact. Qed.

(** C3, as the code has it: the price 82.355001 is normalized to
    82355001, and a cycle in which the adapter returns it for
    CRUDE_OIL_WTI (the other fetches failing) yields that one entry. *)
Theorem normalize_82_355001 :
  normalize_price price_82_355001 = Returns (Some 82355001) /\
  outcome (fetch_all_prices (http_wti (JNumber price_82_355001)))
  = Returns [("CRUDE_OIL_WTI"%string, 82355001)].
Proof. split; vm_compute; reflexivity. Qed.

(** C4: normalization is monotone.  For finite decimal prices
    0 < p1 <= p2, if the normalizer returns n2 on p2 then it returns some
    n1 <= n2 on p1. *)
Theorem normalize_price_monotone (c1 c2 : N) (e1 e2 n2 : Z) :
  (0 < c1)%N -> (0 < c2)%N ->
  (Decimal_value false c1 e1 <= Decimal_value false c2 e2)%Q ->
  normalize_price (Finite false c2 e2) = Returns (Some n2) ->
  exists n1, normalize_price (Finite false c1 e1) = Returns (Some n1) /\ n1 <= n2.
Proof. apply normalize_price_mono. Qed.

(** C5: a fetched price p <= 0 is rejected by the normalizer; the loop
    goes on exactly as if the fetch had returned absent, and the dict that
    [fetch_all_prices] returns has no entry for the commodity.  The same
    holds for minus infinity. *)
Theorem nonpositive_price_rejected (s : bool) (c : N) (e : Z) :
  (Decimal_value s c e <= 0)%Q ->
  normalize_price (Finite s c e) = Returns None /\
  normalize_price (Infinity true) = Returns None /\
  (forall w name (fetch absent : fetch_fn) rest prices,
     outcome (fetch w) = Returns (Some (Finite s c e)) ->
     outcome (absent w) = Returns None ->
     outcome (fetch_loop w ((name, fetch) :: rest) prices)
     = outcome (fetch_loop w ((name, absent) :: rest) prices)) /\
  (forall w src t prices,
     In src COMMODITY_SOURCES ->
     outcome (snd src w) = Returns (Some (Finite s c e)) ->
     fetch_all_prices w = (t, Returns prices) ->
     dict_get prices (fst src) = None).
Proof.
  intros H. pose proof (normalize_price_nonpos s c e H) as Hn.
  split; [exact Hn|]. split; [reflexivity|]. split.
  - intros w name fetch absent rest prices Hf Ha.
    eapply fetch_loop_rejected_as_absent; eassumption.
  - intros w src t prices Hsrc Hp Hf.
    eapply rejected_not_fetched; eassumption.
Qed.

(** C10, as the code has it: a finite adapter price p with
    0 < p < 0.000001 and at most 28 significant digits passes the
    positivity test and is scaled to 0; the commodity is in the dict with
    price 0 and in every batch the cycle submits. *)
Theorem sub_micro_price_scaled_to_zero (c : N) (e : Z) :
  (0 < c)%N ->
  ndigits (Z.of_N c) <= prec DefaultContext ->
  (Decimal_value false c e < 1 # 1000000)%Q ->
  Decimal_gt_0 (Finite false c e) = Returns true /\
  normalize_price (Finite false c e) = Returns (Some 0) /\
  (forall w src t prices,
     In src COMMODITY_SOURCES ->
     outcome (snd src (http w)) = Returns (Some (Finite false c e)) ->
     fetch_all_prices (http w) = (t, Returns prices) ->
     dict_get prices (fst src) = Some 0 /\
     forall cs ps, In (SubmitBatch cs ps) (trace (cycle w)) ->
       exists i, nth_error cs i = Some (Web3_keccak_text (fst src)) /\
                 nth_error ps i = Some 0).
Proof.
  intros Hc Hd Hlt.
  pose proof (normalize_price_tiny c e Hc Hd Hlt) as Hn.
  split.
  { unfold Decimal_gt_0. destruct (N.eqb_spec c 0); [lia|reflexivity]. }
  split; [exact Hn|].
  intros w src t prices Hsrc Hp Hf.
  destruct (accepted_fetched (http w) src _ 0 t prices Hsrc Hp Hn Hf) as [Hin Hget].
  split; [exact Hget|].
  intros cs ps Hb.
  destruct (cycle_SubmitBatch w cs ps Hb) as (-> & -> & _).
  destruct (In_nth_error _ _ Hin) as (i & Hi).
  exists i. split.
  - rewrite (map_nth_error _ _ _ Hi). reflexivity.
  - rewrite (map_nth_error _ _ _ Hi). reflexivity.
Qed.

(* ===================================================================== *)
(** * The commodity identifiers *)
(* ===================================================================== *)

(** The table that the module computes at import time. *)
Lemma COMMODITY_IDS_table :
  COMMODITY_IDS =
    [
      ("CRUDE_OIL_WTI"%string,
       [ xf9; xd2; x5a; xa4; x55; x0a; xa4; x5b;
         x44; x6e; xc0; xea; x1a; xb0; x8e; xdc;
         xb0; xf5; x19; xb7; xc1; x61; xd6; x29;
         x94; x89; x75; xfe; x13; x0c; x53; xdc ]);
      ("CRUDE_OIL_BRENT"%string,
       [ x87; xc6; x78; xfe; x6c; xc1; x0f; xab;
         x7e; x77; x95; x62; x04; xad; xb8; x05;
         x17; x28; xcf; xe3; x7c; xce; x9c; x91;
         x27; xec; x75; x66; x5d; xbb; x14; x85 ]);
      ("NATURAL_GAS"%string,
       [ xe3; x7a; x9b; xac; x1c; xc5; xed; x44;
         xaf; x7f; x04; x43; xce; x0f; xd7; x07;
         x2a; x6b; x85; xc1; xba; x17; xe6; x33;
         x02; x6a; xa5; x1e; xa7; xb1; x7f; x30 ]);
      ("XAU_USD"%string,
       [ x22; xc6; xf2; x63; xaf; x01; xbc; xea;
         x9f; x69; x9b; xcc; x6e; x0a; x77; x4c;
         x4e; x35; x58; x92; x3d; x02; xa3; x4c;
         xc6; x84; x06; x39; x4f; x17; xf4; x11 ]);
      ("WHEAT_USD"%string,
       [ x0e; x54; x5f; xaf; xd2; xf2; xa0; x0d;
         x90; xa9; xef; x44; x9c; xc2; x70; xd6;
         x28; x60; x6d; xba; x8a; x19; x36; x39;
         x4f; x1a; xe3; x05; x77; x84; x9c; x7c ]) ].
Proof. vm_compute. reflexivity. Qed.

Lemma NoDup_map_injective {A B} (f : A -> B) (l : list A) (x y : A) :
  NoDup (map f l) -> In x l -> In y l -> f x = f y -> x = y.
Proof.
  induction l as [|a l IH]; intros Hnd Hx Hy Hf; [contradiction|].
  cbn in Hnd. inversion Hnd as [|? ? Hnot Hnd']; subst.
  destruct Hx as [->|Hx]; destruct Hy as [->|Hy].
  - reflexivity.
  - exfalso. apply Hnot. rewrite Hf. apply in_map. exact Hy.
  - exfalso. apply Hnot. rewrite <- Hf. apply in_map. exact Hx.
  - apply IH; assumption.
Qed.

Lemma COMMODITY_IDS_values :
  map snd COMMODITY_IDS = map Web3_keccak_text (keys COMMODITY_SOURCES).
Proof. unfold COMMODITY_IDS. rewrite map_map. reflexivity. Qed.

Lemma COMMODITY_IDS_NoDup : NoDup (map snd COMMODITY_IDS).
Proof.
  rewrite COMMODITY_IDS_table. cbn [map snd].
  repeat constructor; cbn [In]; intuition discriminate.
Qed.

(** C9: the identifier of a name is a function of the name (computing it
    twice gives the same value, and the table computed at import time
    agrees with a fresh computation), and the five registered names have
    five pairwise distinct identifiers. *)
Theorem commodity_ids_injective :
  (forall name id1 id2,
     Web3_keccak_text name = id1 -> Web3_keccak_text name = id2 -> id1 = id2) /\
  (forall name, In name (keys COMMODITY_SOURCES) ->
     dict_get COMMODITY_IDS name = Some (Web3_keccak_text name)) /\
  List.length (keys COMMODITY_SOURCES) = 5%nat /\
  NoDup (keys COMMODITY_SOURCES) /\
  NoDup (map snd COMMODITY_IDS) /\
  (forall n1 n2,
     In n1 (keys COMMODITY_SOURCES) -> In n2 (keys COMMODITY_SOURCES) ->
     Web3_keccak_text n1 = Web3_keccak_text n2 -> n1 = n2).
Proof.
  split; [intros name id1 id2 <- <-; reflexivity|].
  split; [intros name H; apply dict_get_tabulate; exact H|].
  split; [reflexivity|].
  split; [apply COMMODITY_SOURCES_NoDup|].
  split; [apply COMMODITY_IDS_NoDup|].
  intros n1 n2 H1 H2 H.
  apply (NoDup_map_injective Web3_keccak_text (keys COMMODITY_SOURCES));
    try assumption.
  rewrite <- COMMODITY_IDS_values. apply COMMODITY_IDS_NoDup.
Qed.

(* ===================================================================== *)
(** * Further properties: the adapter *)
(* ===================================================================== *)

Lemma trace_bind {A B} (m : M A) (k : A -> M B) :
  trace (bind m k)
  = trace m ++ match outcome m with
               | Returns a => trace (k a)
               | Raises _ => []
               end.
Proof.
  destruct m as [t [a|e]]; unfold bind; cbn [trace outcome fst snd].
  - destruct (k a); reflexivity.
  - rewrite app_nil_r. reflexivity.
Qed.

Lemma outcome_bind {A B} (m : M A) (k : A -> M B) :
  outcome (bind m k)
  = match outcome m with
    | Returns a => outcome (k a)
    | Raises e => Raises e
    end.
Proof.
  destruct m as [t [a|e]]; unfold bind; cbn [trace outcome fst snd].
  - destruct (k a); reflexivity.
  - reflexivity.
Qed.

(** The adapter is one request, and then the result of the pure steps. *)
Lemma fetch_commodity_unfold (w : http_world) (ticker : string) :
  _fetch_commodity w ticker
  = match w (chart_url ticker) with
    | Fails kind =>
        ([HttpGet (chart_url ticker);
          Log WARNING (Log_fetch_failed ticker (RequestException kind))],
         Returns None)
    | Ok resp =>
        match (let? _ := raise_for_status resp in
               let? data := response_json resp in
               let? price := price_field data in
               Decimal_of_str price)%result with
        | Returns d => ([HttpGet (chart_url ticker)], Returns (Some d))
        | Raises exc =>
            ([HttpGet (chart_url ticker);
              Log WARNING (Log_fetch_failed ticker exc)], Returns None)
        end
    end.
Proof.
  unfold _fetch_commodity, call, lift, ret, emit. cbv zeta.
  destruct (w (chart_url ticker)) as [resp|kind]; [|reflexivity].
  cbn [bind].
  destruct (raise_for_status resp) as [[]|e1] eqn:E1; cbn [rbind].
  2:{ cbn. rewrite (raise_for_status_only_Exceptions resp e1 E1). reflexivity. }
  destruct (response_json resp) as [data|e2] eqn:E2; cbn [rbind].
  2:{ cbn. rewrite (response_json_only_Exceptions resp e2 E2). reflexivity. }
  destruct (price_field data) as [price|e3] eqn:E3; cbn [rbind].
  2:{ cbn. rewrite (price_field_only_Exceptions data e3 E3). reflexivity. }
  destruct (Decimal_of_str price) as [d|e4] eqn:E4.
  2:{ cbn. rewrite (Decimal_of_str_only_Exceptions price e4 E4). reflexivity. }
  reflexivity.
Qed.

(** X1: the adapter returns the price [d] exactly when the request was
    answered with a status outside 400..599, the body is JSON, the field
    chart.result[0].meta.regularMarketPrice exists and [Decimal(str(...))]
    of it is [d].  In particular a status such as 204 or 302 is not an
    error for the adapter, and the price is not checked for its sign. *)
Theorem fetch_commodity_present_iff (w : http_world) (ticker : string) (d : Decimal) :
  outcome (_fetch_commodity w ticker) = Returns (Some d) <->
  exists resp data price,
    w (chart_url ticker) = Ok resp /\
    (status_code resp < 400 \/ 600 <= status_code resp) /\
    body resp = Some data /\
    price_field data = Returns price /\
    Decimal_of_str price = Returns d.
Proof.
  rewrite fetch_commodity_unfold. split.
  - destruct (w (chart_url ticker)) as [resp|kind]; [|discriminate].
    unfold raise_for_status, response_json.
    destruct ((400 <=? status_code resp) && (status_code resp <? 600)) eqn:Hc;
      cbn [rbind]; [discriminate|].
    destruct (body resp) as [data|] eqn:Hb; cbn [rbind]; [|discriminate].
    destruct (price_field data) as [price|e3] eqn:Hp; cbn [rbind]; [|discriminate].
    destruct (Decimal_of_str price) as [d'|e4] eqn:Hd; [|discriminate].
    intros H. injection H as <-.
    exists resp, data, price.
    split; [reflexivity|]. split; [|auto].
    apply andb_false_iff in Hc.
    destruct Hc as [Hc|Hc]; [left; apply Z.leb_gt|right; apply Z.ltb_ge]; exact Hc.
  - intros (resp & data & price & -> & Hs & Hb & Hp & Hd).
    unfold raise_for_status, response_json.
    assert (Hc : (400 <=? status_code resp) && (status_code resp <? 600) = false).
    { apply andb_false_iff. destruct Hs; [left; apply Z.leb_gt|right; apply Z.ltb_ge]; lia. }
    rewrite Hc, Hb. cbn [rbind]. rewrite Hp. cbn [rbind]. rewrite Hd. reflexivity.
Qed.

Lemma fetch_commodity_cases (w : http_world) (ticker : string) :
  (exists d, _fetch_commodity w ticker
             = ([HttpGet (chart_url ticker)], Returns (Some d))) \/
  (exists exc, _fetch_commodity w ticker
               = ([HttpGet (chart_url ticker);
                   Log WARNING (Log_fetch_failed ticker exc)], Returns None)).
Proof.
  rewrite fetch_commodity_unfold.
  destruct (w (chart_url ticker)) as [resp|kind]; [|right; eauto].
  destruct (rbind _ _) as [d|exc]; [left|right]; eauto.
Qed.

(** X2: one call of the adapter sends exactly one request, to the chart
    URL of its ticker, and never retries; it logs one warning naming the
    ticker exactly when it returns absent, and nothing otherwise. *)
Theorem fetch_commodity_trace (w : http_world) (ticker : string) :
  (exists d, _fetch_commodity w ticker
             = ([HttpGet (chart_url ticker)], Returns (Some d))) \/
  (exists exc, _fetch_commodity w ticker
               = ([HttpGet (chart_url ticker);
                   Log WARNING (Log_fetch_failed ticker exc)], Returns None)).
Proof. exact (fetch_commodity_cases w ticker). Qed.

(* ===================================================================== *)
(** * Further properties: fetch_all_prices *)
(* ===================================================================== *)

Lemma http_requests_app (t1 t2 : list event) :
  http_requests (t1 ++ t2) = http_requests t1 ++ http_requests t2.
Proof. apply flat_map_app. Qed.

Lemma fetch_loop_requests (w : http_world) (sources : dict fetch_fn)
      (tickers : list string) :
  Forall2 (fun src ticker => snd src = fun w => _fetch_commodity w ticker)
          sources tickers ->
  forall prices,
    (exists k, http_requests (trace (fetch_loop w sources prices))
               = firstn k (map chart_url tickers)) /\
    (forall d, outcome (fetch_loop w sources prices) = Returns d ->
               http_requests (trace (fetch_loop w sources prices))
               = map chart_url tickers).
Proof.
  induction 1 as [|[name fetch] ticker sources tickers Hsrc _ IH]; intros prices.
  - split; [exists 0%nat|]; reflexivity.
  - cbn [snd] in Hsrc. subst fetch. cbn [fetch_loop map].
    assert (Hstep : forall prices' pre,
              forallb (fun ev => negb (is_http ev)) pre = true ->
              (exists k, http_requests
                           (HttpGet (chart_url ticker) :: pre ++
                            trace (fetch_loop w sources prices'))
                         = firstn k (chart_url ticker :: map chart_url tickers)) /\
              (forall d, outcome (fetch_loop w sources prices') = Returns d ->
                         http_requests
                           (HttpGet (chart_url ticker) :: pre ++
                            trace (fetch_loop w sources prices'))
                         = chart_url ticker :: map chart_url tickers)).
    { intros prices' pre Hpre.
      assert (Hnil : http_requests pre = []).
      { clear - Hpre. induction pre as [|ev pre IHp]; [reflexivity|].
        cbn in Hpre. apply andb_true_iff in Hpre. destruct Hpre as [H1 H2].
        change (http_requests (ev :: pre))
          with ((match ev with HttpGet url => [url] | _ => [] end)
                ++ http_requests pre).
        rewrite (IHp H2). destruct ev; try reflexivity. discriminate. }
      destruct (IH prices') as [(k & Hk) Hall].
      change (HttpGet (chart_url ticker) :: pre ++ trace (fetch_loop w sources prices'))
        with ([HttpGet (chart_url ticker)] ++ pre ++ trace (fetch_loop w sources prices')).
      rewrite !http_requests_app, Hnil. cbn [http_requests flat_map app].
      split.
      - exists (S k). cbn [firstn]. rewrite Hk. reflexivity.
      - intros d Hd. rewrite (Hall d Hd). reflexivity. }
    destruct (fetch_commodity_cases w ticker) as [(d & E)|(exc & E)];
      rewrite E; cbn [bind].
    + destruct (normalize_price d) as [[raw|]|e]; cbn [lift bind emit ret app].
      * destruct (Hstep (dict_set prices name raw) [Log INFO (Log_price name d raw)]
                        eq_refl) as [Hk Hall].
        destruct (fetch_loop w sources (dict_set prices name raw)) as [t r].
        cbn [trace outcome fst snd app] in *. auto.
      * destruct (Hstep prices [] eq_refl) as [Hk Hall].
        destruct (fetch_loop w sources prices) as [t r].
        cbn [trace outcome fst snd app] in *. auto.
      * cbn [trace outcome fst snd]. split; [exists 1%nat; reflexivity|discriminate].
    + destruct (Hstep prices [Log WARNING (Log_fetch_failed ticker exc)] eq_refl)
        as [Hk Hall].
      cbn [ret bind app].
      destruct (fetch_loop w sources prices) as [t r].
      cbn [trace outcome fst snd app] in *. auto.
Qed.

Lemma COMMODITY_SOURCES_tickers :
  Forall2 (fun src ticker => snd src = fun w => _fetch_commodity w ticker)
          COMMODITY_SOURCES TICKERS.
Proof. repeat constructor. Qed.

(** X3: one run of [fetch_all_prices] requests the chart URLs of the five
    tickers in the order of the registry, each at most once; the run
    stops requesting only when the normalizer raises, and a run that
    returns has requested all five, whatever number of fetches failed. *)
Theorem fetch_all_prices_requests (w : http_world) :
  (exists k, http_requests (trace (fetch_all_prices w))
             = firstn k (map chart_url TICKERS)) /\
  (forall prices, outcome (fetch_all_prices w) = Returns prices ->
     http_requests (trace (fetch_all_prices w)) = map chart_url TICKERS).
Proof.
  exact (fetch_loop_requests w COMMODITY_SOURCES TICKERS
                             COMMODITY_SOURCES_tickers []).
Qed.

Lemma dict_get_Some_In {V} (d : dict V) (k : string) (v : V) :
  dict_get d k = Some v -> In (k, v) d.
Proof.
  induction d as [|[k' v'] d IH]; cbn; [discriminate|].
  destruct (String.eqb_spec k' k) as [->|Hne].
  - intros H. injection H as ->. left. reflexivity.
  - intros H. right. apply IH. exact H.
Qed.

(** X4: in the dict that [fetch_all_prices] returns, a name maps to [raw]
    exactly when the name is registered, its fetch returned a price and
    the normalizer accepted that price as [raw]; names whose fetch failed
    or whose price was rejected have no key, and the keys are distinct. *)
Theorem fetch_all_prices_lookup (w : http_world) (t : list event)
        (prices : dict Z) (name : string) (raw : Z) :
  fetch_all_prices w = (t, Returns prices) ->
  NoDup (keys prices) /\
  (dict_get prices name = Some raw <->
   exists fetch p,
     In (name, fetch) COMMODITY_SOURCES /\
     outcome (fetch w) = Returns (Some p) /\
     normalize_price p = Returns (Some raw)).
Proof.
  intros Hf. apply fetch_all_prices_returns in Hf. subst prices.
  destruct (expected_entries_keys w) as [Hnd _].
  split; [exact Hnd|]. split.
  - intros H. apply dict_get_Some_In in H.
    unfold expected_entries in H. apply in_flat_map in H.
    destruct H as ([name' fetch] & Hsrc & Hin).
    unfold entry_of in Hin. cbn [fst snd] in Hin.
    destruct (outcome (fetch w)) as [[p|]|e] eqn:Ef; try contradiction.
    destruct (normalize_price p) as [[raw'|]|e] eqn:En; try contradiction.
    destruct Hin as [Hin|[]]. injection Hin as -> ->.
    exists fetch, p. auto.
  - intros (fetch & p & Hsrc & Hp & Hn).
    apply dict_get_In; [exact Hnd|].
    unfold expected_entries. apply in_flat_map. exists (name, fetch).
    split; [exact Hsrc|]. unfold entry_of. cbn [fst snd]. rewrite Hp, Hn.
    left. reflexivity.
Qed.

(* ===================================================================== *)
(** * Further properties: the normalizer *)
(* ===================================================================== *)

Lemma scale10_nonneg (m g : Z) : 0 <= m -> 0 <= scale10 m g.
Proof.
  intros H. replace 0 with (scale10 0 g) at 1.
  - apply scale10_mono. exact H.
  - unfold scale10. destruct (0 <=? g); [reflexivity|apply Zdiv_0_l].
Qed.

Lemma normalize_price_finite_positive (s : bool) (c : N) (e : Z) (r : option Z) :
  normalize_price (Finite s c e) = Returns r ->
  r = None \/ (s = false /\ (0 < c)%N).
Proof.
  unfold normalize_price, Decimal_gt_0.
  destruct s; cbn [negb andb rbind].
  - intros H. injection H as <-. left. reflexivity.
  - destruct (N.eqb_spec c 0) as [->|Hne]; cbn [negb rbind].
    + intros H. injection H as <-. left. reflexivity.
    + intros _. right. split; [reflexivity|lia].
Qed.

Lemma normalize_price_nonneg (p : Decimal) (raw : Z) :
  normalize_price p = Returns (Some raw) -> 0 <= raw.
Proof.
  destruct p as [s c e|s|].
  - intros H.
    destruct (normalize_price_finite_positive s c e _ H) as [Hn|[-> Hc]];
      [discriminate|].
    pose proof (normalize_price_pos c e Hc) as P. cbn zeta in P.
    destruct P as [[Hr _]|(Hr & _ & _)]; rewrite Hr in H; [discriminate|].
    injection H as <-. apply scale10_nonneg. apply on_grid_nonneg. lia.
  - destruct s; vm_compute; discriminate.
  - vm_compute. discriminate.
Qed.

(** What the normalizer can raise, and on which prices. *)
Lemma normalize_price_raises (p : Decimal) (exc : exn) :
  normalize_price p = Raises exc ->
  (p = NaN /\ exc = InvalidOperation) \/
  (p = Infinity false /\ exc = OverflowError) \/
  (exists c e, p = Finite false c e /\ (0 < c)%N /\ exc = Overflow /\
               Emax DefaultContext <= ndigits (Z.of_N c) + e + 5).
Proof.
  destruct p as [s c e|s|].
  - intros H. right. right.
    assert (Hs : s = false /\ (0 < c)%N).
    { revert H. unfold normalize_price, Decimal_gt_0.
      destruct s; cbn [negb andb rbind]; [discriminate|].
      destruct (N.eqb_spec c 0) as [->|Hne]; cbn [negb rbind]; [discriminate|].
      intros _. split; [reflexivity|lia]. }
    destruct Hs as [-> Hc].
    pose proof (normalize_price_pos c e Hc) as P. cbn zeta in P.
    rewrite ndigits_scaled in P by exact Hc.
    destruct P as [[Hr Hov]|(Hr & _ & _)]; rewrite Hr in H; [|discriminate].
    injection H as <-. exists c, e.
    split; [reflexivity|]. split; [exact Hc|]. split; [reflexivity|].
    revert Hov. unfold grid, Etop, Etiny.
    rewrite ndigits_scaled by exact Hc.
    change (prec DefaultContext) with 28. change (Emax DefaultContext) with 999999.
    change (Emin DefaultContext) with (-999999).
    intros [Hov|[_ Hov]]; lia.
  - destruct s.
    + vm_compute. discriminate.
    + intros H. vm_compute in H. injection H as <-. right. left. auto.
  - intros H. vm_compute in H. injection H as <-. left. auto.
Qed.

(** X5: the scaled price is never negative: whatever decimal the
    normalizer accepts, the integer it returns is >= 0, and so is every
    price of every batch a cycle hands to [submitBatch]. *)
Theorem submitted_prices_nonnegative (w : cycle_world) :
  (forall p raw, normalize_price p = Returns (Some raw) -> 0 <= raw) /\
  (forall cs ps, In (SubmitBatch cs ps) (trace (cycle w)) ->
     Forall (fun x => 0 <= x) ps).
Proof.
  split; [exact normalize_price_nonneg|].
  intros cs ps Hin.
  destruct (cycle_SubmitBatch w cs ps Hin) as (_ & -> & _).
  apply Forall_forall. intros x Hx. apply in_map_iff in Hx.
  destruct Hx as ([name raw] & <- & Hx). cbn [snd].
  unfold expected_entries in Hx. apply in_flat_map in Hx.
  destruct Hx as (src & _ & Hx). unfold entry_of in Hx.
  destruct (outcome (snd src (http w))) as [[p|]|e]; try contradiction.
  destruct (normalize_price p) as [[raw'|]|e] eqn:En; try contradiction.
  destruct Hx as [Hx|[]]. injection Hx as _ <-.
  exact (normalize_price_nonneg p raw' En).
Qed.

Lemma normalize_price_micro (k : N) :
  (0 < k)%N -> ndigits (Z.of_N k) <= prec DefaultContext ->
  normalize_price (Finite false k (-6)) = Returns (Some (Z.of_N k)).
Proof.
  intros Hk Hd.
  rewrite normalize_price_exact; try assumption.
  - rewrite Qfloor_scaled_price. unfold scale10.
    change (0 <=? -6) with false. change (10 ^ (- -6)) with 1000000.
    rewrite Z.div_mul by lia. reflexivity.
  - revert Hd. change (prec DefaultContext) with 28.
    change (Emax DefaultContext) with 999999. lia.
Qed.

(** X6: rounding never carries the scaled price across a whole number of
    millionths.  For every positive finite price on which the normalizer
    returns [raw], and every k of at most 28 digits: if the price is at
    least k millionths then raw >= k, and if it is at most k millionths
    then raw <= k.  So a price of at least 0.000001 is never scaled
    to 0. *)
Theorem scaled_price_brackets (c k : N) (e raw : Z) :
  (0 < c)%N -> (0 < k)%N ->
  ndigits (Z.of_N k) <= prec DefaultContext ->
  normalize_price (Finite false c e) = Returns (Some raw) ->
  ((Decimal_value false k (-6) <= Decimal_value false c e)%Q -> Z.of_N k <= raw) /\
  ((Decimal_value false c e <= Decimal_value false k (-6))%Q -> raw <= Z.of_N k).
Proof.
  intros Hc Hk Hd Hn.
  pose proof (normalize_price_micro k Hk Hd) as Hm.
  split; intros Hle.
  - destruct (normalize_price_mono k c (-6) e raw Hk Hc Hle Hn) as (n1 & H1 & Hn1).
    rewrite Hm in H1. injection H1 as <-. exact Hn1.
  - destruct (normalize_price_mono c k e (-6) (Z.of_N k) Hc Hk Hle Hm)
      as (n1 & H1 & Hn1).
    rewrite Hn in H1. injection H1 as <-. exact Hn1.
Qed.

(** X7: a positive price of at most 28 digits and at most six decimals
    is scaled without loss: c * 10^e with e >= -6 becomes the integer
    c * 10^(e+6), from which the price is recovered by dividing by
    1,000,000. *)
Theorem six_decimals_scaled_exactly (c : N) (e : Z) :
  (0 < c)%N ->
  ndigits (Z.of_N c) <= prec DefaultContext ->
  ndigits (Z.of_N c) + e + 5 <= Emax DefaultContext ->
  -6 <= e ->
  normalize_price (Finite false c e) = Returns (Some (Z.of_N c * 10 ^ (e + 6))) /\
  (Decimal_value false c e == inject_Z (Z.of_N c * 10 ^ (e + 6)) * (1 # 1000000))%Q.
Proof.
  intros Hc Hd Hr He. split.
  - rewrite normalize_price_exact by assumption.
    rewrite Qfloor_scaled_price.
    change 1000000 with (10 ^ 6).
    replace e with (-6 + (e + 6)) at 1 by lia.
    rewrite <- (scale10_shift (Z.of_N c * 10 ^ 6) (e + 6) (-6)) by lia.
    rewrite <- Z.mul_assoc, (Z.mul_comm (10 ^ 6)), Z.mul_assoc.
    unfold scale10. change (0 <=? -6) with false. change (10 ^ (- -6)) with (10 ^ 6).
    rewrite Z.div_mul by (change (10 ^ 6) with 1000000; lia). reflexivity.
  - rewrite Decimal_value_pos.
    rewrite (value_rescale (Z.of_N c) e (-6)) by lia.
    replace (e - -6) with (e + 6) by lia.
    apply Qmult_comp; reflexivity.
Qed.

(** X8: the normalizer and the exponent range.  On a positive finite
    price c * 10^e it raises decimal.Overflow when the adjusted exponent
    of the product, digits(c) + e + 5, exceeds Emax = 999999, and it
    returns a scaled price when that exponent is below Emax: no finite
    price under 10^999993 makes the normalizer raise. *)
Theorem normalize_price_overflow_threshold (c : N) (e : Z) :
  (0 < c)%N ->
  (Emax DefaultContext < ndigits (Z.of_N c) + e + 5 ->
   normalize_price (Finite false c e) = Raises Overflow) /\
  (ndigits (Z.of_N c) + e + 5 < Emax DefaultContext ->
   exists raw, normalize_price (Finite false c e) = Returns (Some raw)).
Proof.
  intros Hc.
  pose proof (normalize_price_pos c e Hc) as P. cbn zeta in P.
  rewrite ndigits_scaled in P by exact Hc.
  unfold grid, Etop, Etiny in P. rewrite ndigits_scaled in P by exact Hc.
  change (prec DefaultContext) with 28 in *.
  change (Emax DefaultContext) with 999999 in *.
  change (Emin DefaultContext) with (-999999) in *.
  split; intros H.
  - destruct P as [[Hr _]|(_ & Hno & _)]; [exact Hr|lia].
  - destruct P as [[_ [Hov|[_ Hov]]]|(Hr & _ & _)]; [lia|lia|eauto].
Qed.

(* ===================================================================== *)
(** * Further properties: a price the normalizer cannot convert *)
(* ===================================================================== *)

(** The loop of [fetch_all_prices] raises only what the normalizer raises
    on a fetched price, when the sources themselves return. *)
Lemma fetch_loop_raises_inv (w : http_world) (sources : dict fetch_fn) :
  (forall src, In src sources -> exists r, outcome (snd src w) = Returns r) ->
  forall prices e,
    outcome (fetch_loop w sources prices) = Raises e ->
    exists src p, In src sources /\
                  outcome (snd src w) = Returns (Some p) /\
                  normalize_price p = Raises e.
Proof.
  induction sources as [|[name fetch] sources IH]; intros Had prices e H.
  - discriminate H.
  - assert (Hrest : forall prices',
              outcome (fetch_loop w sources prices') = Raises e ->
              exists src p, In src ((name, fetch) :: sources) /\
                            outcome (snd src w) = Returns (Some p) /\
                            normalize_price p = Raises e).
    { intros prices' Hl.
      destruct (IH (fun src Hin => Had src (or_intror Hin)) prices' e Hl)
        as (src & p & Hin & Hp & Hn).
      exists src, p. split; [right; exact Hin|auto]. }
    cbn [fetch_loop] in H. rewrite outcome_bind in H.
    destruct (Had (name, fetch) (or_introl eq_refl)) as (r & Hf).
    cbn [snd] in Hf. rewrite Hf in H. rewrite outcome_bind in H.
    destruct r as [p|].
    + rewrite outcome_bind in H. cbn [lift outcome snd] in H.
      destruct (normalize_price p) as [[raw|]|e'] eqn:En.
      * cbn in H. apply Hrest in H. exact H.
      * cbn in H. apply Hrest in H. exact H.
      * injection H as <-. exists (name, fetch), p.
        split; [left; reflexivity|]. cbn [snd]. auto.
    + cbn in H. apply Hrest in H. exact H.
Qed.

Lemma existsb_false_of_local (t : list event) :
  forallb is_local t = true ->
  existsb is_chain_call t = false /\ existsb is_sleep t = false.
Proof.
  intros H. split; apply not_true_is_false; intros Hex;
    apply existsb_exists in Hex; destruct Hex as (ev & Hin & Hev);
    destruct (local_not_chain t ev H Hin); congruence.
Qed.

(** X9: a fetched price that the normalizer cannot convert (a NaN, plus
    infinity, or a finite price whose product overflows) ends the cycle
    with the decimal module's exception: nothing catches it in
    [fetch_all_prices] or in the loop, so the cycle makes no chain call,
    does not sleep, and the loop ends with it. *)
Theorem bad_price_aborts_cycle (w : cycle_world) (src : string * fetch_fn)
        (p : Decimal) (e0 : exn) :
  In src COMMODITY_SOURCES ->
  outcome (snd src (http w)) = Returns (Some p) ->
  normalize_price p = Raises e0 ->
  exists e,
    (e = InvalidOperation \/ e = Overflow \/ e = OverflowError) /\
    outcome (cycle w) = Raises e /\
    existsb is_chain_call (trace (cycle w)) = false /\
    existsb is_sleep (trace (cycle w)) = false /\
    forall fuel world n, world n = w ->
      main_loop (S fuel) world n = (trace (cycle w), Raises e).
Proof.
  intros Hsrc Hp Hn.
  pose proof (fetch_all_prices_local (http w)) as Hloc.
  destruct (fetch_all_prices (http w)) as [t [prices|e]] eqn:Hf.
  - exfalso.
    destruct (fetch_loop_steps_return _ _ _ _ _ Hf src Hsrc) as (r & Hr & Hret).
    rewrite Hp in Hr. injection Hr as <-.
    destruct (Hret p eq_refl) as (n & Hn'). congruence.
  - exists e.
    assert (He : e = InvalidOperation \/ e = Overflow \/ e = OverflowError).
    { destruct (fetch_loop_raises_inv (http w) COMMODITY_SOURCES) with (prices := @nil (string * Z)) (e := e)
        as (src' & p' & _ & _ & Hn').
      - intros s Hs. destruct (COMMODITY_SOURCES_adapters s Hs) as (ticker & ->).
        destruct (fetch_commodity_returns (http w) ticker) as (t' & r & ->).
        exists r. reflexivity.
      - fold (fetch_all_prices (http w)). rewrite Hf. reflexivity.
      - destruct (normalize_price_raises p' e Hn')
          as [[_ ->]|[[_ ->]|(c & ex & _ & _ & -> & _)]]; auto. }
    split; [exact He|].
    pose proof (cycle_fetch_raises w t e Hf) as Hc.
    cbn [trace fst] in Hloc.
    destruct (existsb_false_of_local t Hloc) as [H1 H2].
    rewrite Hc. cbn [trace outcome fst snd existsb is_chain_call is_sleep orb].
    split; [reflexivity|]. split; [exact H1|]. split; [exact H2|].
    intros fuel world n <-. apply main_loop_stops. exact Hc.
Qed.

(* ===================================================================== *)
(** * Further properties: the batch and the submitter *)
(* ===================================================================== *)

Lemma NoDup_map_on {A B} (f : A -> B) (l : list A) :
  NoDup l -> (forall x y, In x l -> In y l -> f x = f y -> x = y) ->
  NoDup (map f l).
Proof.
  induction l as [|a l IH]; intros Hnd Hinj; [constructor|].
  inversion Hnd as [|? ? Hnot Hnd']; subst. cbn [map]. constructor.
  - intros Hin. apply in_map_iff in Hin. destruct Hin as (x & Hfx & Hx).
    assert (x = a) by (apply Hinj; [right; exact Hx|left; reflexivity|exact Hfx]).
    subst x. contradiction.
  - apply IH; [exact Hnd'|]. intros x y Hx Hy. apply Hinj; right; assumption.
Qed.

Lemma entries_length (w : http_world) (sources : dict fetch_fn) :
  (List.length (flat_map (entry_of w) sources) <= List.length sources)%nat.
Proof.
  induction sources as [|src sources IH]; [apply le_n|].
  cbn [flat_map]. rewrite length_app. cbn [List.length].
  assert (List.length (entry_of w src) <= 1)%nat.
  { unfold entry_of. destruct (outcome (snd src w)) as [[p|]|e]; cbn; try lia.
    destruct (normalize_price p) as [[raw|]|e]; cbn; lia. }
  lia.
Qed.

(** X10: no commodity occurs twice in a batch.  The identifiers a cycle
    hands to [submitBatch] are pairwise distinct identifiers of
    registered names, so a batch has at most five entries. *)
Theorem submitted_batch_distinct (w : cycle_world) (cs : list (list byte))
        (ps : list Z) :
  In (SubmitBatch cs ps) (trace (cycle w)) ->
  NoDup cs /\
  (List.length cs <= 5)%nat /\
  Forall (fun id => In id (map snd COMMODITY_IDS)) cs.
Proof.
  intros Hin.
  destruct (cycle_SubmitBatch w cs ps Hin) as (-> & _ & _).
  destruct (expected_entries_keys (http w)) as [Hnd Hincl].
  replace (map (fun kv => Web3_keccak_text (fst kv)) (expected_entries (http w)))
    with (map Web3_keccak_text (keys (expected_entries (http w))))
    by (unfold keys; rewrite map_map; reflexivity).
  split; [|split].
  - apply NoDup_map_on; [exact Hnd|].
    intros x y Hx Hy Hxy.
    apply (NoDup_map_injective Web3_keccak_text (keys COMMODITY_SOURCES));
      auto.
    rewrite <- COMMODITY_IDS_values. apply COMMODITY_IDS_NoDup.
  - rewrite length_map. unfold keys. rewrite length_map.
    apply (entries_length (http w) COMMODITY_SOURCES).
  - apply Forall_forall. intros id Hid. apply in_map_iff in Hid.
    destruct Hid as (name & <- & Hname).
    rewrite COMMODITY_IDS_values. apply in_map. apply Hincl. exact Hname.
Qed.

(** X11: a submission in which every call succeeds.  The submitter asks
    for the nonce, encodes the batch, asks for the gas price, builds the
    transaction with that nonce, a gas limit of 500000 and that gas
    price, signs it, sends it once, waits at most 60 seconds for the
    receipt and logs the outcome: the batch with its number of
    commodities when the receipt's status is 1, an error otherwise.  A
    reverted transaction raises nothing: the submitter returns. *)
Theorem submit_prices_all_calls_succeed (c : chain_world) (w : http_world)
        (t : list event) (prices : dict Z)
        (nonce gasPrice tx_hash status : Z) :
  fetch_all_prices w = (t, Returns prices) -> prices <> [] ->
  get_transaction_count c = Ok nonce ->
  submitBatch c (map Web3_keccak_text (keys prices)) (map snd prices) = Ok tt ->
  gas_price c = Ok gasPrice ->
  build_transaction c = Ok tt ->
  sign_transaction c = Ok tt ->
  send_raw_transaction c = Ok tx_hash ->
  wait_for_transaction_receipt c = Ok status ->
  submit_prices c prices
  = ([GetTransactionCount;
      SubmitBatch (map Web3_keccak_text (keys prices)) (map snd prices);
      GasPrice;
      BuildTransaction nonce 500000 gasPrice;
      SignTransaction;
      SendRawTransaction;
      WaitForTransactionReceipt tx_hash 60;
      if status =? 1
      then Log INFO (Log_batch_submitted tx_hash (List.length prices))
      else Log ERROR (Log_transaction_failed tx_hash)],
     Returns tt).
Proof.
  intros Hf Hne H1 H2 H3 H4 H5 H6 H7.
  rewrite (submit_prices_fetched c w t prices Hf Hne).
  unfold send_batch, call. rewrite H1, H2, H3, H4, H5, H6, H7.
  cbn [bind app]. destruct (status =? 1); reflexivity.
Qed.



Lemma COMMODITY_IDS_keys : keys COMMODITY_IDS = keys COMMODITY_SOURCES.
Proof. unfold COMMODITY_IDS, keys. rewrite map_map. apply map_id. Qed.

Lemma comprehension_KeyError (l : list string) (k : string) :
  In k l -> ~ In k (keys COMMODITY_SOURCES) ->
  exists k', comprehension (dict_getitem COMMODITY_IDS) l = Raises (KeyError k') /\
             In k' l /\ ~ In k' (keys COMMODITY_SOURCES).
Proof.
  induction l as [|a l IH]; intros Hin Hk; [contradiction|].
  cbn [comprehension].
  destruct (in_dec string_dec a (keys COMMODITY_SOURCES)) as [Ha|Ha].
  - rewrite (COMMODITY_IDS_lookup a Ha). cbn [rbind].
    destruct Hin as [->|Hin]; [contradiction|].
    destruct (IH Hin Hk) as (k' & -> & Hk' & Hnot).
    exists k'. split; [reflexivity|]. split; [right; exact Hk'|exact Hnot].
  - exists a. unfold dict_getitem at 1.
    rewrite dict_get_None by (rewrite COMMODITY_IDS_keys; exact Ha).
    split; [reflexivity|]. split; [left; reflexivity|exact Ha].
Qed.

(** X13: a dict with a key that is not a registered name.  The lookup in
    COMMODITY_IDS stands before the [try]: the submitter raises KeyError
    for the first such key, logs nothing and makes no chain call. *)
Theorem submit_prices_unregistered_key (c : chain_world) (prices : dict Z)
        (k : string) :
  In k (keys prices) -> ~ In k (keys COMMODITY_SOURCES) ->
  exists k', submit_prices c prices = ([], Raises (KeyError k')) /\
             In k' (keys prices) /\ ~ In k' (keys COMMODITY_SOURCES).
Proof.
  intros Hin Hk.
  destruct (comprehension_KeyError (keys prices) k Hin Hk) as (k' & Hc & Hk' & Hnot).
  exists k'. split; [|auto].
  unfold submit_prices. destruct prices as [|kv rest]; [contradiction|].
  rewrite Hc. reflexivity.
Qed.

(* ===================================================================== *)
(** * Further properties: the cycle and the loop *)
(* ===================================================================== *)

Lemma fetch_loop_forallb (P : event -> bool) (w : http_world)
      (sources : dict fetch_fn) :
  (forall name p raw, P (Log INFO (Log_price name p raw)) = true) ->
  (forall src, In src sources -> forallb P (trace (snd src w)) = true) ->
  forall prices, forallb P (trace (fetch_loop w sources prices)) = true.
Proof.
  intros Hlog.
  induction sources as [|[name fetch] sources IH]; intros H prices; [reflexivity|].
  cbn [fetch_loop].
  apply trace_bind_forallb; [apply (H (name, fetch)); left; reflexivity|intros price].
  apply trace_bind_forallb.
  - destruct price as [p|]; [|reflexivity].
    apply trace_bind_forallb; [reflexivity|intros [raw|]]; [|reflexivity].
    cbn. rewrite Hlog. reflexivity.
  - intros prices'. apply IH. intros src Hin. apply H. right. exact Hin.
Qed.

Lemma fetch_all_prices_forallb (P : event -> bool) (w : http_world) :
  (forall url, P (HttpGet url) = true) ->
  (forall ticker exc, P (Log WARNING (Log_fetch_failed ticker exc)) = true) ->
  (forall name p raw, P (Log INFO (Log_price name p raw)) = true) ->
  forallb P (trace (fetch_all_prices w)) = true.
Proof.
  intros Hget Hwarn Hlog. apply fetch_loop_forallb; [exact Hlog|].
  intros src Hin. destruct (COMMODITY_SOURCES_adapters src Hin) as (ticker & ->).
  destruct (fetch_commodity_cases w ticker) as [(d & ->)|(exc & ->)];
    cbn; rewrite ?Hget, ?Hwarn; reflexivity.
Qed.

Lemma send_batch_submission_events (c : chain_world) (C : list (list byte))
      (P : list Z) (n : nat) :
  forallb is_submission_event (trace (send_batch c C P n)) = true.
Proof. answers c. run_send_batch; reflexivity. Qed.

Lemma submit_prices_submission_events (c : chain_world) (prices : dict Z) :
  forallb is_submission_event (trace (submit_prices c prices)) = true.
Proof.
  unfold submit_prices. destruct prices as [|kv rest]; [reflexivity|].
  apply trace_bind_forallb; [reflexivity|intros cs].
  apply trace_bind_forallb; [reflexivity|intros ps].
  apply trace_try_forallb; [apply send_batch_submission_events|].
  intros e. reflexivity.
Qed.

(** The part of a cycle that follows the fetches. *)
Lemma cycle_trace (w : cycle_world) :
  trace (cycle w)
  = Log INFO Log_fetching :: trace (fetch_all_prices (http w)) ++
    match outcome (fetch_all_prices (http w)) with
    | Returns prices =>
        trace (match prices with
               | _ :: _ => submit_prices (chain w) prices
               | [] => emit (Log WARNING (Log_all_fetches_failed POLL_INTERVAL))
               end) ++
        match outcome (match prices with
                       | _ :: _ => submit_prices (chain w) prices
                       | [] => emit (Log WARNING
                                       (Log_all_fetches_failed POLL_INTERVAL))
                       end) with
        | Returns _ => trace (sleep (os_sleep w) POLL_INTERVAL)
        | Raises _ => []
        end
    | Raises _ => []
    end.
Proof.
  unfold cycle. rewrite trace_bind. cbn [emit trace outcome fst snd app].
  rewrite trace_bind. f_equal. f_equal.
  destruct (outcome (fetch_all_prices (http w))) as [prices|e]; [|reflexivity].
  rewrite trace_bind. reflexivity.
Qed.

Lemma cycle_outcome (w : cycle_world) :
  outcome (cycle w)
  = match outcome (fetch_all_prices (http w)) with
    | Returns prices =>
        match outcome (match prices with
                       | _ :: _ => submit_prices (chain w) prices
                       | [] => emit (Log WARNING
                                       (Log_all_fetches_failed POLL_INTERVAL))
                       end) with
        | Returns _ => outcome (sleep (os_sleep w) POLL_INTERVAL)
        | Raises e => Raises e
        end
    | Raises e => Raises e
    end.
Proof.
  unfold cycle. rewrite outcome_bind. cbn [emit trace outcome fst snd].
  rewrite outcome_bind.
  destruct (outcome (fetch_all_prices (http w))) as [prices|e]; [|reflexivity].
  rewrite outcome_bind. reflexivity.
Qed.

Lemma filter_nil_of_forallb {A} (P Q : A -> bool) (l : list A) :
  forallb P l = true -> (forall x, P x = true -> Q x = false) ->
  filter Q l = [].
Proof.
  intros H HPQ. induction l as [|a l IH]; [reflexivity|].
  cbn in H. apply andb_true_iff in H. destruct H as [Ha Hl].
  cbn. rewrite (HPQ a Ha). apply IH. exact Hl.
Qed.

Lemma submission_event_spec (ev : event) :
  is_submission_event ev = true ->
  is_http ev = false /\ is_sleep ev = false /\ is_fetching ev = false.
Proof.
  unfold is_submission_event. intros H.
  apply andb_true_iff in H. destruct H as [H H3].
  apply andb_true_iff in H. destruct H as [H1 H2].
  repeat split; apply negb_true_iff; assumption.
Qed.

(** The events of the step between the fetches and the sleep. *)
Lemma middle_submission_events (w : cycle_world) (prices : dict Z) :
  forallb is_submission_event
    (trace (match prices with
            | _ :: _ => submit_prices (chain w) prices
            | [] => emit (Log WARNING (Log_all_fetches_failed POLL_INTERVAL))
            end)) = true.
Proof.
  destruct prices; [reflexivity|apply submit_prices_submission_events].
Qed.

(** X14: within a cycle everything is strictly sequential: the cycle
    opens with its log line, then come the fetches, which make no chain
    call and do not sleep, and only then the submission and the sleep,
    during which no price is requested any more. *)
Theorem cycle_fetches_before_submission (w : cycle_world) :
  exists rest,
    trace (cycle w)
    = Log INFO Log_fetching :: trace (fetch_all_prices (http w)) ++ rest /\
    forallb is_local (trace (fetch_all_prices (http w))) = true /\
    forallb (fun ev => negb (is_http ev)) rest = true.
Proof.
  rewrite cycle_trace. eexists. split; [reflexivity|].
  split; [apply fetch_all_prices_local|].
  destruct (outcome (fetch_all_prices (http w))) as [prices|e]; [|reflexivity].
  rewrite forallb_app. apply andb_true_iff. split.
  - pose proof (middle_submission_events w prices) as H.
    rewrite forallb_forall in H |- *. intros ev Hev.
    destruct (submission_event_spec ev (H ev Hev)) as (-> & _). reflexivity.
  - destruct (outcome _); [|reflexivity].
    destruct (sleep_event_iff_returns (os_sleep w) POLL_INTERVAL)
      as [->|(e & ->)]; reflexivity.
Qed.

(** The sleeps and the opening log lines of one cycle. *)
Lemma cycle_sleeps (w : cycle_world) :
  filter is_fetching (trace (cycle w)) = [Log INFO Log_fetching] /\
  filter is_sleep (trace (cycle w))
  = match outcome (cycle w) with
    | Returns _ => [Sleep POLL_INTERVAL]
    | Raises _ => []
    end.
Proof.
  rewrite cycle_trace, cycle_outcome.
  assert (Hf1 : filter is_fetching (trace (fetch_all_prices (http w))) = []).
  { apply (filter_nil_of_forallb (fun ev => negb (is_fetching ev))).
    - apply fetch_all_prices_forallb; reflexivity.
    - intros x Hx. apply negb_true_iff. exact Hx. }
  assert (Hf2 : filter is_sleep (trace (fetch_all_prices (http w))) = []).
  { apply (filter_nil_of_forallb is_local); [apply fetch_all_prices_local|].
    intros x Hx. unfold is_local in Hx. apply andb_true_iff in Hx.
    apply negb_true_iff. tauto. }
  cbn [filter is_fetching is_sleep]. rewrite !filter_app, Hf1, Hf2.
  cbn [app].
  destruct (outcome (fetch_all_prices (http w))) as [prices|e]; [|auto].
  pose proof (middle_submission_events w prices) as Hm.
  assert (Hm1 : filter is_fetching (trace (match prices with
            | _ :: _ => submit_prices (chain w) prices
            | [] => emit (Log WARNING (Log_all_fetches_failed POLL_INTERVAL))
            end)) = []).
  { apply (filter_nil_of_forallb is_submission_event); [exact Hm|].
    intros x Hx. apply submission_event_spec in Hx. tauto. }
  assert (Hm2 : filter is_sleep (trace (match prices with
            | _ :: _ => submit_prices (chain w) prices
            | [] => emit (Log WARNING (Log_all_fetches_failed POLL_INTERVAL))
            end)) = []).
  { apply (filter_nil_of_forallb is_submission_event); [exact Hm|].
    intros x Hx. apply submission_event_spec in Hx. tauto. }
  rewrite !filter_app, Hm1, Hm2. cbn [app].
  destruct (outcome _) as [[]|e]; [|auto].
  destruct (sleep_event_iff_returns (os_sleep w) POLL_INTERVAL)
    as [->|(e & ->)]; auto.
Qed.

Lemma main_loop_unfold (fuel : nat) (world : nat -> cycle_world) (n : nat) :
  main_loop (S fuel) world n
  = match outcome (cycle (world n)) with
    | Returns _ => (trace (cycle (world n)) ++ trace (main_loop fuel world (S n)),
                    outcome (main_loop fuel world (S n)))
    | Raises e => (trace (cycle (world n)), Raises e)
    end.
Proof.
  cbn [main_loop]. destruct (cycle (world n)) as [t [[]|e]]; cbn [bind trace outcome fst snd].
  - destruct (main_loop fuel world (S n)); reflexivity.
  - reflexivity.
Qed.

(** X15: no backoff, no jitter, no skipped tick.  Every sleep of the loop
    lasts POLL_INTERVAL; each cycle that completes sleeps exactly once,
    and a cycle that raises ends the loop before its sleep: after j
    sleeps the loop has started j cycles if it is still running, and
    j + 1 if it has ended with an exception. *)
Theorem main_loop_sleeps (fuel : nat) (world : nat -> cycle_world) (n : nat) :
  exists j,
    (j <= fuel)%nat /\
    filter is_sleep (trace (main_loop fuel world n))
    = repeat (Sleep POLL_INTERVAL) j /\
    match outcome (main_loop fuel world n) with
    | Returns _ =>
        j = fuel /\
        filter is_fetching (trace (main_loop fuel world n))
        = repeat (Log INFO Log_fetching) j
    | Raises _ =>
        filter is_fetching (trace (main_loop fuel world n))
        = repeat (Log INFO Log_fetching) (S j)
    end.
Proof.
  revert n. induction fuel as [|fuel IH]; intros n.
  - exists 0%nat. cbn. auto.
  - rewrite main_loop_unfold.
    destruct (cycle_sleeps (world n)) as [Hf Hs].
    destruct (outcome (cycle (world n))) as [[]|e].
    + destruct (IH (S n)) as (j & Hj & Hsl & Hout).
      exists (S j). cbn [trace outcome fst snd].
      rewrite !filter_app, Hf, Hs, Hsl. split; [lia|]. split; [reflexivity|].
      destruct (outcome (main_loop fuel world (S n))).
      * destruct Hout as [-> Hfe]. rewrite Hfe. auto.
      * rewrite Hout. reflexivity.
    + exists 0%nat. cbn [trace outcome fst snd]. rewrite Hf, Hs.
      split; [lia|]. auto.
Qed.

(** X16: the loop runs its cycles back to back.  If each of the first
    [fuel] cycles completes, the trace of the loop is the concatenation
    of the traces of these cycles in order, each with the world of its
    own tick. *)
Theorem main_loop_back_to_back (fuel : nat) (world : nat -> cycle_world) (n : nat) :
  (forall k, (k < fuel)%nat -> outcome (cycle (world (n + k)%nat)) = Returns tt) ->
  main_loop fuel world n
  = (List.concat (map (fun k => trace (cycle (world k))) (seq n fuel)), Returns tt).
Proof.
  revert n. induction fuel as [|fuel IH]; intros n H; [reflexivity|].
  rewrite main_loop_unfold.
  pose proof (H 0%nat ltac:(lia)) as H0. rewrite Nat.add_0_r in H0. rewrite H0.
  rewrite IH.
  - reflexivity.
  - intros k Hk. replace (S n + k)%nat with (n + S k)%nat by lia.
    apply H. lia.
Qed.

(** X17: the loop ends at the first cycle that raises.  If the cycles
    before cycle [n + j] complete and that cycle raises [e], the loop
    ends with [e] and its trace is the concatenation of the traces of
    these [j + 1] cycles: no later cycle runs, however long the loop is
    observed. *)
Theorem main_loop_first_failure (fuel j : nat) (world : nat -> cycle_world)
        (n : nat) (e : exn) :
  (j < fuel)%nat ->
  (forall k, (k < j)%nat -> outcome (cycle (world (n + k)%nat)) = Returns tt) ->
  outcome (cycle (world (n + j)%nat)) = Raises e ->
  main_loop fuel world n
  = (List.concat (map (fun k => trace (cycle (world k))) (seq n (S j))), Raises e).
Proof.
  revert j n. induction fuel as [|fuel IH]; intros j n Hj H He; [lia|].
  rewrite main_loop_unfold. destruct j as [|j].
  - rewrite Nat.add_0_r in He. rewrite He. cbn [seq map List.concat].
    rewrite app_nil_r. reflexivity.
  - pose proof (H 0%nat ltac:(lia)) as H0. rewrite Nat.add_0_r in H0. rewrite H0.
    rewrite (IH j (S n)).
    + reflexivity.
    + lia.
    + intros k Hk. replace (S n + k)%nat with (n + S k)%nat by lia.
      apply H. lia.
    + replace (S n + j)%nat with (n + S j)%nat by lia. exact He.
Qed.

(** X18: a negative POLL_INTERVAL.  [time.sleep] raises for it, and
    nothing catches that: no cycle completes, so the loop ends within
    its first cycle, after whatever that cycle fetched and submitted,
    and never sleeps.  The exception of the sleep is ValueError, or
    OverflowError for an interval from -9223372037 down, whose
    nanoseconds do not fit 64 bits. *)
Theorem negative_interval_ends_loop (fuel : nat) (world : nat -> cycle_world)
        (n : nat) :
  POLL_INTERVAL < 0 ->
  exists e,
    main_loop (S fuel) world n = (trace (cycle (world n)), Raises e) /\
    existsb is_sleep (trace (cycle (world n))) = false /\
    (forall prices,
       outcome (fetch_all_prices (http (world n))) = Returns prices ->
       (prices = [] \/
        outcome (submit_prices (chain (world n)) prices) = Returns tt) ->
       e = if POLL_INTERVAL <=? -9223372037 then OverflowError else ValueError).
Proof.
  intros Hneg.
  assert (Hsl : sleep (os_sleep (world n)) POLL_INTERVAL
                = ([], Raises (if POLL_INTERVAL <=? -9223372037
                               then OverflowError else ValueError))).
  { rewrite sleep_cases.
    destruct (Z.leb_spec POLL_INTERVAL (-9223372037)); [reflexivity|].
    destruct (Z.leb_spec 9223372037 POLL_INTERVAL); [lia|].
    destruct (Z.ltb_spec POLL_INTERVAL 0); [reflexivity|lia]. }
  pose proof (cycle_outcome (world n)) as Ho.
  destruct (cycle_sleeps (world n)) as [_ Hs].
  assert (Hraise : exists e, outcome (cycle (world n)) = Raises e).
  { rewrite Ho. destruct (outcome (fetch_all_prices _)) as [prices|e]; [|eauto].
    destruct (outcome (match prices with _ :: _ => _ | [] => _ end)) as [[]|e];
      [|eauto].
    rewrite Hsl. eexists. reflexivity. }
  destruct Hraise as (e & He). exists e.
  rewrite main_loop_unfold, He. split; [reflexivity|]. split.
  - rewrite He in Hs. apply not_true_is_false. intros Hex.
    apply existsb_exists in Hex. destruct Hex as (ev & Hin & Hev).
    assert (Hf : In ev (filter is_sleep (trace (cycle (world n)))))
      by (apply filter_In; auto).
    rewrite Hs in Hf. exact Hf.
  - intros prices Hp Hsub. rewrite Ho, Hp in He.
    destruct Hsub as [->|Hsub].
    + cbn in He. rewrite Hsl in He. cbn in He. congruence.
    + destruct prices as [|kv rest].
      * cbn in He. rewrite Hsl in He. cbn in He. congruence.
      * rewrite Hsub, Hsl in He. cbn in He. congruence.
Qed.

(* ===================================================================== *)
(** * Further properties: the start-up of [main] *)
(* ===================================================================== *)

Lemma loop_events_map_Loop (t : list event) : loop_events (map Loop t) = t.
Proof.
  induction t as [|ev t IH]; [reflexivity|].
  cbn. unfold loop_events in IH. rewrite IH. reflexivity.
Qed.

(** X19: the start-up is a gate in front of the loop.  When every step
    of the start-up succeeds and the endpoint is reachable, [main]
    behaves from then on as its loop, started at the first tick; in every
    other case [main] ends with an exception and no event of the loop
    happens: no price is fetched and nothing is submitted. *)
Theorem main_startup_gate (s : startup_world) (fuel : nat)
        (world : nat -> cycle_world) :
  if startup_ok s
  then loop_events (fst (main s fuel world)) = trace (main_loop fuel world 0) /\
       snd (main s fuel world) = outcome (main_loop fuel world 0)
  else loop_events (fst (main s fuel world)) = [] /\
       exists e, snd (main s fuel world) = Raises e.
Proof.
  unfold startup_ok, main, main_log, main_call.
  destruct s as [rpc addr sapphire fk wrap conn cid ctr].
  cbn [RPC_URL CONTRACT_ADDRESS SAPPHIRE_AVAILABLE from_key sapphire_wrap
       is_connected chain_id contract].
  destruct (main_loop fuel world 0) as [t r] eqn:Hloop.
  pose proof (loop_events_map_Loop t) as Hmap.
  destruct fk as [address|?]; [|cbn; eauto].
  destruct conn as [[|]|?]; cbn [negb];
    destruct cid as [id|?]; destruct ctr as [[]|?];
    destruct sapphire; try destruct wrap as [[]|?];
    cbn [fst snd loop_events flat_map app trace outcome];
    try (split; [exact Hmap|reflexivity]);
    split; try reflexivity; eauto.
Qed.

(** X20: an endpoint that cannot be reached is fatal.  If the key is
    accepted and the connectivity check answers no, [main] logs the
    error with the endpoint and leaves through [sys.exit(1)]: SystemExit,
    which no [except Exception] would catch.  The chain id is not asked
    for, no contract object is built and the loop is never entered. *)
Theorem main_unreachable_endpoint_exits (s : startup_world) (fuel : nat)
        (world : nat -> cycle_world) (address : string) :
  from_key s = Ok address ->
  (SAPPHIRE_AVAILABLE s = true -> sapphire_wrap s = Ok tt) ->
  is_connected s = Ok false ->
  snd (main s fuel world) = Raises (SystemExit 1) /\
  is_Exception (SystemExit 1) = false /\
  last (fst (main s fuel world)) FromKey
  = Startup_log ERROR (Log_cannot_connect (RPC_URL s)) /\
  ~ In ChainId (fst (main s fuel world)) /\
  ~ In (Contract (CONTRACT_ADDRESS s)) (fst (main s fuel world)) /\
  loop_events (fst (main s fuel world)) = [].
Proof.
  unfold main, main_log, main_call.
  destruct s as [rpc addr sapphire fk wrap conn cid ctr].
  cbn [RPC_URL CONTRACT_ADDRESS SAPPHIRE_AVAILABLE from_key sapphire_wrap
       is_connected chain_id contract].
  intros -> Hwrap ->.
  destruct sapphire; [rewrite (Hwrap eq_refl)|];
    cbn [negb fst snd loop_events flat_map app last];
    (repeat split; try reflexivity;
     intros Hin; cbn in Hin; intuition discriminate).
Qed.

(* ===================================================================== *)
(** * Further properties: the on-chain identifiers *)
(* ===================================================================== *)

Lemma keccak_round_length (a : list N) (rc : N) :
  List.length (Keccak.keccak_round a rc) = 25%nat.
Proof.
  unfold Keccak.keccak_round, Keccak.iota.
  destruct (Keccak.chi (Keccak.rho_pi (Keccak.theta a))) as [|a0 rest] eqn:H.
  - unfold Keccak.chi in H. discriminate H.
  - change (List.length (a0 :: rest) = 25%nat). rewrite <- H.
    unfold Keccak.chi. rewrite length_map. reflexivity.
Qed.

Lemma fold_keccak_round_length (rcs : list N) (a : list N) :
  List.length a = 25%nat ->
  List.length (fold_left Keccak.keccak_round rcs a) = 25%nat.
Proof.
  revert a. induction rcs as [|rc rcs IH]; intros a Ha; [exact Ha|].
  cbn [fold_left]. apply IH. apply keccak_round_length.
Qed.

Lemma absorb_length (n : nat) (st msg : list N) :
  List.length st = 25%nat -> List.length (Keccak.absorb n st msg) = 25%nat.
Proof.
  revert st msg. induction n as [|n IH]; intros st msg Hst; [exact Hst|].
  cbn [Keccak.absorb]. apply IH. unfold Keccak.keccak_f1600.
  unfold Keccak.round_constants. cbn [fold_left].
  apply fold_keccak_round_length with (rcs := []).
  apply keccak_round_length.
Qed.

Lemma bytes_of_lane_length (n : nat) (l : N) :
  List.length (Keccak.bytes_of_lane n l) = n.
Proof.
  revert l. induction n as [|n IH]; intros l; [reflexivity|].
  cbn. rewrite IH. reflexivity.
Qed.

(** X21: an identifier is a [bytes32], as the ABI of submitBatch and of
    getPrice requires: the Keccak-256 digest of a name, whatever its
    length, is 32 bytes long; so is every identifier of the registry. *)
Theorem commodity_id_is_bytes32 (name : string) :
  List.length (Web3_keccak_text name) = 32%nat /\
  Forall (fun kv => List.length (snd kv) = 32%nat) COMMODITY_IDS.
Proof.
  assert (H : forall s, List.length (Web3_keccak_text s) = 32%nat).
  { intros s. unfold Web3_keccak_text, Keccak.keccak256, Keccak.sponge256.
    rewrite length_map.
    set (padded := Keccak.pad _).
    pose proof (absorb_length (List.length padded / Keccak.rate) (repeat 0%N 25)
                  padded (repeat_length _ _)) as Hlen.
    destruct (Keccak.absorb _ _ _) as [|l0 [|l1 [|l2 [|l3 rest]]]];
      try discriminate Hlen.
    cbn [firstn flat_map]. rewrite !length_app, !bytes_of_lane_length.
    reflexivity. }
  split; [apply H|].
  unfold COMMODITY_IDS. apply Forall_forall. intros kv Hin.
  apply in_map_iff in Hin. destruct Hin as (x & <- & _). apply H.
Qed.

(* ===================================================================== *)
(** * Further properties: equal prices, reverted transactions *)
(* ===================================================================== *)

Lemma normalize_price_positive_cases (c : N) (e : Z) :
  (0 < c)%N ->
  (exists raw, normalize_price (Finite false c e) = Returns (Some raw)) \/
  normalize_price (Finite false c e) = Raises Overflow.
Proof.
  intros Hc. pose proof (normalize_price_pos c e Hc) as P. cbn zeta in P.
  destruct P as [[Hr _]|(Hr & _)]; [right; exact Hr|left; eexists; exact Hr].
Qed.

(** X22: the scaled price depends on the price, not on the way it is
    written: two positive decimals of equal value (82.5 and 82.50, 8E+1
    and 80) are normalized alike, to the same integer or to the same
    exception. *)
Theorem normalize_price_respects_value (c1 c2 : N) (e1 e2 : Z) :
  (0 < c1)%N -> (0 < c2)%N ->
  (Decimal_value false c1 e1 == Decimal_value false c2 e2)%Q ->
  normalize_price (Finite false c1 e1) = normalize_price (Finite false c2 e2).
Proof.
  intros H1 H2 Heq.
  assert (H12 : (Decimal_value false c1 e1 <= Decimal_value false c2 e2)%Q)
    by (rewrite Heq; apply Qle_refl).
  assert (H21 : (Decimal_value false c2 e2 <= Decimal_value false c1 e1)%Q)
    by (rewrite Heq; apply Qle_refl).
  destruct (normalize_price_positive_cases c2 e2 H2) as [(n2 & Hn2)|Hr2].
  - destruct (normalize_price_mono c1 c2 e1 e2 n2 H1 H2 H12 Hn2) as (n1 & Hn1 & Hle).
    destruct (normalize_price_mono c2 c1 e2 e1 n1 H2 H1 H21 Hn1) as (n2' & Hn2' & Hle').
    rewrite Hn2 in Hn2'. injection Hn2' as <-.
    rewrite Hn1, Hn2. do 2 f_equal. lia.
  - destruct (normalize_price_positive_cases c1 e1 H1) as [(n1 & Hn1)|Hr1].
    + destruct (normalize_price_mono c2 c1 e2 e1 n1 H2 H1 H21 Hn1) as (n2 & Hn2 & _).
      rewrite Hn2 in Hr2. discriminate Hr2.
    + rewrite Hr1, Hr2. reflexivity.
Qed.

(** X23: a transaction that is mined but reverted costs one cycle and
    nothing more.  When prices were fetched, every call of the
    submission succeeds and the receipt's status is not 1, the cycle
    logs the failure, sends nothing again, sleeps for POLL_INTERVAL and
    returns, so that the loop goes on to its next cycle.  The sleep is
    one that [time.sleep] accepts: an interval from 0 to 9223372036
    seconds, which the system grants. *)
Theorem reverted_transaction_cycle_completes (w : cycle_world) (t : list event)
        (prices : dict Z) (nonce gasPrice tx_hash status : Z) :
  0 <= POLL_INTERVAL < 9223372037 ->
  os_sleep w POLL_INTERVAL = Ok tt ->
  fetch_all_prices (http w) = (t, Returns prices) -> prices <> [] ->
  get_transaction_count (chain w) = Ok nonce ->
  submitBatch (chain w) (map Web3_keccak_text (keys prices)) (map snd prices)
  = Ok tt ->
  gas_price (chain w) = Ok gasPrice ->
  build_transaction (chain w) = Ok tt ->
  sign_transaction (chain w) = Ok tt ->
  send_raw_transaction (chain w) = Ok tx_hash ->
  wait_for_transaction_receipt (chain w) = Ok status ->
  status <> 1 ->
  cycle w
  = (Log INFO Log_fetching :: t ++
     [GetTransactionCount;
      SubmitBatch (map Web3_keccak_text (keys prices)) (map snd prices);
      GasPrice;
      BuildTransaction nonce 500000 gasPrice;
      SignTransaction;
      SendRawTransaction;
      WaitForTransactionReceipt tx_hash 60;
      Log ERROR (Log_transaction_failed tx_hash);
      Sleep POLL_INTERVAL],
     Returns tt).
Proof.
  intros Hpoll Hos Hf Hne H1 H2 H3 H4 H5 H6 H7 Hst.
  assert (Hsub : submit_prices (chain w) prices
    = ([GetTransactionCount;
        SubmitBatch (map Web3_keccak_text (keys prices)) (map snd prices);
        GasPrice; BuildTransaction nonce 500000 gasPrice; SignTransaction;
        SendRawTransaction; WaitForTransactionReceipt tx_hash 60;
        Log ERROR (Log_transaction_failed tx_hash)], Returns tt)).
  { rewrite (submit_prices_fetched (chain w) (http w) t prices Hf Hne).
    unfold send_batch, call. rewrite H1, H2, H3, H4, H5, H6, H7.
    cbn [bind app].
    replace (status =? 1) with false by (symmetry; apply Z.eqb_neq; exact Hst).
    reflexivity. }
  unfold cycle. rewrite Hf. cbn [emit bind app].
  destruct prices as [|kv rest]; [contradiction Hne; reflexivity|].
  rewrite Hsub, (sleep_accepted _ Hpoll Hos).
  cbn [emit bind app]. reflexivity.
Qed.

(* ===================================================================== *)
(** * Further properties: the interaction examples *)
(* ===================================================================== *)

Lemma D_bind_fst {A B} (m : Interact.D A) (k : A -> Interact.D B) :
  fst (Interact.bind m k)
  = fst m ++ match snd m with
             | Returns a => fst (k a)
             | Raises _ => []
             end.
Proof.
  destruct m as [t [a|e]]; cbn; [|rewrite app_nil_r; reflexivity].
  destruct (k a). reflexivity.
Qed.

Lemma D_bind_snd {A B} (m : Interact.D A) (k : A -> Interact.D B) :
  snd (Interact.bind m k)
  = match snd m with
    | Returns a => snd (k a)
    | Raises e => Raises e
    end.
Proof.
  destruct m as [t [a|e]]; cbn; [|reflexivity]. destruct (k a). reflexivity.
Qed.

Lemma D_bind_forallb {A B} (P : Interact.action -> bool) (m : Interact.D A)
      (k : A -> Interact.D B) :
  forallb P (fst m) = true ->
  (forall a, forallb P (fst (k a)) = true) ->
  forallb P (fst (Interact.bind m k)) = true.
Proof.
  intros Hm Hk. rewrite D_bind_fst, forallb_app, Hm.
  destruct (snd m); [apply Hk|reflexivity].
Qed.

Lemma D_try_fst {A} (body : Interact.D A) (handler : exn -> Interact.D A) :
  fst (Interact.try_except_Exception body handler)
  = fst body ++ match snd body with
                | Raises e => if is_Exception e then fst (handler e) else []
                | Returns _ => []
                end.
Proof.
  destruct body as [t [a|e]]; cbn; [rewrite app_nil_r; reflexivity|].
  destruct (is_Exception e); [|rewrite app_nil_r; reflexivity].
  destruct (handler e). reflexivity.
Qed.

Lemma D_bind_Forall {A B} (P : Interact.action -> Prop) (m : Interact.D A)
      (k : A -> Interact.D B) :
  Forall P (fst m) ->
  (forall a, Forall P (fst (k a))) ->
  Forall P (fst (Interact.bind m k)).
Proof.
  intros Hm Hk. rewrite D_bind_fst. apply Forall_app. split; [exact Hm|].
  destruct (snd m); [apply Hk|constructor].
Qed.

Lemma D_try_Forall {A} (P : Interact.action -> Prop) (body : Interact.D A)
      (handler : exn -> Interact.D A) :
  Forall P (fst body) ->
  (forall e, Forall P (fst (handler e))) ->
  Forall P (fst (Interact.try_except_Exception body handler)).
Proof.
  intros Hb Hh. rewrite D_try_fst. apply Forall_app. split; [exact Hb|].
  destruct (snd body) as [a|e]; [constructor|].
  destruct (is_Exception e); [apply Hh|constructor].
Qed.

Lemma list_getitem_status (i : Z) :
  -3 <= i < 3 ->
  exists name, Interact.list_getitem Interact.STATUS_NAMES i = Returns name.
Proof.
  intros H.
  assert (Hi : i = -3 \/ i = -2 \/ i = -1 \/ i = 0 \/ i = 1 \/ i = 2) by lia.
  destruct Hi as [->|[->|[->|[->|[->| ->]]]]]; eexists; reflexivity.
Qed.

Lemma list_getitem_status_out_of_range (i : Z) :
  i < -3 \/ 3 <= i ->
  Interact.list_getitem Interact.STATUS_NAMES i = Raises IndexError.
Proof.
  intros H. unfold Interact.list_getitem, Interact.STATUS_NAMES.
  cbn [List.length Z.of_nat Pos.of_succ_nat Pos.succ].
  destruct (Z.ltb_spec i 0) as [Hneg|Hpos].
  - destruct (Z.leb_spec 0 (i + 3)); [lia|reflexivity].
  - destruct (Z.leb_spec 0 i); [|lia].
    destruct (Z.ltb_spec i 3); [lia|reflexivity].
Qed.

Lemma print_orders_printable (o : Interact.order) (rest : list Interact.order) :
  Interact.printable o = true ->
  exists line,
    Interact.is_print_order line = true /\
    fst (Interact.print_orders (o :: rest))
    = line :: fst (Interact.print_orders rest) /\
    snd (Interact.print_orders (o :: rest)) = snd (Interact.print_orders rest).
Proof.
  unfold Interact.printable. intros H.
  apply andb_true_iff in H. destruct H as [H H4].
  apply andb_true_iff in H. destruct H as [H H3].
  apply andb_true_iff in H. destruct H as [H1 H2].
  apply Z.leb_le in H1. apply Z.ltb_lt in H2.
  destruct (list_getitem_status (Interact.status o) (conj H1 H2)) as (name & Hn).
  cbn [Interact.print_orders]. unfold Interact.float_of_int.
  rewrite Hn, H3, H4.
  cbn [Interact.lift Interact.bind Interact.print app].
  destruct (Interact.print_orders rest) as [t r].
  eexists. split; [|split; reflexivity]. reflexivity.
Qed.

Lemma print_orders_prefix (pre rest : list Interact.order) :
  forallb Interact.printable pre = true ->
  exists t,
    fst (Interact.print_orders (pre ++ rest))
    = t ++ fst (Interact.print_orders rest) /\
    List.length t = List.length pre /\
    forallb Interact.is_print_order t = true /\
    snd (Interact.print_orders (pre ++ rest)) = snd (Interact.print_orders rest).
Proof.
  induction pre as [|o pre IH]; intros H.
  - exists []. repeat split; reflexivity.
  - cbn [forallb] in H. apply andb_true_iff in H. destruct H as [Ho Hpre].
    destruct (IH Hpre) as (t & Ht & Hlen & Hall & Hsnd).
    destruct (print_orders_printable o (pre ++ rest) Ho) as (line & Hl & Hf & Hs).
    exists (line :: t). change ((o :: pre) ++ rest) with (o :: pre ++ rest).
    rewrite Hf, Hs, Ht, Hsnd. cbn [List.length forallb app]. rewrite Hl, Hall, Hlen.
    repeat split; reflexivity.
Qed.

Lemma print_orders_unknown_status (o : Interact.order) (rest : list Interact.order) :
  Interact.status o < -3 \/ 3 <= Interact.status o ->
  Interact.print_orders (o :: rest) = ([], Raises IndexError).
Proof.
  intros H. cbn [Interact.print_orders].
  rewrite (list_getitem_status_out_of_range _ H). reflexivity.
Qed.

Lemma filter_all {A} (P : A -> bool) (l : list A) :
  forallb P l = true -> filter P l = l.
Proof.
  induction l as [|a l IH]; [reflexivity|]. cbn. intros H.
  apply andb_true_iff in H. destruct H as [-> Hl]. rewrite (IH Hl). reflexivity.
Qed.

(** X24: the signed view demo names the status of an order by indexing
    a list of three names.  An order whose status is none of these
    (3 or more; negative indices down to -3 would count from the end)
    raises IndexError, which nothing catches: the orders before it have
    been printed, the order itself and the orders after it are not. *)
Theorem demo_signed_view_call_unknown_status (w : Interact.demo_world)
        (address : string) (unsigned pre post : list Interact.order)
        (o : Interact.order) :
  Interact.unsigned_contract w = Ok tt ->
  Interact.unsigned_orders w = Ok unsigned ->
  Interact.signed_wrap w = Ok tt ->
  Interact.signed_contract w = Ok tt ->
  Interact.signed_orders w = Ok (pre ++ o :: post) ->
  forallb Interact.printable pre = true ->
  Interact.status o < -3 \/ 3 <= Interact.status o ->
  snd (Interact.demo_signed_view_call w address) = Raises IndexError /\
  List.length (filter Interact.is_print_order
                 (fst (Interact.demo_signed_view_call w address)))
  = List.length pre.
Proof.
  intros H1 H2 H3 H4 H5 Hpre Hbad.
  destruct (print_orders_prefix pre (o :: post) Hpre) as (t & Ht & Hlen & Hall & Hsnd).
  rewrite (print_orders_unknown_status o post Hbad) in Ht, Hsnd.
  cbn [fst snd] in Ht, Hsnd. rewrite app_nil_r in Ht.
  unfold Interact.demo_signed_view_call, Interact.invoke, Interact.print.
  rewrite H1, H2, H3, H4, H5. cbn [Interact.bind app].
  destruct (Interact.print_orders (pre ++ o :: post)) as [t' r'].
  cbn [fst snd] in Ht, Hsnd. subst t' r'.
  cbn [Interact.bind app fst snd filter Interact.is_print_order].
  rewrite (filter_all _ _ Hall). split; [reflexivity|exact Hlen].
Qed.

(** X25: reading the price never fails on the call itself.  Once the
    contract object is built, [demo_read_price] returns whatever the
    node answers to getPrice: it prints the price, or, when the call
    fails or the price is beyond the range of a float, that the price
    is not available. *)
Theorem demo_read_price_catches_call_failure (w : Interact.demo_world) :
  Interact.price_contract w = Ok tt ->
  snd (Interact.demo_read_price w) = Returns tt /\
  exists line,
    fst (Interact.demo_read_price w)
    = [Interact.Print Interact.Print_read_price_header;
       Interact.ContractAt (Interact.ATTESTATION_ADDR w);
       Interact.CallGetPrice Interact.CRUDE_OIL;
       Interact.Print line] /\
    line = match Interact.get_price w with
           | Ok (price, updated_at) =>
               if Z.abs price <? Interact.float_overflow
               then Interact.Print_price price updated_at
               else Interact.Print_not_available OverflowError
           | Fails what => Interact.Print_not_available (Web3Exception what)
           end.
Proof.
  intros H. unfold Interact.demo_read_price, Interact.invoke, Interact.print.
  rewrite H.
  destruct (Interact.get_price w) as [[price updated_at]|what].
  - unfold Interact.float_of_int. cbn [Interact.bind app].
    destruct (Z.abs price <? Interact.float_overflow);
      (split; [reflexivity|eexists; split; reflexivity]).
  - split; [reflexivity|eexists; split; reflexivity].
Qed.

(** X26: the order demo places one fixed order and does not judge its
    receipt.  When every call succeeds it sends one transaction, a BUY
    of 50,000 * 10^18 units of the WTI identifier at a limit of
    85,000,000 with 700,000 gas, waits for the receipt and returns,
    printing ok for status 1 and FAILED for any other: a reverted order
    raises nothing. *)
Theorem demo_place_order_all_calls_succeed (w : Interact.demo_world)
        (address : string) (nonce gasPrice tx_hash receipt_status : Z) :
  Interact.place_wrap w = Ok tt ->
  Interact.place_contract w = Ok tt ->
  Interact.place_nonce w = Ok nonce ->
  Interact.place_order w = Ok tt ->
  Interact.place_gas_price w = Ok gasPrice ->
  Interact.place_build w = Ok tt ->
  Interact.place_sign w = Ok tt ->
  Interact.place_send w = Ok tx_hash ->
  Interact.place_receipt w = Ok receipt_status ->
  Interact.demo_place_order w address
  = ([Interact.Print Interact.Print_place_order_header;
      Interact.SapphireWrap;
      Interact.ContractAt (Interact.ORDER_BOOK_ADDR w);
      Interact.GetTransactionCount address;
      Interact.PlaceOrder (Web3_keccak_text "CRUDE_OIL_WTI")
                          50000000000000000000000 85000000 0;
      Interact.GasPrice;
      Interact.BuildTransaction address nonce 700000 gasPrice;
      Interact.SignTransaction;
      Interact.SendRawTransaction;
      Interact.WaitForTransactionReceipt tx_hash;
      Interact.Print (Interact.Print_tx tx_hash);
      Interact.Print (Interact.Print_status
                        (if receipt_status =? 1 then "ok"%string
                         else "FAILED"%string))],
     Returns tt).
Proof.
  intros H1 H2 H3 H4 H5 H6 H7 H8 H9.
  unfold Interact.demo_place_order, Interact.invoke, Interact.print.
  rewrite H1, H2, H3, H4, H5, H6, H7, H8, H9. reflexivity.
Qed.

Lemma print_orders_no_get_price (orders : list Interact.order) :
  forallb (fun a => negb (Interact.is_get_price a))
          (fst (Interact.print_orders orders)) = true.
Proof.
  induction orders as [|o rest IH]; [reflexivity|].
  cbn [Interact.print_orders].
  repeat (apply D_bind_forallb; [reflexivity|intros ?]). exact IH.
Qed.

Lemma demo_place_order_no_get_price (w : Interact.demo_world) (address : string) :
  forallb (fun a => negb (Interact.is_get_price a))
          (fst (Interact.demo_place_order w address)) = true.
Proof.
  unfold Interact.demo_place_order.
  repeat (apply D_bind_forallb; [reflexivity|intros ?]). reflexivity.
Qed.

Lemma demo_signed_view_call_no_get_price (w : Interact.demo_world)
      (address : string) :
  forallb (fun a => negb (Interact.is_get_price a))
          (fst (Interact.demo_signed_view_call w address)) = true.
Proof.
  unfold Interact.demo_signed_view_call.
  repeat (apply D_bind_forallb; [reflexivity|intros ?]).
  apply print_orders_no_get_price.
Qed.

Lemma not_in_of_forallb_negb {A} (P : A -> bool) (l : list A) (a : A) :
  forallb (fun x => negb (P x)) l = true -> P a = true -> ~ In a l.
Proof.
  intros H Ha Hin. rewrite forallb_forall in H. specialize (H a Hin).
  rewrite Ha in H. discriminate H.
Qed.

(** X27: the script has no error handling between its demos.  The price
    is asked of the node exactly when the key was accepted, the order
    demo and the signed view demo both returned, and the attestation
    contract object was built; a failure of an earlier step ends the
    script before getPrice is called. *)
Theorem interact_main_reads_price_iff (w : Interact.demo_world) :
  In (Interact.CallGetPrice Interact.CRUDE_OIL) (fst (Interact.main w)) <->
  exists address,
    Interact.from_key w = Ok address /\
    snd (Interact.demo_place_order w address) = Returns tt /\
    snd (Interact.demo_signed_view_call w address) = Returns tt /\
    Interact.price_contract w = Ok tt.
Proof.
  unfold Interact.main. rewrite D_bind_fst.
  unfold Interact.invoke at 1 2. cbn [fst snd].
  destruct (Interact.from_key w) as [address|what].
  - rewrite !D_bind_fst. cbn [Interact.print fst snd app].
    pose proof (not_in_of_forallb_negb Interact.is_get_price _
                  (Interact.CallGetPrice Interact.CRUDE_OIL)
                  (demo_place_order_no_get_price w address) eq_refl) as Hp.
    pose proof (not_in_of_forallb_negb Interact.is_get_price _
                  (Interact.CallGetPrice Interact.CRUDE_OIL)
                  (demo_signed_view_call_no_get_price w address) eq_refl) as Hs.
    split.
    + intros Hin. exists address. split; [reflexivity|].
      destruct Hin as [Hin|[Hin|[Hin|Hin]]]; try discriminate Hin.
      apply in_app_or in Hin. destruct Hin as [Hin|Hin]; [contradiction|].
      destruct (snd (Interact.demo_place_order w address)) as [[]|e];
        [|destruct Hin].
      split; [reflexivity|].
      apply in_app_or in Hin. destruct Hin as [Hin|Hin]; [contradiction|].
      destruct (snd (Interact.demo_signed_view_call w address)) as [[]|e];
        [|destruct Hin].
      split; [reflexivity|].
      unfold Interact.demo_read_price, Interact.invoke, Interact.print in Hin.
      destruct (Interact.price_contract w) as [[]|what]; [reflexivity|].
      cbn [Interact.bind app fst snd] in Hin.
      destruct Hin as [Hin|[Hin|[]]]; discriminate Hin.
    + intros (a & Ha & Hpl & Hsv & Hc). injection Ha as <-.
      right. right. right. apply in_or_app. right. rewrite Hpl.
      apply in_or_app. right. rewrite Hsv.
      unfold Interact.demo_read_price. rewrite !D_bind_fst.
      unfold Interact.invoke at 1, Interact.print at 1. rewrite Hc.
      cbn [fst snd app]. right. right.
      rewrite D_try_fst. apply in_or_app. left.
      rewrite D_bind_fst. left. reflexivity.
  - cbn [app]. split.
    + intros [Hin|[]]. discriminate Hin.
    + intros (a & Ha & _). discriminate Ha.
Qed.

Lemma demo_read_price_commodity (w : Interact.demo_world) :
  Forall (fun a => match a with
                   | Interact.CallGetPrice c => c = Interact.CRUDE_OIL
                   | _ => True
                   end)
         (fst (Interact.demo_read_price w)).
Proof.
  unfold Interact.demo_read_price.
  apply D_bind_Forall; [repeat constructor|intros _].
  apply D_bind_Forall; [repeat constructor|intros _].
  apply D_try_Forall; [|intros e; repeat constructor].
  apply D_bind_Forall; [repeat constructor|intros [price updated_at]].
  apply D_bind_Forall; [constructor|intros _]. repeat constructor.
Qed.

Lemma demo_place_order_commodity (w : Interact.demo_world) (address : string) :
  Forall (fun a => match a with
                   | Interact.PlaceOrder c _ _ _ => c = Interact.CRUDE_OIL
                   | _ => True
                   end)
         (fst (Interact.demo_place_order w address)).
Proof.
  unfold Interact.demo_place_order.
  repeat (apply D_bind_Forall; [repeat constructor|intros ?]).
  repeat constructor.
Qed.

(** X28: the demo and the oracle agree on the key.  The identifier
    under which the oracle submits the WTI price is the one the demo
    asks getPrice for, and the one of the order it places. *)
Theorem demo_reads_the_oracle_key (w : Interact.demo_world) (address : string) :
  dict_get COMMODITY_IDS "CRUDE_OIL_WTI" = Some Interact.CRUDE_OIL /\
  (forall c, In (Interact.CallGetPrice c) (fst (Interact.demo_read_price w)) ->
             dict_get COMMODITY_IDS "CRUDE_OIL_WTI" = Some c) /\
  (forall c q p s,
     In (Interact.PlaceOrder c q p s) (fst (Interact.demo_place_order w address)) ->
     dict_get COMMODITY_IDS "CRUDE_OIL_WTI" = Some c).
Proof.
  assert (H : dict_get COMMODITY_IDS "CRUDE_OIL_WTI" = Some Interact.CRUDE_OIL)
    by reflexivity.
  split; [exact H|]. split.
  - intros c Hin. rewrite H. f_equal. symmetry.
    pose proof (demo_read_price_commodity w) as Hall.
    rewrite Forall_forall in Hall. exact (Hall _ Hin).
  - intros c q p s Hin. rewrite H. f_equal. symmetry.
    pose proof (demo_place_order_commodity w address) as Hall.
    rewrite Forall_forall in Hall. exact (Hall _ Hin).
Qed.

End Oracle.

(* ===================================================================== *)
(** * The properties at concrete inputs *)
(* ===================================================================== *)

(** In the examples the poll interval is the default of 60 seconds, and
    the example worlds quote prices as JSON numbers, so that the literal
    parser does not matter, except where a price is quoted as a string. *)

(** Against C1 as stated: with a submission that raises in the first
    cycle, the loop observed for five iterations ends with the exception
    after a single fetch, and never sleeps. *)
Lemma submission_error_ends_process :
  outcome (submit_prices (fun _ => None) (chain (world_submit_fails 0%nat))
                         [("CRUDE_OIL_WTI"%string, 82355001)])
  = Raises (Web3Exception "connection refused") /\
  outcome (main_loop (fun _ => None) 60 5 world_submit_fails 0%nat)
  = Raises (Web3Exception "connection refused") /\
  existsb is_sleep (trace (main_loop (fun _ => None) 60 5 world_submit_fails 0%nat))
  = false /\
  List.length (filter (fun ev => match ev with
                                 | Log INFO Log_fetching => true
                                 | _ => false
                                 end)
                      (trace (main_loop (fun _ => None) 60 5 world_submit_fails 0%nat)))
  = 1%nat.
Proof. repeat split; vm_compute; reflexivity. Qed.

Lemma submission_error_leaves_loop_witness :
  fetch_all_prices (fun _ => None) (http (world_submit_fails 0%nat))
  = (trace (fetch_all_prices (fun _ => None) (http (world_submit_fails 0%nat))),
     Returns [("CRUDE_OIL_WTI"%string, 82355001)]) /\
  outcome (submit_prices (fun _ => None) (chain (world_submit_fails 0%nat))
                         [("CRUDE_OIL_WTI"%string, 82355001)])
  = Raises (Web3Exception "connection refused") /\
  outcome (main_loop (fun _ => None) 60 5 world_submit_fails 0%nat)
  = Raises (Web3Exception "connection refused").
Proof.
  assert (H1 : fetch_all_prices (fun _ => None) (http (world_submit_fails 0%nat))
    = (trace (fetch_all_prices (fun _ => None) (http (world_submit_fails 0%nat))),
       Returns [("CRUDE_OIL_WTI"%string, 82355001)]))
    by (vm_compute; reflexivity).
  assert (H2 : outcome (submit_prices (fun _ => None) (chain (world_submit_fails 0%nat))
                         [("CRUDE_OIL_WTI"%string, 82355001)])
               = Raises (Web3Exception "connection refused"))
    by (vm_compute; reflexivity).
  split; [exact H1|]. split; [exact H2|].
  exact (proj1 (submission_error_leaves_loop (fun _ => None) 60 4
                  world_submit_fails 0%nat _ _ _ H1 H2)).
Defined.

(** Against C2 as stated: a price of 29 digits, quoted as a JSON integer,
    is positive, and its product with 1,000,000 is rounded to 28 digits
    before the truncation; and the product of 1E+999994 lies above the
    exponent range, so that the normalizer raises decimal.Overflow. *)
Lemma normalize_price_29_digits_not_floor :
  Decimal_gt_0 price_29_digits = Returns true /\
  normalize_price price_29_digits
  = Returns (Some 10000000000000000000000000000000000) /\
  Qfloor (Decimal_value false 10000000000000000000000000001 0 * 1000000)
  = 10000000000000000000000000001000000 /\
  normalize_price price_29_digits
  <> Returns (Some (Qfloor (Decimal_value false 10000000000000000000000000001 0
                            * 1000000))) /\
  outcome (fetch_all_prices (fun _ => None) (http_wti (JNumber price_29_digits)))
  = Returns [("CRUDE_OIL_WTI"%string, 10000000000000000000000000000000000)] /\
  normalize_price (Finite false 1 999994) = Raises Overflow.
Proof.
  split; [vm_compute; reflexivity|].
  split; [vm_compute; reflexivity|].
  split; [vm_compute; reflexivity|].
  split; [vm_compute; discriminate|].
  split; vm_compute; reflexivity.
Qed.

Lemma normalize_price_is_floor_witness :
  (0 < 82355001)%N /\
  ndigits (Z.of_N 82355001) <= prec DefaultContext /\
  ndigits (Z.of_N 82355001) + (-6) + 5 <= Emax DefaultContext /\
  normalize_price (Finite false 82355001 (-6))
  = Returns (Some (Qfloor (Decimal_value false 82355001 (-6) * 1000000))).
Proof.
  assert (H1 : (0 < 82355001)%N) by reflexivity.
  assert (H2 : ndigits (Z.of_N 82355001) <= prec DefaultContext)
    by (vm_compute; discriminate).
  assert (H3 : ndigits (Z.of_N 82355001) + (-6) + 5 <= Emax DefaultContext)
    by (vm_compute; discriminate).
  split; [exact H1|]. split; [exact H2|]. split; [exact H3|].
  exact (normalize_price_is_floor 82355001 (-6) H1 H2 H3).
Defined.

(** Against C3 as stated: 82.355001 is not normalized to 82355000. *)
Lemma normalize_82_355001_not_82355000 :
  normalize_price price_82_355001 <> Returns (Some 82355000).
Proof. vm_compute. discriminate. Qed.

Lemma normalize_price_monotone_witness :
  (0 < 82355001)%N /\ (0 < 8236)%N /\
  (Decimal_value false 82355001 (-6) <= Decimal_value false 8236 (-2))%Q /\
  normalize_price (Finite false 8236 (-2)) = Returns (Some 82360000) /\
  exists n1, normalize_price (Finite false 82355001 (-6)) = Returns (Some n1) /\
             n1 <= 82360000.
Proof.
  assert (H1 : (0 < 82355001)%N) by reflexivity.
  assert (H2 : (0 < 8236)%N) by reflexivity.
  assert (H3 : (Decimal_value false 82355001 (-6)
                <= Decimal_value false 8236 (-2))%Q)
    by (vm_compute; discriminate).
  assert (H4 : normalize_price (Finite false 8236 (-2)) = Returns (Some 82360000))
    by (vm_compute; reflexivity).
  split; [exact H1|]. split; [exact H2|]. split; [exact H3|]. split; [exact H4|].
  exact (normalize_price_monotone 82355001 8236 (-6) (-2) 82360000 H1 H2 H3 H4).
Defined.

Lemma nonpositive_price_rejected_witness :
  (Decimal_value true 35 (-1) <= 0)%Q /\
  normalize_price (Finite true 35 (-1)) = Returns None.
Proof.
  assert (H : (Decimal_value true 35 (-1) <= 0)%Q) by (vm_compute; discriminate).
  split; [exact H|].
  exact (proj1 (nonpositive_price_rejected (fun _ => None) true 35 (-1) H)).
Defined.



(** Against C10 as stated: a positive price just below 0.000001 with 29
    digits is scaled to 1, not to 0; quoted as a JSON string, it reaches
    the contract as the price 1. *)
Lemma sub_micro_price_scaled_to_one :
  (0 < Decimal_value false 99999999999999999999999999999 (-35))%Q /\
  (Decimal_value false 99999999999999999999999999999 (-35) < 1 # 1000000)%Q /\
  normalize_price price_below_micro = Returns (Some 1) /\
  outcome (_fetch_commodity parse_example
             (http_wti (JString "9.9999999999999999999999999999E-7")) "CL=F")
  = Returns (Some price_below_micro) /\
  In (SubmitBatch [Web3_keccak_text "CRUDE_OIL_WTI"] [1])
     (trace (cycle parse_example 60
               (world_of (http_wti (JString "9.9999999999999999999999999999E-7"))))).
Proof.
  split; [vm_compute; reflexivity|].
  split; [vm_compute; reflexivity|].
  split; [vm_compute; reflexivity|].
  split; [vm_compute; reflexivity|].
  vm_compute. repeat (first [left; reflexivity | right]).
Qed.

Lemma sub_micro_price_scaled_to_zero_witness :
  (0 < 1)%N /\
  ndigits (Z.of_N 1) <= prec DefaultContext /\
  (Decimal_value false 1 (-7) < 1 # 1000000)%Q /\
  normalize_price (Finite false 1 (-7)) = Returns (Some 0).
Proof.
  assert (H1 : (0 < 1)%N) by reflexivity.
  assert (H2 : ndigits (Z.of_N 1) <= prec DefaultContext)
    by (vm_compute; discriminate).
  assert (H3 : (Decimal_value false 1 (-7) < 1 # 1000000)%Q)
    by (vm_compute; reflexivity).
  split; [exact H1|]. split; [exact H2|]. split; [exact H3|].
  exact (proj1 (proj2 (sub_micro_price_scaled_to_zero (fun _ => None) 60
                         1 (-7) H1 H2 H3))).
Defined.

(** A price of a tenth of a millionth of a dollar reaches the contract as
    the price 0. *)
Example zero_price_submitted :
  In (SubmitBatch [Web3_keccak_text "CRUDE_OIL_WTI"] [0])
     (trace (cycle (fun _ => None) 60
                   (world_of (http_wti (JNumber price_tenth_micro))))).
Proof. vm_compute. repeat (first [left; reflexivity | right]). Qed.

(** Three fetches succeed and two fail: the batch lists the three, in the
    order of the registry. *)
Example three_of_five_submitted :
  In (SubmitBatch [Web3_keccak_text "CRUDE_OIL_WTI";
                   Web3_keccak_text "CRUDE_OIL_BRENT";
                   Web3_keccak_text "XAU_USD"]
                  [82355001; 86120000; 2341500000])
     (trace (cycle (fun _ => None) 60 (world_of http_three_of_five))).
Proof. vm_compute. repeat (first [left; reflexivity | right]). Qed.

(* ===================================================================== *)
(** * The further properties at concrete inputs *)
(* ===================================================================== *)

Lemma fetch_all_prices_lookup_witness :
  fetch_all_prices (fun _ => None) http_three_of_five
  = (trace (fetch_all_prices (fun _ => None) http_three_of_five),
     Returns [("CRUDE_OIL_WTI"%string, 82355001);
              ("CRUDE_OIL_BRENT"%string, 86120000);
              ("XAU_USD"%string, 2341500000)]) /\
  NoDup (keys [("CRUDE_OIL_WTI"%string, 82355001);
               ("CRUDE_OIL_BRENT"%string, 86120000);
               ("XAU_USD"%string, 2341500000)]) /\
  (dict_get [("CRUDE_OIL_WTI"%string, 82355001);
             ("CRUDE_OIL_BRENT"%string, 86120000);
             ("XAU_USD"%string, 2341500000)] "XAU_USD" = Some 2341500000 <->
   exists (fetch : fetch_fn) (p : Decimal),
     In ("XAU_USD"%string, fetch) (COMMODITY_SOURCES (fun _ => None)) /\
     outcome (fetch http_three_of_five) = Returns (Some p) /\
     normalize_price p = Returns (Some 2341500000)).
Proof.
  assert (H1 : fetch_all_prices (fun _ => None) http_three_of_five
    = (trace (fetch_all_prices (fun _ => None) http_three_of_five),
       Returns [("CRUDE_OIL_WTI"%string, 82355001);
                ("CRUDE_OIL_BRENT"%string, 86120000);
                ("XAU_USD"%string, 2341500000)]))
    by (vm_compute; reflexivity).
  split; [exact H1|].
  exact (fetch_all_prices_lookup (fun _ => None) http_three_of_five _ _
           "XAU_USD" 2341500000 H1).
Defined.

Lemma scaled_price_brackets_witness :
  (0 < 823550019)%N /\ (0 < 82355001)%N /\
  ndigits (Z.of_N 82355001) <= prec DefaultContext /\
  normalize_price (Finite false 823550019 (-7)) = Returns (Some 82355001) /\
  ((Decimal_value false 82355001 (-6) <= Decimal_value false 823550019 (-7))%Q ->
   Z.of_N 82355001 <= 82355001) /\
  ((Decimal_value false 823550019 (-7) <= Decimal_value false 82355001 (-6))%Q ->
   82355001 <= Z.of_N 82355001).
Proof.
  assert (H1 : (0 < 823550019)%N) by reflexivity.
  assert (H2 : (0 < 82355001)%N) by reflexivity.
  assert (H3 : ndigits (Z.of_N 82355001) <= prec DefaultContext)
    by (vm_compute; discriminate).
  assert (H4 : normalize_price (Finite false 823550019 (-7))
               = Returns (Some 82355001)) by (vm_compute; reflexivity).
  split; [exact H1|]. split; [exact H2|]. split; [exact H3|]. split; [exact H4|].
  exact (scaled_price_brackets 823550019 82355001 (-7) 82355001 H1 H2 H3 H4).
Defined.

Lemma six_decimals_scaled_exactly_witness :
  (0 < 8236)%N /\
  ndigits (Z.of_N 8236) <= prec DefaultContext /\
  ndigits (Z.of_N 8236) + (-2) + 5 <= Emax DefaultContext /\
  -6 <= -2 /\
  normalize_price (Finite false 8236 (-2))
  = Returns (Some (Z.of_N 8236 * 10 ^ (-2 + 6))) /\
  (Decimal_value false 8236 (-2)
   == inject_Z (Z.of_N 8236 * 10 ^ (-2 + 6)) * (1 # 1000000))%Q.
Proof.
  assert (H1 : (0 < 8236)%N) by reflexivity.
  assert (H2 : ndigits (Z.of_N 8236) <= prec DefaultContext)
    by (vm_compute; discriminate).
  assert (H3 : ndigits (Z.of_N 8236) + (-2) + 5 <= Emax DefaultContext)
    by (vm_compute; discriminate).
  assert (H4 : -6 <= -2) by lia.
  split; [exact H1|]. split; [exact H2|]. split; [exact H3|]. split; [exact H4|].
  exact (six_decimals_scaled_exactly 8236 (-2) H1 H2 H3 H4).
Defined.

Lemma normalize_price_overflow_threshold_witness :
  (0 < 1)%N /\
  (Emax DefaultContext < ndigits (Z.of_N 1) + 999994 + 5 ->
   normalize_price (Finite false 1 999994) = Raises Overflow) /\
  (ndigits (Z.of_N 1) + 999994 + 5 < Emax DefaultContext ->
   exists raw, normalize_price (Finite false 1 999994) = Returns (Some raw)).
Proof.
  assert (H1 : (0 < 1)%N) by reflexivity.
  split; [exact H1|].
  exact (normalize_price_overflow_threshold 1 999994 H1).
Defined.

Lemma bad_price_aborts_cycle_witness :
  In ("CRUDE_OIL_WTI"%string,
      fun w => _fetch_commodity (fun _ => None) w "CL=F")
     (COMMODITY_SOURCES (fun _ => None)) /\
  outcome (_fetch_commodity (fun _ => None)
             (http (world_of (http_wti (JNumber NaN)))) "CL=F")
  = Returns (Some NaN) /\
  normalize_price NaN = Raises InvalidOperation /\
  exists e,
    (e = InvalidOperation \/ e = Overflow \/ e = OverflowError) /\
    outcome (cycle (fun _ => None) 60 (world_of (http_wti (JNumber NaN))))
    = Raises e /\
    existsb is_chain_call
      (trace (cycle (fun _ => None) 60 (world_of (http_wti (JNumber NaN)))))
    = false /\
    existsb is_sleep
      (trace (cycle (fun _ => None) 60 (world_of (http_wti (JNumber NaN)))))
    = false /\
    (forall fuel world n,
       world n = world_of (http_wti (JNumber NaN)) ->
       main_loop (fun _ => None) 60 (S fuel) world n
       = (trace (cycle (fun _ => None) 60 (world_of (http_wti (JNumber NaN)))),
          Raises e)).
Proof.
  assert (H1 : In ("CRUDE_OIL_WTI"%string,
                   fun w => _fetch_commodity (fun _ => None) w "CL=F")
                  (COMMODITY_SOURCES (fun _ => None)))
    by (left; reflexivity).
  assert (H2 : outcome (_fetch_commodity (fun _ => None)
                          (http (world_of (http_wti (JNumber NaN)))) "CL=F")
               = Returns (Some NaN)) by (vm_compute; reflexivity).
  assert (H3 : normalize_price NaN = Raises InvalidOperation)
    by (vm_compute; reflexivity).
  split; [exact H1|]. split; [exact H2|]. split; [exact H3|].
  exact (bad_price_aborts_cycle (fun _ => None) 60
           (world_of (http_wti (JNumber NaN)))
           ("CRUDE_OIL_WTI"%string,
            fun w => _fetch_commodity (fun _ => None) w "CL=F")
           NaN InvalidOperation H1 H2 H3).
Defined.

Lemma submitted_batch_distinct_witness :
  In (SubmitBatch (map Web3_keccak_text
                     ["CRUDE_OIL_WTI"; "CRUDE_OIL_BRENT"; "XAU_USD"]%string)
                  [82355001; 86120000; 2341500000])
     (trace (cycle (fun _ => None) 60 (world_of http_three_of_five))) /\
  NoDup (map Web3_keccak_text
           ["CRUDE_OIL_WTI"; "CRUDE_OIL_BRENT"; "XAU_USD"]%string) /\
  (List.length (map Web3_keccak_text
                  ["CRUDE_OIL_WTI"; "CRUDE_OIL_BRENT"; "XAU_USD"]%string)
   <= 5)%nat /\
  Forall (fun id => In id (map snd (COMMODITY_IDS (fun _ => None))))
         (map Web3_keccak_text
            ["CRUDE_OIL_WTI"; "CRUDE_OIL_BRENT"; "XAU_USD"]%string).
Proof.
  assert (H1 : In (SubmitBatch (map Web3_keccak_text
                     ["CRUDE_OIL_WTI"; "CRUDE_OIL_BRENT"; "XAU_USD"]%string)
                     [82355001; 86120000; 2341500000])
                  (trace (cycle (fun _ => None) 60 (world_of http_three_of_five))))
    by (vm_compute; repeat ((left; reflexivity) || right)).
  split; [exact H1|].
  exact (submitted_batch_distinct (fun _ => None) 60
           (world_of http_three_of_five) _ _ H1).
Defined.

Lemma submit_prices_all_calls_succeed_witness :
  fetch_all_prices (fun _ => None) http_three_of_five
  = (trace (fetch_all_prices (fun _ => None) http_three_of_five),
     Returns [("CRUDE_OIL_WTI"%string, 82355001);
              ("CRUDE_OIL_BRENT"%string, 86120000);
              ("XAU_USD"%string, 2341500000)]) /\
  submit_prices (fun _ => None) chain_ok
    [("CRUDE_OIL_WTI"%string, 82355001);
     ("CRUDE_OIL_BRENT"%string, 86120000);
     ("XAU_USD"%string, 2341500000)]
  = ([GetTransactionCount;
      SubmitBatch (map Web3_keccak_text
                     ["CRUDE_OIL_WTI"; "CRUDE_OIL_BRENT"; "XAU_USD"]%string)
                  [82355001; 86120000; 2341500000];
      GasPrice; BuildTransaction 7 500000 100000000000; SignTransaction;
      SendRawTransaction; WaitForTransactionReceipt 48879 60;
      Log INFO (Log_batch_submitted 48879 3)],
     Returns tt).
Proof.
  assert (H1 : fetch_all_prices (fun _ => None) http_three_of_five
    = (trace (fetch_all_prices (fun _ => None) http_three_of_five),
       Returns [("CRUDE_OIL_WTI"%string, 82355001);
                ("CRUDE_OIL_BRENT"%string, 86120000);
                ("XAU_USD"%string, 2341500000)]))
    by (vm_compute; reflexivity).
  assert (H2 : [("CRUDE_OIL_WTI"%string, 82355001);
                ("CRUDE_OIL_BRENT"%string, 86120000);
                ("XAU_USD"%string, 2341500000)] <> []) by discriminate.
  split; [exact H1|].
  exact (submit_prices_all_calls_succeed (fun _ => None) chain_ok
           http_three_of_five _ _ 7 100000000000 48879 1
           H1 H2 eq_refl eq_refl eq_refl eq_refl eq_refl eq_refl eq_refl).
Defined.

Lemma submit_prices_unregistered_key_witness :
  In "COPPER"%string (keys [("COPPER"%string, 4100000)]) /\
  ~ In "COPPER"%string (keys (COMMODITY_SOURCES (fun _ => None))) /\
  exists k',
    submit_prices (fun _ => None) chain_ok [("COPPER"%string, 4100000)]
    = ([], Raises (KeyError k')) /\
    In k' (keys [("COPPER"%string, 4100000)]) /\
    ~ In k' (keys (COMMODITY_SOURCES (fun _ => None))).
Proof.
  assert (H1 : In "COPPER"%string (keys [("COPPER"%string, 4100000)]))
    by (left; reflexivity).
  assert (H2 : ~ In "COPPER"%string (keys (COMMODITY_SOURCES (fun _ => None))))
    by (cbn; intuition discriminate).
  split; [exact H1|]. split; [exact H2|].
  exact (submit_prices_unregistered_key (fun _ => None) chain_ok
           [("COPPER"%string, 4100000)] "COPPER" H1 H2).
Defined.

Lemma main_loop_back_to_back_witness :
  (forall k, (k < 3)%nat ->
     outcome (cycle (fun _ => None) 60 (world_all_down (0 + k)%nat)) = Returns tt) /\
  main_loop (fun _ => None) 60 3 world_all_down 0
  = (List.concat (map (fun k => trace (cycle (fun _ => None) 60 (world_all_down k)))
                      (seq 0 3)),
     Returns tt).
Proof.
  assert (H1 : forall k, (k < 3)%nat ->
     outcome (cycle (fun _ => None) 60 (world_all_down (0 + k)%nat)) = Returns tt)
    by (intros k _; vm_compute; reflexivity).
  split; [exact H1|].
  exact (main_loop_back_to_back (fun _ => None) 60 3 world_all_down 0 H1).
Defined.

Lemma main_loop_first_failure_witness :
  (2 < 5)%nat /\
  (forall k, (k < 2)%nat ->
     outcome (cycle (fun _ => None) 60 (world_third_cycle_fails (0 + k)%nat))
     = Returns tt) /\
  outcome (cycle (fun _ => None) 60 (world_third_cycle_fails (0 + 2)%nat))
  = Raises (Web3Exception "connection refused") /\
  main_loop (fun _ => None) 60 5 world_third_cycle_fails 0
  = (List.concat (map (fun k => trace (cycle (fun _ => None) 60
                                         (world_third_cycle_fails k)))
                      (seq 0 3)),
     Raises (Web3Exception "connection refused")).
Proof.
  assert (H1 : (2 < 5)%nat) by lia.
  assert (H2 : forall k, (k < 2)%nat ->
     outcome (cycle (fun _ => None) 60 (world_third_cycle_fails (0 + k)%nat))
     = Returns tt).
  { intros k Hk. destruct k as [|[|k]]; [vm_compute; reflexivity ..|lia]. }
  assert (H3 : outcome (cycle (fun _ => None) 60
                          (world_third_cycle_fails (0 + 2)%nat))
               = Raises (Web3Exception "connection refused"))
    by (vm_compute; reflexivity).
  split; [exact H1|]. split; [exact H2|]. split; [exact H3|].
  exact (main_loop_first_failure (fun _ => None) 60 5 2
           world_third_cycle_fails 0 _ H1 H2 H3).
Defined.

Lemma negative_interval_ends_loop_witness :
  -1 < 0 /\
  exists e,
    main_loop (fun _ => None) (-1) 5 world_all_down 0
    = (trace (cycle (fun _ => None) (-1) (world_all_down 0)), Raises e) /\
    existsb is_sleep (trace (cycle (fun _ => None) (-1) (world_all_down 0)))
    = false /\
    (forall prices,
       outcome (fetch_all_prices (fun _ => None) (http (world_all_down 0)))
       = Returns prices ->
       (prices = [] \/
        outcome (submit_prices (fun _ => None) (chain (world_all_down 0)) prices)
        = Returns tt) ->
       e = if -1 <=? -9223372037 then OverflowError else ValueError).
Proof.
  assert (H1 : -1 < 0) by lia.
  split; [exact H1|].
  exact (negative_interval_ends_loop (fun _ => None) (-1) 4 world_all_down 0 H1).
Defined.

Lemma main_unreachable_endpoint_exits_witness :
  from_key startup_unreachable
  = Ok "0x0000000000000000000000000000000000000002"%string /\
  (SAPPHIRE_AVAILABLE startup_unreachable = true ->
   sapphire_wrap startup_unreachable = Ok tt) /\
  is_connected startup_unreachable = Ok false /\
  snd (main (fun _ => None) 60 startup_unreachable 5 world_all_down)
  = Raises (SystemExit 1) /\
  is_Exception (SystemExit 1) = false /\
  last (fst (main (fun _ => None) 60 startup_unreachable 5 world_all_down)) FromKey
  = Startup_log ERROR (Log_cannot_connect (RPC_URL startup_unreachable)) /\
  ~ In ChainId (fst (main (fun _ => None) 60 startup_unreachable 5 world_all_down)) /\
  ~ In (Contract (CONTRACT_ADDRESS startup_unreachable))
       (fst (main (fun _ => None) 60 startup_unreachable 5 world_all_down)) /\
  loop_events (fst (main (fun _ => None) 60 startup_unreachable 5 world_all_down))
  = [].
Proof.
  assert (H1 : from_key startup_unreachable
               = Ok "0x0000000000000000000000000000000000000002"%string)
    by reflexivity.
  assert (H2 : SAPPHIRE_AVAILABLE startup_unreachable = true ->
               sapphire_wrap startup_unreachable = Ok tt)
    by (intros _; reflexivity).
  assert (H3 : is_connected startup_unreachable = Ok false) by reflexivity.
  split; [exact H1|]. split; [exact H2|]. split; [exact H3|].
  exact (main_unreachable_endpoint_exits (fun _ => None) 60 startup_unreachable
           5 world_all_down _ H1 H2 H3).
Defined.

Lemma normalize_price_respects_value_witness :
  (0 < 825)%N /\ (0 < 8250)%N /\
  (Decimal_value false 825 (-1) == Decimal_value false 8250 (-2))%Q /\
  normalize_price (Finite false 825 (-1)) = normalize_price (Finite false 8250 (-2)).
Proof.
  assert (H1 : (0 < 825)%N) by reflexivity.
  assert (H2 : (0 < 8250)%N) by reflexivity.
  assert (H3 : (Decimal_value false 825 (-1) == Decimal_value false 8250 (-2))%Q)
    by (vm_compute; reflexivity).
  split; [exact H1|]. split; [exact H2|]. split; [exact H3|].
  exact (normalize_price_respects_value 825 8250 (-1) (-2) H1 H2 H3).
Defined.

Lemma reverted_transaction_cycle_completes_witness :
  0 <= 60 < 9223372037 /\
  fetch_all_prices (fun _ => None) http_three_of_five
  = (trace (fetch_all_prices (fun _ => None) http_three_of_five),
     Returns [("CRUDE_OIL_WTI"%string, 82355001);
              ("CRUDE_OIL_BRENT"%string, 86120000);
              ("XAU_USD"%string, 2341500000)]) /\
  cycle (fun _ => None) 60 {| http := http_three_of_five; chain := chain_reverts;
                              os_sleep := fun _ => Ok tt |}
  = (Log INFO Log_fetching ::
     trace (fetch_all_prices (fun _ => None) http_three_of_five) ++
     [GetTransactionCount;
      SubmitBatch (map Web3_keccak_text
                     ["CRUDE_OIL_WTI"; "CRUDE_OIL_BRENT"; "XAU_USD"]%string)
                  [82355001; 86120000; 2341500000];
      GasPrice; BuildTransaction 7 500000 100000000000; SignTransaction;
      SendRawTransaction; WaitForTransactionReceipt 48879 60;
      Log ERROR (Log_transaction_failed 48879);
      Sleep 60],
     Returns tt).
Proof.
  assert (H0 : 0 <= 60 < 9223372037) by lia.
  assert (H1 : fetch_all_prices (fun _ => None) http_three_of_five
    = (trace (fetch_all_prices (fun _ => None) http_three_of_five),
       Returns [("CRUDE_OIL_WTI"%string, 82355001);
                ("CRUDE_OIL_BRENT"%string, 86120000);
                ("XAU_USD"%string, 2341500000)]))
    by (vm_compute; reflexivity).
  assert (H2 : [("CRUDE_OIL_WTI"%string, 82355001);
                ("CRUDE_OIL_BRENT"%string, 86120000);
                ("XAU_USD"%string, 2341500000)] <> []) by discriminate.
  assert (H3 : 0 <> 1) by lia.
  split; [exact H0|]. split; [exact H1|].
  exact (reverted_transaction_cycle_completes (fun _ => None) 60
           {| http := http_three_of_five; chain := chain_reverts;
              os_sleep := fun _ => Ok tt |}
           _ _ 7 100000000000 48879 0
           H0 eq_refl H1 H2 eq_refl eq_refl eq_refl eq_refl eq_refl eq_refl eq_refl H3).
Defined.

Lemma demo_signed_view_call_unknown_status_witness :
  Interact.signed_orders Interact.demo_unknown_status
  = Ok ([Interact.example_order 1 0] ++
        Interact.example_order 2 3 :: [Interact.example_order 3 1]) /\
  forallb Interact.printable [Interact.example_order 1 0] = true /\
  (Interact.status (Interact.example_order 2 3) < -3 \/
   3 <= Interact.status (Interact.example_order 2 3)) /\
  snd (Interact.demo_signed_view_call Interact.demo_unknown_status
         "0x0000000000000000000000000000000000000002")
  = Raises IndexError /\
  List.length (filter Interact.is_print_order
                 (fst (Interact.demo_signed_view_call Interact.demo_unknown_status
                         "0x0000000000000000000000000000000000000002")))
  = List.length [Interact.example_order 1 0].
Proof.
  assert (H5 : Interact.signed_orders Interact.demo_unknown_status
               = Ok ([Interact.example_order 1 0] ++
                     Interact.example_order 2 3 :: [Interact.example_order 3 1]))
    by reflexivity.
  assert (H6 : forallb Interact.printable [Interact.example_order 1 0] = true)
    by (vm_compute; reflexivity).
  assert (H7 : Interact.status (Interact.example_order 2 3) < -3 \/
               3 <= Interact.status (Interact.example_order 2 3))
    by (right; cbn; lia).
  split; [exact H5|]. split; [exact H6|]. split; [exact H7|].
  exact (demo_signed_view_call_unknown_status Interact.demo_unknown_status
           "0x0000000000000000000000000000000000000002" []
           [Interact.example_order 1 0] [Interact.example_order 3 1]
           (Interact.example_order 2 3)
           eq_refl eq_refl eq_refl eq_refl H5 H6 H7).
Defined.

Lemma demo_read_price_catches_call_failure_witness :
  Interact.price_contract Interact.demo_example = Ok tt /\
  snd (Interact.demo_read_price Interact.demo_example) = Returns tt /\
  exists line,
    fst (Interact.demo_read_price Interact.demo_example)
    = [Interact.Print Interact.Print_read_price_header;
       Interact.ContractAt (Interact.ATTESTATION_ADDR Interact.demo_example);
       Interact.CallGetPrice Interact.CRUDE_OIL;
       Interact.Print line] /\
    line = match Interact.get_price Interact.demo_example with
           | Ok (price, updated_at) =>
               if Z.abs price <? Interact.float_overflow
               then Interact.Print_price price updated_at
               else Interact.Print_not_available OverflowError
           | Fails what => Interact.Print_not_available (Web3Exception what)
           end.
Proof.
  assert (H : Interact.price_contract Interact.demo_example = Ok tt)
    by reflexivity.
  split; [exact H|].
  exact (demo_read_price_catches_call_failure Interact.demo_example H).
Defined.

Lemma demo_place_order_all_calls_succeed_witness :
  Interact.place_receipt Interact.demo_example = Ok 0 /\
  Interact.demo_place_order Interact.demo_example
    "0x0000000000000000000000000000000000000002"
  = ([Interact.Print Interact.Print_place_order_header;
      Interact.SapphireWrap;
      Interact.ContractAt (Interact.ORDER_BOOK_ADDR Interact.demo_example);
      Interact.GetTransactionCount "0x0000000000000000000000000000000000000002";
      Interact.PlaceOrder (Web3_keccak_text "CRUDE_OIL_WTI")
                          50000000000000000000000 85000000 0;
      Interact.GasPrice;
      Interact.BuildTransaction "0x0000000000000000000000000000000000000002"
                                7 700000 100000000000;
      Interact.SignTransaction;
      Interact.SendRawTransaction;
      Interact.WaitForTransactionReceipt 48879;
      Interact.Print (Interact.Print_tx 48879);
      Interact.Print (Interact.Print_status "FAILED")],
     Returns tt).
Proof.
  assert (H : Interact.place_receipt Interact.demo_example = Ok 0) by reflexivity.
  split; [exact H|].
  exact (demo_place_order_all_calls_succeed Interact.demo_example
           "0x0000000000000000000000000000000000000002" 7 100000000000 48879 0
           eq_refl eq_refl eq_refl eq_refl eq_refl eq_refl eq_refl eq_refl H).
Defined.
